(** * telnyx-text-to-email: the webhook worker of [src/index.js]

    A shallow embedding of the Cloudflare Worker that relays inbound
    Telnyx SMS/MMS events either to Mailgun (as an email) or back to
    Telnyx (as an automatic reply), and the properties of its
    specification proved over that embedding.

    Conventions of the embedding
    - A JavaScript string is a [string]: a sequence of code units, here
      restricted to the range 0..255.
    - A JavaScript value is a [value]: the values [JSON.parse] can build,
      plus [undefined].  Numbers are kept abstract ([number]).
    - An [async] function that may throw and that performs outbound HTTP
      calls or writes to the console is a computation in the monad [M]:
      it maps the world (trace of calls, console) to an outcome and the
      new world; what was done before a [throw] stays done.
    - What the runtime provides ([JSON.parse], [btoa], [Date] formatting,
      number printing) is the interface [Platform]; the network is the
      section variable [net]. *)

From Stdlib Require Import String Ascii List Bool Arith Lia DecimalString.
Import ListNotations.
Local Open Scope list_scope.
Local Open Scope string_scope.

Set Implicit Arguments.
Set Warnings "-register-all".

(* ================================================================== *)
(** ** JavaScript values *)
(* ================================================================== *)

Inductive value (number : Type) : Type :=
| VUndefined
| VNull
| VBool (b : bool)
| VNum (n : number)
| VStr (s : string)
| VArr (items : list (value number))
| VObj (fields : list (string * value number)).

Arguments VUndefined {number}.
Arguments VNull {number}.
Arguments VBool {number} b.
Arguments VNum {number} n.
Arguments VStr {number} s.
Arguments VArr {number} items.
Arguments VObj {number} fields.

(** What a JavaScript exception is does not matter to the worker: its
    only handlers catch everything.  The tag records where it came from. *)
Inductive exn : Type :=
| TypeError (what : string)
| SyntaxError
| NetworkError.

Inductive result (A : Type) : Type :=
| Ok (a : A)
| Throw (e : exn).

Arguments Ok {A} a.
Arguments Throw {A} e.

(* ================================================================== *)
(** ** Strings *)
(* ================================================================== *)

Module Str.

Definition code (c : ascii) : nat := nat_of_ascii c.

(** [\d] without the unicode flag: the ten ASCII digits. *)
Definition is_digit (c : ascii) : bool :=
  ((48 <=? code c) && (code c <=? 57))%nat.

(** White space and line terminators of ECMAScript that fall in the
    range 0..255: TAB, LF, VT, FF, CR, SP, NBSP. *)
Definition is_space (c : ascii) : bool :=
  let n := code c in
  (((9 <=? n) && (n <=? 13)) || (n =? 32) || (n =? 160))%nat.

Definition is_empty (s : string) : bool :=
  match s with EmptyString => true | String _ _ => false end.

Fixpoint trimStart (s : string) : string :=
  match s with
  | EmptyString => EmptyString
  | String c rest => if is_space c then trimStart rest else s
  end.

Fixpoint trimEnd (s : string) : string :=
  match s with
  | EmptyString => EmptyString
  | String c rest =>
      let t := trimEnd rest in
      if is_space c && is_empty t then EmptyString else String c t
  end.

(** [String.prototype.trim] *)
Definition trim (s : string) : string := trimEnd (trimStart s).

(** [String.prototype.startsWith] *)
Fixpoint startsWith (s p : string) {struct p} : bool :=
  match p with
  | EmptyString => true
  | String a p' =>
      match s with
      | EmptyString => false
      | String b s' => Ascii.eqb a b && startsWith s' p'
      end
  end.

(** [s.replace(/\D/g, '')]: every non-digit removed, the digits kept in
    order. *)
Fixpoint stripNonDigits (s : string) : string :=
  match s with
  | EmptyString => EmptyString
  | String c rest =>
      if is_digit c then String c (stripNonDigits rest)
      else stripNonDigits rest
  end.

(** The number of digit characters of a string. *)
Fixpoint countDigits (s : string) : nat :=
  match s with
  | EmptyString => 0
  | String c rest => (if is_digit c then 1 else 0) + countDigits rest
  end.

(** [x] occurs in [s] as a contiguous substring. *)
Definition contains (s x : string) : Prop :=
  exists pre post, s = pre ++ x ++ post.

(** The double quote and the line feed, which the HTML fragments and
    the plain-text body contain. *)
Definition dquote : string := String (ascii_of_nat 34) EmptyString.
Definition nl : string := String (ascii_of_nat 10) EmptyString.

(** The code units of a string as one-character strings: what
    iterating a string yields in the modelled range. *)
Fixpoint chars (s : string) : list string :=
  match s with
  | EmptyString => nil
  | String c rest => String c EmptyString :: chars rest
  end.

End Str.

(* ================================================================== *)
(** ** Constants of the worker *)
(* ================================================================== *)

Definition ROUTE_KEY_PREFIX : string := "route:".
Definition E164_MIN_DIGITS : nat := 8.
Definition E164_MAX_DIGITS : nat := 15.

(* ================================================================== *)
(** ** What the runtime provides *)
(* ================================================================== *)

(** The built-ins the worker calls and does not define.
    - [number_truthy n]: [ToBoolean] of a number (false on zero and NaN);
    - [number_to_string n]: [ToString] of a number;
    - [JSON_parse s]: [JSON.parse(s)], [None] when it throws;
    - [btoa s]: base64 of a string of code units below 256 (total there);
    - [toLocaleString v]: what [new Date(v).toLocaleString("en-US",
      {timeZone: "America/Chicago", timeZoneName: "short"})] returns
      when [new Date(v)] does not throw, ["Invalid Date"] included; the
      worker reaches it through [friendlyDateOf]. *)
Class Platform (number : Type) : Type := {
  number_truthy : number -> bool;
  number_to_string : number -> string;
  JSON_parse : string -> option (value number);
  btoa : string -> string;
  toLocaleString : value number -> string
}.

(* ================================================================== *)
(** ** Requests, responses and the outside world *)
(* ================================================================== *)

(** The inbound webhook request: its method and its body text, which
    [request.json()] parses. *)
Record Request : Type := {
  method : string;
  body : string
}.

(** [new Response(text, { status })] *)
Record Response : Type := {
  response_text : string;
  status : nat
}.

(** The body handed to the global [fetch]. *)
Inductive Body (number : Type) : Type :=
| NoBody
| JsonBody (v : value number)
| FormBody (fields : list (string * string)).

Arguments NoBody {number}.
Arguments JsonBody {number} v.
Arguments FormBody {number} fields.

(** One call of the global [fetch]: [JsonBody v] is the text
    [JSON.stringify(v)], [FormBody fs] is [new URLSearchParams(fs)]. *)
Record HttpCall (number : Type) : Type := {
  call_url : string;
  call_method : string;
  call_headers : list (string * string);
  call_body : Body number
}.

(** What came back: [ok] is [response.ok]; [payload] is what
    [response.text()] or [response.arrayBuffer()] reads, [None] when
    reading rejects. *)
Record HttpResponse : Type := {
  ok : bool;
  payload : option string
}.

(** The promise of a [fetch] rejects or resolves to a response. *)
Inductive Outcome : Type :=
| Rejected
| Resolved (r : HttpResponse).

(** The world a request changes: the outbound calls made, oldest first,
    and the lines written with [console.error]. *)
Record World (number : Type) : Type := {
  calls : list (HttpCall number);
  console : list string
}.

(** The bindings of [env].  A key-value read may reject; [Ok None] is
    the [null] of an absent key. *)
Record Env (number : Type) : Type := {
  NUMBER_TO_EMAIL : string -> result (option string);
  FROM_EMAIL : value number;
  MAILGUN_DOMAIN : value number;
  MAILGUN_API_KEY : value number;
  TELNYX_API_KEY : value number
}.

(* ================================================================== *)
(** ** The worker *)
(* ================================================================== *)

Section Worker.

Context {number : Type} {P : Platform number}.

#[local] Abbreviation value := (value number).
#[local] Abbreviation HttpCall := (HttpCall number).
#[local] Abbreviation World := (World number).
#[local] Abbreviation Env := (Env number).

(** The network: what a call resolves to, given the calls made before it. *)
Variable net : list HttpCall -> HttpCall -> Outcome.

(** *** The operators of the language *)

(** [ToBoolean] *)
Definition truthy (v : value) : bool :=
  match v with
  | VUndefined | VNull => false
  | VBool b => b
  | VNum n => number_truthy n
  | VStr s => negb (Str.is_empty s)
  | VArr _ | VObj _ => true
  end.

Definition nullish (v : value) : bool :=
  match v with
  | VUndefined | VNull => true
  | _ => false
  end.

(** [typeof v === 'string'] *)
Definition is_string (v : value) : bool :=
  match v with VStr _ => true | _ => false end.

(** [v === s] for a string literal [s] *)
Definition strict_eq_str (v : value) (s : string) : bool :=
  match v with VStr t => t =? s | _ => false end.

Fixpoint lookup (name : string) (fields : list (string * value)) : value :=
  match fields with
  | nil => VUndefined
  | (k, v) :: rest => if k =? name then v else lookup name rest
  end.

(** [v.name], for the property names the worker reads ([data],
    [event_type], [payload], [direction], [from], [to], [phone_number],
    [text], [media], [content_type], [url], [occurred_at], [mode],
    [reply_text], [email]): none of them is defined on a built-in
    prototype, so on a string, number, boolean or array the result is
    [undefined]; on [null] and [undefined] it is a [TypeError]. *)
Definition get (v : value) (name : string) : result value :=
  match v with
  | VUndefined | VNull => Throw (TypeError name)
  | VObj fields => Ok (lookup name fields)
  | _ => Ok VUndefined
  end.

(** [v?.name], same property names *)
Definition get_opt (v : value) (name : string) : value :=
  match v with
  | VObj fields => lookup name fields
  | _ => VUndefined
  end.

(** [v[0]] on an array *)
Definition first (items : list value) : value :=
  match items with
  | nil => VUndefined
  | x :: _ => x
  end.

(** [ToString] where it returns: on an object it is
    [Object.prototype.toString], on an array [join].  Whether it returns
    is [printable], below: the worker converts a value of the request or
    of a route through [stringOf], [interpolate] or [friendlyDateOf],
    which throw where it does not.  The bindings of the environment,
    which are texts or missing, are printed with it. *)
Fixpoint ToString (v : value) : string :=
  match v with
  | VUndefined => "undefined"
  | VNull => "null"
  | VBool true => "true"
  | VBool false => "false"
  | VNum n => number_to_string n
  | VStr s => s
  | VArr items =>
      (fix join (l : list value) : string :=
         match l with
         | nil => EmptyString
         | x :: rest =>
             (if nullish x then EmptyString else ToString x)
             ++ match rest with
                | nil => EmptyString
                | _ :: _ => "," ++ join rest
                end
         end) items
  | VObj _ => "[object Object]"
  end.

(** Where [ToString] returns at all.  On an object with an own
    [toString] property it throws a [TypeError]: no value of a JSON
    document is callable, and [valueOf] gives the object back.  On an
    array it throws when it throws on an element that is neither [null]
    nor [undefined].  [new Date(v)] converts [v] to a primitive and
    throws on the same values. *)
Fixpoint printable (v : value) : bool :=
  match v with
  | VArr items =>
      (fix all (l : list value) : bool :=
         match l with
         | nil => true
         | x :: rest => printable x && all rest
         end) items
  | VObj fields =>
      (fix own (l : list (string * value)) : bool :=
         match l with
         | nil => true
         | (k, _) :: rest => negb (k =? "toString") && own rest
         end) fields
  | _ => true
  end.

(** [ToString], as [URLSearchParams] and the global [fetch] apply it to
    a value of the request or of the route. *)
Definition stringOf (v : value) : result string :=
  if printable v then Ok (ToString v) else Throw (TypeError "toString").

(** A template literal with the values [holes] in it: [text] is what it
    evaluates to when each of them can be printed. *)
Definition interpolate (holes : list value) (text : string)
  : result string :=
  if forallb printable holes then Ok text
  else Throw (TypeError "toString").

(** [new Date(v).toLocaleString("en-US", { timeZone: "America/Chicago",
    timeZoneName: "short" })] *)
Definition friendlyDateOf (v : value) : result string :=
  if printable v then Ok (toLocaleString v)
  else Throw (TypeError "toString").

(** *** Computations *)

Definition M (A : Type) : Type := World -> result A * World.

Definition ret {A} (a : A) : M A := fun w => (Ok a, w).

Definition throw {A} (e : exn) : M A := fun w => (Throw e, w).

Definition bind {A B} (m : M A) (k : A -> M B) : M B :=
  fun w =>
    match m w with
    | (Ok a, w') => k a w'
    | (Throw e, w') => (Throw e, w')
    end.

Definition lift {A} (r : result A) : M A := fun w => (r, w).

(** [try { m } catch (error) { handler }] *)
Definition try_catch {A} (m : M A) (handler : M A) : M A :=
  fun w =>
    match m w with
    | (Ok a, w') => (Ok a, w')
    | (Throw _, w') => handler w'
    end.

(** [console.error(line)] *)
Definition console_error (line : string) : M unit :=
  fun w =>
    (Ok tt,
     {| calls := calls w; console := (console w ++ line :: nil)%list |}).

(** [await fetch(...)]: the call is recorded whether or not it resolves. *)
Definition global_fetch (c : HttpCall) : M HttpResponse :=
  fun w =>
    let w' :=
      {| calls := (calls w ++ c :: nil)%list; console := console w |} in
    match net (calls w) c with
    | Rejected => (Throw NetworkError, w')
    | Resolved r => (Ok r, w')
    end.

(** [await response.text()], [await response.arrayBuffer()] *)
Definition read_body (r : HttpResponse) : M string :=
  match payload r with
  | Some b => ret b
  | None => throw NetworkError
  end.

Notation "x <- m ;; k" := (bind m (fun x => k))
  (at level 61, m at next level, right associativity).
Notation "m ;;; k" := (bind m (fun _ => k))
  (at level 61, right associativity).

(** *** [src/index.js] *)

Definition okResponse : Response :=
  {| response_text := "OK"; status := 200 |}.

(** [normalizePhoneNumber]; the [null] it returns is [VNull]. *)
Definition normalizePhoneNumber (phoneNumber : value) : value :=
  match phoneNumber with
  | VStr s =>
      let trimmed := Str.trim s in
      if negb (Str.startsWith trimmed "+") then VNull
      else
        let digitsOnly := Str.stripNonDigits trimmed in
        if ((String.length digitsOnly <? E164_MIN_DIGITS)
            || (E164_MAX_DIGITS <? String.length digitsOnly))%nat
        then VNull
        else VStr ("+" ++ digitsOnly)
  | _ => VNull
  end.

(** [getToPhone]: the three shapes of [to], in the order of the [||]
    chain. *)
Definition getToPhone (messagePayload : value) : result value :=
  match get messagePayload "to" with
  | Throw e => Throw e
  | Ok to =>
      let fromArray :=
        match to with
        | VArr items => get_opt (first items) "phone_number"
        | _ => VBool false
        end in
      let fromObject :=
        if truthy fromArray then fromArray else get_opt to "phone_number" in
      Ok (normalizePhoneNumber (if truthy fromObject then fromObject else to))
  end.

Definition getRoute (env : Env) (toPhone : value) : M value :=
  if negb (truthy toPhone) then ret VNull
  else
    key <-
      lift (interpolate (toPhone :: nil)
              (ROUTE_KEY_PREFIX ++ ToString toPhone)) ;;
    raw <- lift (NUMBER_TO_EMAIL env key) ;;
    match raw with
    | None => ret VNull
    | Some raw =>
        if Str.is_empty raw then ret VNull
        else
          match JSON_parse raw with
          | Some route => ret route
          | None =>
              console_error "Invalid route config JSON:" ;;; ret VNull
          end
    end.

(** What the template of [buildEmailHtml] evaluates to when it does:
    [sendMailgunEmail] evaluates it through [interpolate], which throws
    when [text] cannot be printed. *)
Definition buildEmailHtml
  (fromPhone friendlyDate : string) (text : value) (mediaHtml : string)
  : string :=
  "<h2>New SMS Received</h2>" ++ Str.nl
  ++ "<p><strong>From:</strong> " ++ fromPhone ++ "</p>" ++ Str.nl
  ++ "<p><strong>Received at:</strong> " ++ friendlyDate ++ "</p>" ++ Str.nl
  ++ "<p><strong>Message:</strong> " ++ ToString text ++ "</p>" ++ Str.nl
  ++ mediaHtml.

(** The same for the template of [buildEmailText]. *)
Definition buildEmailText
  (fromPhone friendlyDate : string) (text : value) : string :=
  "New SMS Received" ++ Str.nl
  ++ "From: " ++ fromPhone ++ Str.nl
  ++ "Received at: " ++ friendlyDate ++ Str.nl
  ++ "Message: " ++ ToString text.

(** The request [sendMailgunEmail] passes to [fetch], once the bodies
    are built and [URLSearchParams] has converted the recipient. *)
Definition mailgunRequest
  (env : Env) (toEmail : value) (fromPhone friendlyDate : string)
  (text : value) (mediaHtml : string) : HttpCall :=
  {| call_url :=
       "https://api.mailgun.net/v3/" ++ ToString (MAILGUN_DOMAIN env)
       ++ "/messages";
     call_method := "POST";
     call_headers :=
       ("Authorization",
        "Basic " ++ btoa ("api:" ++ ToString (MAILGUN_API_KEY env)))
       :: ("Content-Type", "application/x-www-form-urlencoded") :: nil;
     call_body :=
       FormBody
         (("from", "SMS Alerts <" ++ ToString (FROM_EMAIL env) ++ ">")
          :: ("to", ToString toEmail)
          :: ("subject", "New SMS from " ++ fromPhone)
          :: ("html", buildEmailHtml fromPhone friendlyDate text mediaHtml)
          :: ("text", buildEmailText fromPhone friendlyDate text)
          :: nil) |}.

Definition sendMailgunEmail
  (env : Env) (toEmail : value) (fromPhone friendlyDate : string)
  (text : value) (mediaHtml : string) : M unit :=
  if negb (truthy toEmail) then
    console_error "Missing recipient email for forward_email route"
  else
    html <-
      lift (interpolate (text :: nil)
              (buildEmailHtml fromPhone friendlyDate text mediaHtml)) ;;
    plainText <-
      lift (interpolate (text :: nil)
              (buildEmailText fromPhone friendlyDate text)) ;;
    formData <- lift (stringOf toEmail) ;;
    mailgunResponse <-
      global_fetch
        (mailgunRequest env toEmail fromPhone friendlyDate text mediaHtml) ;;
    if negb (ok mailgunResponse) then
      errorText <- read_body mailgunResponse ;;
      console_error ("Mailgun error: " ++ errorText)
    else ret tt.

(** The request [sendTelnyxReply] passes to [fetch]. *)
Definition telnyxRequest
  (env : Env) (toPhone fromPhone replyText : value) : HttpCall :=
  {| call_url := "https://api.telnyx.com/v2/messages";
     call_method := "POST";
     call_headers :=
       ("Authorization", "Bearer " ++ ToString (TELNYX_API_KEY env))
       :: ("Content-Type", "application/json") :: nil;
     call_body :=
       JsonBody
         (VObj (("from", toPhone) :: ("to", fromPhone)
                :: ("text", replyText) :: nil)) |}.

Definition sendTelnyxReply
  (env : Env) (toPhone fromPhone replyText : value) : M unit :=
  if negb (truthy (TELNYX_API_KEY env)) then
    console_error "Missing TELNYX_API_KEY for auto_reply route"
  else
    telnyxResponse <-
      global_fetch (telnyxRequest env toPhone fromPhone replyText) ;;
    if negb (ok telnyxResponse) then
      errorText <- read_body telnyxResponse ;;
      console_error ("Telnyx reply error: " ++ errorText)
    else ret tt.

(** The fragment appended for an image that was fetched. *)
Definition imageFragment (content_type base64Image : string) : string :=
  "<p><strong>Image:</strong><br><img src=" ++ Str.dquote
  ++ "data:" ++ content_type ++ ";base64," ++ base64Image ++ Str.dquote
  ++ " alt=" ++ Str.dquote ++ "MMS Image" ++ Str.dquote
  ++ " style=" ++ Str.dquote ++ "max-width: 300px;" ++ Str.dquote
  ++ "></p>".

(** The fragment appended by the [catch] of [processMedia], when its
    template can print the URL. *)
Definition failedFragment (url : value) : string :=
  "<p><strong>Image:</strong> Failed to load " ++ ToString url ++ "</p>".

(** [fetch(item.url)]: a GET of the URL, no options, once the URL is
    converted to a string. *)
Definition mediaRequest (url : value) : HttpCall :=
  {| call_url := ToString url;
     call_method := "GET";
     call_headers := nil;
     call_body := NoBody |}.

(** The body of the [for] loop of [processMedia] for one item.  Calling
    [startsWith] on a content type that is neither nullish nor a string
    is a [TypeError], outside the [try].  A URL that cannot be printed
    makes [fetch] throw inside the [try], before any call, and the
    template of the [catch] throw again, outside it. *)
Definition processMediaItem (item : value) (mediaHtml : string) : M string :=
  match get_opt item "content_type" with
  | VUndefined | VNull => ret mediaHtml
  | VStr content_type =>
      if Str.startsWith content_type "image/" then
        url <- lift (get item "url") ;;
        if truthy url then
          try_catch
            (input <- lift (stringOf url) ;;
             response <- global_fetch (mediaRequest url) ;;
             if ok response then
               arrayBuffer <- read_body response ;;
               ret (mediaHtml
                    ++ imageFragment content_type (btoa arrayBuffer))
             else ret mediaHtml)
            (console_error "Failed to fetch media:" ;;;
             fragment <-
               lift (interpolate (url :: nil) (failedFragment url)) ;;
             ret (mediaHtml ++ fragment))
        else ret mediaHtml
      else ret mediaHtml
  | _ => throw (TypeError "startsWith")
  end.

Fixpoint processMediaLoop (items : list value) (mediaHtml : string)
  : M string :=
  match items with
  | nil => ret mediaHtml
  | item :: rest =>
      mediaHtml' <- processMediaItem item mediaHtml ;;
      processMediaLoop rest mediaHtml'
  end.

(** What [for (const item of media)] iterates: the elements of an
    array, the characters of a string; anything else is not iterable. *)
Definition iterate (media : value) : result (list value) :=
  match media with
  | VArr items => Ok items
  | VStr s => Ok (map VStr (Str.chars s))
  | _ => Throw (TypeError "not iterable")
  end.

Definition processMedia (messagePayload : value) : M string :=
  media <- lift (get messagePayload "media") ;;
  items <- lift (iterate (if truthy media then media else VArr nil)) ;;
  processMediaLoop items EmptyString.

Definition getFromPhone (messagePayload : value) : string :=
  match get_opt (get_opt messagePayload "from") "phone_number" with
  | VStr fromPhone =>
      if (0 <? String.length fromPhone)%nat then fromPhone else "(Unknown)"
  | _ => "(Unknown)"
  end.

Definition getFromPhoneForReply (messagePayload : value) : value :=
  normalizePhoneNumber
    (get_opt (get_opt messagePayload "from") "phone_number").

(** [messagePayload.text || '(No text)'] *)
Definition messageText (messagePayload : value) : result value :=
  match get messagePayload "text" with
  | Throw e => Throw e
  | Ok text => Ok (if truthy text then text else VStr "(No text)")
  end.

(** The condition of the event filter, with the short circuit of [||]. *)
Definition notInboundMessage (data : value) : result bool :=
  match get data "event_type" with
  | Throw e => Throw e
  | Ok event_type =>
      if negb (strict_eq_str event_type "message.received") then Ok true
      else
        match get data "payload" with
        | Throw e => Throw e
        | Ok payload =>
            match get payload "direction" with
            | Throw e => Throw e
            | Ok direction => Ok (negb (strict_eq_str direction "inbound"))
            end
        end
  end.

(** The [auto_reply] branch of the dispatcher. *)
Definition dispatchAutoReply
  (env : Env) (route toPhone fromPhoneForReply : value) : M Response :=
  reply_text <- lift (get route "reply_text") ;;
  if negb (truthy reply_text) then
    console_error "Missing reply_text for auto_reply route" ;;;
    ret okResponse
  else if negb (truthy fromPhoneForReply) then
    console_error "Cannot auto-reply due to invalid phone format" ;;;
    ret okResponse
  else
    sendTelnyxReply env toPhone fromPhoneForReply reply_text ;;;
    ret okResponse.

(** The [forward_email] branch of the dispatcher. *)
Definition dispatchForwardEmail
  (env : Env) (data messagePayload route toPhone : value)
  (fromPhone : string) (text : value) : M Response :=
  email <- lift (get route "email") ;;
  if negb (truthy email) then
    line <-
      lift (interpolate (toPhone :: nil)
              ("Missing email in forward_email route for: "
               ++ ToString toPhone)) ;;
    console_error line ;;;
    ret okResponse
  else
    occurred_at <- lift (get data "occurred_at") ;;
    friendlyDate <- lift (friendlyDateOf occurred_at) ;;
    mediaHtml <- processMedia messagePayload ;;
    sendMailgunEmail env email fromPhone friendlyDate text mediaHtml ;;;
    ret okResponse.

(** The dispatcher: the branch on [route.mode]. *)
Definition dispatch
  (env : Env) (data messagePayload route toPhone : value)
  (fromPhone : string) (fromPhoneForReply text : value) : M Response :=
  mode <- lift (get route "mode") ;;
  if strict_eq_str mode "auto_reply" then
    dispatchAutoReply env route toPhone fromPhoneForReply
  else if strict_eq_str mode "forward_email" then
    dispatchForwardEmail env data messagePayload route toPhone fromPhone text
  else
    line <-
      lift (interpolate (mode :: nil)
              ("Unsupported route mode: " ++ ToString mode)) ;;
    console_error line ;;;
    ret okResponse.

(** The handler after the event filter: normalization, route lookup,
    dispatch. *)
Definition processInbound (env : Env) (data messagePayload : value)
  : M Response :=
  let fromPhone := getFromPhone messagePayload in
  let fromPhoneForReply := getFromPhoneForReply messagePayload in
  toPhone <- lift (getToPhone messagePayload) ;;
  text <- lift (messageText messagePayload) ;;
  if negb (truthy toPhone) then
    console_error "Missing or invalid destination phone number in payload" ;;;
    ret okResponse
  else
    route <- getRoute env toPhone ;;
    if negb (truthy route) then
      line <-
        lift (interpolate (toPhone :: nil)
                ("No route configured for destination number: "
                 ++ ToString toPhone)) ;;
      console_error line ;;;
      ret okResponse
    else
      dispatch env data messagePayload route toPhone
        fromPhone fromPhoneForReply text.

(** [await request.json()] *)
Definition request_json (request : Request) : result value :=
  match JSON_parse (body request) with
  | Some payload => Ok payload
  | None => Throw SyntaxError
  end.

(** The body of the [try] of the handler. *)
Definition handle (request : Request) (env : Env) : M Response :=
  payload <- lift (request_json request) ;;
  data <- lift (get payload "data") ;;
  skip <- lift (notInboundMessage data) ;;
  if skip then ret okResponse
  else
    messagePayload <- lift (get data "payload") ;;
    processInbound env data messagePayload.

(** The [catch] of the handler: whatever was thrown becomes a 500. *)
Definition respond (outcome : result Response * World) : Response * World :=
  match outcome with
  | (Ok response, w) => (response, w)
  | (Throw _, w) =>
      ({| response_text := "Internal Server Error"; status := 500 |},
       {| calls := calls w;
          console := (console w ++ "Worker error:" :: nil)%list |})
  end.

(** The exported handler: [fetch(request, env)]. *)
Definition fetch (request : Request) (env : Env) (w : World)
  : Response * World :=
  if negb (method request =? "POST") then
    ({| response_text := "Method not allowed"; status := 405 |}, w)
  else respond (handle request env w).

(** The world before the request. *)
Definition initial : World := {| calls := nil; console := nil |}.

(** *** The vocabulary of the specification *)

(** The event a request carries: [(await request.json()).data]. *)
Definition eventData (request : Request) : result value :=
  match request_json request with
  | Ok payload => get payload "data"
  | Throw e => Throw e
  end.

(** The request is a POST whose JSON body carries the event [data], of
    type [message.received], with the message payload [messagePayload]
    of direction [inbound]. *)
Definition inboundEvent (request : Request) (data messagePayload : value)
  : Prop :=
  method request = "POST"
  /\ eventData request = Ok data
  /\ get data "event_type" = Ok (VStr "message.received")
  /\ get data "payload" = Ok messagePayload
  /\ get messagePayload "direction" = Ok (VStr "inbound").

(** The inbound event is addressed to the canonical number [toPhone],
    and the route resolved for that number is [route]. *)
Definition routed
  (env : Env) (messagePayload : value) (toPhone : string) (route : value)
  : Prop :=
  getToPhone messagePayload = Ok (VStr toPhone)
  /\ fst (getRoute env (VStr toPhone) initial) = Ok route
  /\ truthy route = true.

(** The text the handler passes on: [messagePayload.text || '(No text)']. *)
Definition textOf (messagePayload : value) : value :=
  if truthy (get_opt messagePayload "text")
  then get_opt messagePayload "text" else VStr "(No text)".

(** An attachment whose content type is a string, or missing. *)
Definition attachmentWellFormed (item : value) : bool :=
  match get_opt item "content_type" with
  | VUndefined | VNull | VStr _ => true
  | _ => false
  end.

(** The media of a message payload as the data model has it: absent, or
    an array of attachments. *)
Definition mediaWellFormed (messagePayload : value) : bool :=
  match get_opt messagePayload "media" with
  | VUndefined | VNull => true
  | VArr items => forallb attachmentWellFormed items
  | _ => false
  end.

(** A call to the telephony reply endpoint. *)
Definition isReplyCall (c : HttpCall) : bool :=
  (call_method c =? "POST")
  && (call_url c =? "https://api.telnyx.com/v2/messages").

(** A call to the email endpoint of the configured domain. *)
Definition isEmailCall (env : Env) (c : HttpCall) : bool :=
  (call_method c =? "POST")
  && (call_url c
      =? "https://api.mailgun.net/v3/" ++ ToString (MAILGUN_DOMAIN env)
         ++ "/messages").

(** A field of a form-encoded body. *)
Definition formField (name : string) (c : HttpCall) : option string :=
  match call_body c with
  | FormBody fields =>
      match find (fun kv => fst kv =? name) fields with
      | Some kv => Some (snd kv)
      | None => None
      end
  | _ => None
  end.

End Worker.

(* ================================================================== *)
(** ** A concrete runtime and concrete scenarios *)
(* ================================================================== *)

Module Demo.

(** A printer of documents, enough for the scenarios below: strings
    without escapes, objects and arrays. *)
Fixpoint stringify (v : value nat) : string :=
  match v with
  | VUndefined | VNull => "null"
  | VBool true => "true"
  | VBool false => "false"
  | VNum n => NilZero.string_of_uint (Nat.to_uint n)
  | VStr s => Str.dquote ++ s ++ Str.dquote
  | VArr items =>
      "["
      ++ (fix go (l : list (value nat)) : string :=
            match l with
            | nil => EmptyString
            | x :: rest =>
                stringify x
                ++ match rest with
                   | nil => EmptyString
                   | _ :: _ => "," ++ go rest
                   end
            end) items
      ++ "]"
  | VObj fields =>
      "{"
      ++ (fix go (l : list (string * value nat)) : string :=
            match l with
            | nil => EmptyString
            | (k, x) :: rest =>
                Str.dquote ++ k ++ Str.dquote ++ ":" ++ stringify x
                ++ match rest with
                   | nil => EmptyString
                   | _ :: _ => "," ++ go rest
                   end
            end) fields
      ++ "}"
  end.

Definition obj (fields : list (string * value nat)) : value nat := VObj fields.
Definition str (s : string) : value nat := VStr s.

Definition autoReplyRoute : value nat :=
  obj (("mode", str "auto_reply") :: ("reply_text", str "Thanks!") :: nil).

Definition autoReplyRouteNoText : value nat :=
  obj (("mode", str "auto_reply") :: nil).

Definition forwardRoute : value nat :=
  obj (("mode", str "forward_email") :: ("email", str "a@b.com") :: nil).

Definition forwardRouteNoEmail : value nat :=
  obj (("mode", str "forward_email") :: nil).

Definition attachment : value nat :=
  obj (("content_type", str "image/png")
       :: ("url", str "https://example.com/a.png") :: nil).

(** An event document: type, direction, sender, text, media. *)
Definition event
  (event_type direction : string) (sender : list (string * value nat))
  (more : list (string * value nat)) : value nat :=
  obj (("data",
        obj (("event_type", str event_type)
             :: ("occurred_at", str "2024-01-01T00:00:00Z")
             :: ("payload",
                 obj (("direction", str direction)
                      :: ("to", VArr (obj (("phone_number",
                                            str "+1 (555) 123-0000") :: nil)
                                      :: nil))
                      :: (sender ++ more)%list))
             :: nil)) :: nil).

Definition knownSender : list (string * value nat) :=
  ("from", obj (("phone_number", str "+15557654321") :: nil)) :: nil.

Definition smsHello : value nat :=
  event "message.received" "inbound" knownSender
    (("text", str "hello") :: nil).

Definition mmsHello : value nat :=
  event "message.received" "inbound" knownSender
    (("text", str "hello") :: ("media", VArr (attachment :: nil)) :: nil).

Definition smsBadSender : value nat :=
  event "message.received" "inbound"
    (("from", obj (("phone_number", str "5557654321") :: nil)) :: nil)
    (("text", str "hello") :: nil).

Definition smsNoSender : value nat :=
  event "message.received" "inbound" nil (("text", str "hello") :: nil).

Definition smsEmptyText : value nat :=
  event "message.received" "inbound" knownSender
    (("text", str EmptyString) :: nil).

Definition deliveryReport : value nat :=
  event "message.finalized" "outbound" knownSender nil.

Definition documents : list (value nat) :=
  autoReplyRoute :: autoReplyRouteNoText :: forwardRoute
  :: forwardRouteNoEmail :: smsHello :: mmsHello :: smsBadSender
  :: smsNoSender :: smsEmptyText :: deliveryReport :: nil.

(** The runtime of the scenarios: [JSON.parse] reads back the documents
    above and rejects every other text; [btoa] and the date formatter
    are stand-ins. *)
#[global] Instance platform : Platform nat := {|
  number_truthy := fun n => negb (n =? 0)%nat;
  number_to_string := fun n => NilZero.string_of_uint (Nat.to_uint n);
  JSON_parse := fun s => find (fun v => stringify v =? s) documents;
  btoa := fun s => s;
  toLocaleString := fun _ => "12/31/2023, 6:00:00 PM CST"
|}.

(** The event and the message payload of a document. *)
Definition dataOf (v : value nat) : value nat := get_opt v "data".
Definition payloadOf (v : value nat) : value nat :=
  get_opt (dataOf v) "payload".

Definition post (v : value nat) : Request :=
  {| method := "POST"; body := stringify v |}.

(** A store with one entry, for the number the events are sent to. *)
Definition store (raw : option string) (key : string)
  : result (option string) :=
  if key =? "route:+15551230000" then Ok raw else Ok None.

Definition env (raw : option string) (telnyxKey : value nat) : Env nat :=
  {| NUMBER_TO_EMAIL := store raw;
     FROM_EMAIL := str "sms@mg.example.com";
     MAILGUN_DOMAIN := str "mg.example.com";
     MAILGUN_API_KEY := str "key-1";
     TELNYX_API_KEY := telnyxKey |}.

(** Networks: every call answered 200, every call answered 404, every
    call rejected. *)
Definition up : list (HttpCall nat) -> HttpCall nat -> Outcome :=
  fun _ _ => Resolved {| ok := true; payload := Some "PNG" |}.

Definition notFound : list (HttpCall nat) -> HttpCall nat -> Outcome :=
  fun _ _ => Resolved {| ok := false; payload := Some "Not Found" |}.

Definition down : list (HttpCall nat) -> HttpCall nat -> Outcome :=
  fun _ _ => Rejected.

End Demo.

(* ================================================================== *)
(** ** The earlier versions of the worker *)
(* ================================================================== *)

(** The environment of the earlier versions: the bindings above and the
    fallback recipient [TO_EMAIL]. *)
Record Environment (number : Type) : Type := {
  bindings : Env number;
  TO_EMAIL : value number
}.

(** The version before the current one: the destination is not
    normalized, the sender is read without a guard, and an event without
    a route is forwarded to [env.TO_EMAIL]. *)
Module Earlier.
Section Worker.

Context {number : Type} {P : Platform number}.

#[local] Abbreviation value := (value number).
#[local] Abbreviation HttpCall := (HttpCall number).
#[local] Abbreviation World := (World number).
#[local] Abbreviation Environment := (Environment number).
#[local] Abbreviation M := (@M number).

Variable net : list HttpCall -> HttpCall -> Outcome.

Notation "x <- m ;; k" := (bind m (fun x => k))
  (at level 61, m at next level, right associativity).
Notation "m ;;; k" := (bind m (fun _ => k))
  (at level 61, right associativity).

(** [getToPhone]: the same three shapes, the string returned as it is. *)
Definition getToPhone (messagePayload : value) : result value :=
  match get messagePayload "to" with
  | Throw e => Throw e
  | Ok to =>
      let fromArray :=
        match to with
        | VArr items => get_opt (first items) "phone_number"
        | _ => VBool false
        end in
      let fromObject :=
        if truthy fromArray then fromArray else get_opt to "phone_number" in
      let found := if truthy fromObject then fromObject else to in
      Ok (if is_string found then found else VNull)
  end.

(** [buildEmailHtml]: the template is indented, and begins and ends with
    a line break. *)
Definition indent : string := "        ".

Definition buildEmailHtml
  (fromPhone : value) (friendlyDate : string) (text : value)
  (mediaHtml : string) : string :=
  Str.nl
  ++ indent ++ "<h2>New SMS Received</h2>" ++ Str.nl
  ++ indent ++ "<p><strong>From:</strong> " ++ ToString fromPhone ++ "</p>"
  ++ Str.nl
  ++ indent ++ "<p><strong>Received at:</strong> " ++ friendlyDate ++ "</p>"
  ++ Str.nl
  ++ indent ++ "<p><strong>Message:</strong> " ++ ToString text ++ "</p>"
  ++ Str.nl
  ++ indent ++ mediaHtml ++ Str.nl
  ++ "      ".

(** The request of [sendMailgunEmail]; [buildEmailText] is the function
    of the current version, applied to the sender as the template prints
    it. *)
Definition mailgunRequest
  (env : Environment) (toEmail fromPhone : value) (friendlyDate : string)
  (text : value) (mediaHtml : string) : HttpCall :=
  {| call_url :=
       "https://api.mailgun.net/v3/"
       ++ ToString (MAILGUN_DOMAIN (bindings env)) ++ "/messages";
     call_method := "POST";
     call_headers :=
       ("Authorization",
        "Basic "
        ++ btoa ("api:" ++ ToString (MAILGUN_API_KEY (bindings env))))
       :: ("Content-Type", "application/x-www-form-urlencoded") :: nil;
     call_body :=
       FormBody
         (("from",
           "SMS Alerts <" ++ ToString (FROM_EMAIL (bindings env)) ++ ">")
          :: ("to", ToString toEmail)
          :: ("subject", "New SMS from " ++ ToString fromPhone)
          :: ("html", buildEmailHtml fromPhone friendlyDate text mediaHtml)
          :: ("text",
              buildEmailText (ToString fromPhone) friendlyDate text)
          :: nil) |}.

(** [sendMailgunEmail]: no guard on the recipient. *)
Definition sendMailgunEmail
  (env : Environment) (toEmail fromPhone : value) (friendlyDate : string)
  (text : value) (mediaHtml : string) : M unit :=
  html <-
    lift (interpolate (fromPhone :: text :: nil)
            (buildEmailHtml fromPhone friendlyDate text mediaHtml)) ;;
  plainText <-
    lift (interpolate (fromPhone :: text :: nil)
            (buildEmailText (ToString fromPhone) friendlyDate text)) ;;
  formData <- lift (stringOf toEmail) ;;
  mailgunResponse <-
    global_fetch net
      (mailgunRequest env toEmail fromPhone friendlyDate text mediaHtml) ;;
  if negb (ok mailgunResponse) then
    errorText <- read_body mailgunResponse ;;
    console_error ("Mailgun error: " ++ errorText)
  else ret tt.

(** [sendTelnyxReply]: no guard on the API key; the request is the one
    of the current version. *)
Definition sendTelnyxReply
  (env : Environment) (toPhone fromPhone replyText : value) : M unit :=
  telnyxResponse <-
    global_fetch net
      (telnyxRequest (bindings env) toPhone fromPhone replyText) ;;
  if negb (ok telnyxResponse) then
    errorText <- read_body telnyxResponse ;;
    console_error ("Telnyx reply error: " ++ errorText)
  else ret tt.

(** The body of the loop of [processMedia]: [item.content_type] and its
    [startsWith] are read without optional chaining, and the URL is
    fetched whatever it is. *)
Definition processMediaItem (item : value) (mediaHtml : string) : M string :=
  content_type <- lift (get item "content_type") ;;
  match content_type with
  | VStr content_type =>
      if Str.startsWith content_type "image/" then
        url <- lift (get item "url") ;;
        try_catch
          (input <- lift (stringOf url) ;;
           response <- global_fetch net (mediaRequest url) ;;
           if ok response then
             arrayBuffer <- read_body response ;;
             ret (mediaHtml
                  ++ imageFragment content_type (btoa arrayBuffer))
           else ret mediaHtml)
          (console_error "Failed to fetch media:" ;;;
           fragment <-
             lift (interpolate (url :: nil) (failedFragment url)) ;;
           ret (mediaHtml ++ fragment))
      else ret mediaHtml
  | _ => throw (TypeError "startsWith")
  end.

Fixpoint processMediaLoop (items : list value) (mediaHtml : string)
  : M string :=
  match items with
  | nil => ret mediaHtml
  | item :: rest =>
      mediaHtml' <- processMediaItem item mediaHtml ;;
      processMediaLoop rest mediaHtml'
  end.

Definition processMedia (messagePayload : value) : M string :=
  media <- lift (get messagePayload "media") ;;
  items <- lift (iterate (if truthy media then media else VArr nil)) ;;
  processMediaLoop items EmptyString.

(** The handler after the event filter.  [getRoute] is the function of
    the current version, on the bindings. *)
Definition processInbound (env : Environment) (data messagePayload : value)
  : M Response :=
  sender <- lift (get messagePayload "from") ;;
  fromPhone <- lift (get sender "phone_number") ;;
  toPhone <- lift (getToPhone messagePayload) ;;
  text <- lift (messageText messagePayload) ;;
  route <- getRoute (bindings env) toPhone ;;
  let mode :=
    if truthy (get_opt route "mode") then get_opt route "mode"
    else VStr "forward_email" in
  if strict_eq_str mode "auto_reply" then
    if negb (truthy (get_opt route "reply_text")) then
      console_error "Missing reply_text for auto_reply route" ;;;
      ret okResponse
    else
      reply_text <- lift (get route "reply_text") ;;
      sendTelnyxReply env toPhone fromPhone reply_text ;;;
      ret okResponse
  else if strict_eq_str mode "forward_email" then
    occurred_at <- lift (get data "occurred_at") ;;
    friendlyDate <- lift (friendlyDateOf occurred_at) ;;
    mediaHtml <- processMedia messagePayload ;;
    let recipientEmail :=
      if truthy (get_opt route "email") then get_opt route "email"
      else TO_EMAIL env in
    sendMailgunEmail env recipientEmail fromPhone friendlyDate text
      mediaHtml ;;;
    ret okResponse
  else
    line <-
      lift (interpolate (mode :: nil)
              ("Unsupported route mode: " ++ ToString mode)) ;;
    console_error line ;;;
    ret okResponse.

Definition handle (request : Request) (env : Environment) : M Response :=
  payload <- lift (request_json request) ;;
  data <- lift (get payload "data") ;;
  skip <- lift (notInboundMessage data) ;;
  if skip then ret okResponse
  else
    messagePayload <- lift (get data "payload") ;;
    processInbound env data messagePayload.

Definition fetch (request : Request) (env : Environment) (w : World)
  : Response * World :=
  if negb (method request =? "POST") then
    ({| response_text := "Method not allowed"; status := 405 |}, w)
  else respond (handle request env w).

(** Media as this version needs it: absent, or an array of items that
    each have a string for content type. *)
Definition mediaWellFormed (messagePayload : value) : bool :=
  match get_opt messagePayload "media" with
  | VUndefined | VNull => true
  | VArr items =>
      forallb (fun item => is_string (get_opt item "content_type")) items
  | _ => false
  end.

(** The URLs this version fetches, those of the items whose content type
    begins with [image/], can be printed. *)
Definition fetchedUrlPrintable (item : value) : bool :=
  match get_opt item "content_type" with
  | VStr content_type =>
      if Str.startsWith content_type "image/"
      then printable (get_opt item "url") else true
  | _ => true
  end.

Definition mediaPrintable (messagePayload : value) : bool :=
  match get_opt messagePayload "media" with
  | VArr items => forallb fetchedUrlPrintable items
  | _ => true
  end.

End Worker.
End Earlier.

(** The first version: no routing, every inbound message is forwarded
    to [env.TO_EMAIL], and the plain-text body is the HTML body with its
    tags removed. *)
Module First.

(** The string has a ['>']. *)
Fixpoint hasGt (s : string) : bool :=
  match s with
  | EmptyString => false
  | String c rest => Ascii.eqb c ">"%char || hasGt rest
  end.

(** [s.replace(/<[^>]*>/g, '')].  A match starts at a ['<'] that has a
    ['>'] somewhere after it and ends at the first such ['>']; a ['<']
    with no ['>'] after it matches nothing and is kept.  [inTag] says
    that the scan is inside a match. *)
Fixpoint stripTagsFrom (inTag : bool) (s : string) : string :=
  match s with
  | EmptyString => EmptyString
  | String c rest =>
      if inTag then
        if Ascii.eqb c ">"%char then stripTagsFrom false rest
        else stripTagsFrom true rest
      else if Ascii.eqb c "<"%char && hasGt rest then stripTagsFrom true rest
      else String c (stripTagsFrom false rest)
  end.

Definition stripTags (s : string) : string := stripTagsFrom false s.

(** The string has a tag: a ['<'] with a ['>'] after it. *)
Fixpoint hasTag (s : string) : bool :=
  match s with
  | EmptyString => false
  | String c rest => (Ascii.eqb c "<"%char && hasGt rest) || hasTag rest
  end.

Section Worker.

Context {number : Type} {P : Platform number}.

#[local] Abbreviation value := (value number).
#[local] Abbreviation HttpCall := (HttpCall number).
#[local] Abbreviation World := (World number).
#[local] Abbreviation Environment := (Environment number).
#[local] Abbreviation M := (@M number).

Variable net : list HttpCall -> HttpCall -> Outcome.

Notation "x <- m ;; k" := (bind m (fun x => k))
  (at level 61, m at next level, right associativity).
Notation "m ;;; k" := (bind m (fun _ => k))
  (at level 61, right associativity).

(** The request to Mailgun: the sender is [noreply] at the domain, the
    recipient is [env.TO_EMAIL], the text is the stripped HTML. *)
Definition mailgunRequest
  (env : Environment) (fromPhone : value) (friendlyDate : string)
  (text : value) (mediaHtml : string) : HttpCall :=
  let emailBody :=
    Earlier.buildEmailHtml fromPhone friendlyDate text mediaHtml in
  {| call_url :=
       "https://api.mailgun.net/v3/"
       ++ ToString (MAILGUN_DOMAIN (bindings env)) ++ "/messages";
     call_method := "POST";
     call_headers :=
       ("Authorization",
        "Basic "
        ++ btoa ("api:" ++ ToString (MAILGUN_API_KEY (bindings env))))
       :: ("Content-Type", "application/x-www-form-urlencoded") :: nil;
     call_body :=
       FormBody
         (("from",
           "SMS Alerts <noreply@"
           ++ ToString (MAILGUN_DOMAIN (bindings env)) ++ ">")
          :: ("to", ToString (TO_EMAIL env))
          :: ("subject", "New SMS from " ++ ToString fromPhone)
          :: ("html", emailBody)
          :: ("text", stripTags emailBody)
          :: nil) |}.

(** The handler after the event filter; its media loop is the loop of
    [Earlier.processMedia], written in line. *)
Definition processInbound (env : Environment) (data messagePayload : value)
  : M Response :=
  sender <- lift (get messagePayload "from") ;;
  fromPhone <- lift (get sender "phone_number") ;;
  text <- lift (messageText messagePayload) ;;
  timestamp <- lift (get data "occurred_at") ;;
  friendlyDate <- lift (friendlyDateOf timestamp) ;;
  mediaHtml <- Earlier.processMedia net messagePayload ;;
  emailBody <-
    lift (interpolate (fromPhone :: text :: nil)
            (Earlier.buildEmailHtml fromPhone friendlyDate text mediaHtml)) ;;
  mailgunResponse <-
    global_fetch net
      (mailgunRequest env fromPhone friendlyDate text mediaHtml) ;;
  (if negb (ok mailgunResponse) then
     errorText <- read_body mailgunResponse ;;
     console_error ("Mailgun error: " ++ errorText)
   else ret tt) ;;;
  ret okResponse.

Definition handle (request : Request) (env : Environment) : M Response :=
  payload <- lift (request_json request) ;;
  data <- lift (get payload "data") ;;
  skip <- lift (notInboundMessage data) ;;
  if skip then ret okResponse
  else
    messagePayload <- lift (get data "payload") ;;
    processInbound env data messagePayload.

Definition fetch (request : Request) (env : Environment) (w : World)
  : Response * World :=
  if negb (method request =? "POST") then
    ({| response_text := "Method not allowed"; status := 405 |}, w)
  else respond (handle request env w).

End Worker.
End First.

(* ================================================================== *)
(** ** More scenarios *)
(* ================================================================== *)

Module Scenarios.
Import Demo.

(** An event of type [message.received] that carries no payload. *)
Definition eventWithoutPayload : value nat :=
  obj (("data", obj (("event_type", str "message.received") :: nil)) :: nil).

(** An inbound message without a destination. *)
Definition smsNoDestination : value nat :=
  obj (("data",
        obj (("event_type", str "message.received")
             :: ("occurred_at", str "2024-01-01T00:00:00Z")
             :: ("payload",
                 obj (("direction", str "inbound")
                      :: (knownSender
                          ++ ("text", str "hello") :: nil)%list))
             :: nil)) :: nil).

(** A document, a picture whose URL is missing, and two pictures. *)
Definition pdf : value nat :=
  obj (("content_type", str "application/pdf")
       :: ("url", str "https://example.com/a.pdf") :: nil).

Definition pictureWithoutUrl : value nat :=
  obj (("content_type", str "image/gif") :: nil).

Definition picture (name : string) : value nat :=
  obj (("content_type", str "image/jpeg")
       :: ("url", str ("https://example.com/" ++ name)) :: nil).

Definition mmsMixed : value nat :=
  event "message.received" "inbound" knownSender
    (("text", str "hello")
     :: ("media",
         VArr (pdf :: picture "1.jpg" :: pictureWithoutUrl
               :: picture "2.jpg" :: nil))
     :: nil).

Definition mmsNoPictures : value nat :=
  event "message.received" "inbound" knownSender
    (("text", str "hello")
     :: ("media", VArr (pdf :: pictureWithoutUrl :: nil)) :: nil).

(** A sender that is displayed but cannot be replied to, and one that
    is written with punctuation. *)
Definition smsShortCode : value nat :=
  event "message.received" "inbound"
    (("from", obj (("phone_number", str "12345") :: nil)) :: nil)
    (("text", str "hello") :: nil).

Definition smsPunctuatedSender : value nat :=
  event "message.received" "inbound"
    (("from", obj (("phone_number", str "+1 (555) 765-4321") :: nil)) :: nil)
    (("text", str "hello") :: nil).

(** An inbound message whose destination is a bare canonical string. *)
Definition smsCanonical : value nat :=
  obj (("data",
        obj (("event_type", str "message.received")
             :: ("occurred_at", str "2024-01-01T00:00:00Z")
             :: ("payload",
                 obj (("direction", str "inbound")
                      :: ("to", str "+15551230000")
                      :: (knownSender
                          ++ ("text", str "hello") :: nil)%list))
             :: nil)) :: nil).

Definition faxRoute : value nat := obj (("mode", str "fax") :: nil).

(** A message whose text is the object [{"toString": 1}], which no
    template can print, and a message whose media is an object. *)
Definition smsObjectText : value nat :=
  event "message.received" "inbound" knownSender
    (("text", obj (("toString", VNum 1) :: nil)) :: nil).

Definition mmsMediaObject : value nat :=
  event "message.received" "inbound" knownSender
    (("text", str "hello")
     :: ("media", obj (("url", str "https://example.com/a.png") :: nil))
     :: nil).

Definition documents : list (value nat) :=
  (Demo.documents
   ++ eventWithoutPayload :: smsNoDestination :: mmsMixed :: mmsNoPictures
      :: smsShortCode :: smsPunctuatedSender :: smsCanonical :: faxRoute
      :: VNull :: smsObjectText :: mmsMediaObject :: nil)%list.

(** The runtime of [Demo], reading these documents too. *)
Definition platform : Platform nat := {|
  number_truthy := fun n => negb (n =? 0)%nat;
  number_to_string := fun n => NilZero.string_of_uint (Nat.to_uint n);
  JSON_parse := fun s => find (fun v => stringify v =? s) documents;
  btoa := fun s => s;
  toLocaleString := fun _ => "12/31/2023, 6:00:00 PM CST"
|}.

(** An environment whose store rejects every read. *)
Definition brokenStore : Env nat :=
  {| NUMBER_TO_EMAIL := fun _ => Throw NetworkError;
     FROM_EMAIL := str "sms@mg.example.com";
     MAILGUN_DOMAIN := str "mg.example.com";
     MAILGUN_API_KEY := str "key-1";
     TELNYX_API_KEY := str "KEY" |}.

(** An environment of the earlier versions, with a fallback recipient. *)
Definition environment (raw : option string) : Environment nat :=
  {| bindings := env raw (str "KEY");
     TO_EMAIL := str "fallback@example.com" |}.

(** A network on which the first call is rejected and the later ones
    are answered 200; one that answers 500 with a message; one whose
    responses cannot be read. *)
Definition flaky : list (HttpCall nat) -> HttpCall nat -> Outcome :=
  fun before _ =>
    match before with
    | nil => Rejected
    | _ :: _ => Resolved {| ok := true; payload := Some "JPEG" |}
    end.

Definition serverError : list (HttpCall nat) -> HttpCall nat -> Outcome :=
  fun _ _ => Resolved {| ok := false; payload := Some "quota exceeded" |}.

Definition truncated : list (HttpCall nat) -> HttpCall nat -> Outcome :=
  fun _ _ => Resolved {| ok := true; payload := None |}.

End Scenarios.

(* ================================================================== *)
(** ** Vocabulary of the further properties *)
(* ================================================================== *)

(** Every character of the string is a digit. *)
Fixpoint allDigits (s : string) : bool :=
  match s with
  | EmptyString => true
  | String c rest => Str.is_digit c && allDigits rest
  end.

Section MoreVocabulary.

Context {number : Type} {P : Platform number}.

#[local] Abbreviation value := (value number).
#[local] Abbreviation HttpCall := (HttpCall number).
#[local] Abbreviation World := (World number).
#[local] Abbreviation Env := (Env number).

(** The URL [processMedia] fetches for an item, if it fetches one: the
    condition of its [if], on an item whose content type is a string or
    missing. *)
Definition imageUrl (item : value) : option value :=
  match get_opt item "content_type" with
  | VStr content_type =>
      if Str.startsWith content_type "image/"
         && truthy (get_opt item "url")
      then Some (get_opt item "url") else None
  | _ => None
  end.

Fixpoint imageUrls (items : list value) : list value :=
  match items with
  | nil => nil
  | item :: rest =>
      match imageUrl item with
      | Some url => url :: imageUrls rest
      | None => imageUrls rest
      end
  end.

(** The URLs that [processMedia] fetches can all be printed. *)
Definition mediaPrintable (messagePayload : value) : bool :=
  match get_opt messagePayload "media" with
  | VArr items => forallb printable (imageUrls items)
  | _ => true
  end.

(** What the forward branch needs of an event to reach its send: media
    that is absent or a list of attachments, and a text, a timestamp, a
    recipient and image URLs that can be printed. *)
Definition forwardable (data messagePayload email : value) : bool :=
  mediaWellFormed messagePayload
  && mediaPrintable messagePayload
  && printable (textOf messagePayload)
  && printable (get_opt data "occurred_at")
  && printable email.

(** A canonical phone number, as a value: a fixed point of
    [normalizePhoneNumber]. *)
Definition canonical (phone : string) : Prop :=
  normalizePhoneNumber (VStr phone : value) = VStr phone.

(** What the [try] of the handler can end in: the 200 response, or an
    exception. *)
Definition acknowledged (outcome : result Response * World) : Prop :=
  match fst outcome with
  | Ok response => response = okResponse
  | Throw _ => True
  end.

(** All the calls are GETs. *)
Definition allGets (cs : list HttpCall) : Prop :=
  Forall (fun c => call_method c = "GET") cs.

(** The traces with at most one send: one reply between canonical
    numbers and nothing else; or GETs alone; or GETs followed by one
    email. *)
Definition atMostOneSend (env : Env) (cs : list HttpCall) : Prop :=
  (exists toPhone fromPhone replyText,
     canonical toPhone
     /\ canonical fromPhone
     /\ truthy replyText = true
     /\ cs = telnyxRequest env (VStr toPhone) (VStr fromPhone) replyText
             :: nil)
  \/ (exists gets,
        allGets gets
        /\ (cs = gets
            \/ exists email fromPhone friendlyDate text mediaHtml,
                 truthy email = true
                 /\ cs = (gets
                          ++ mailgunRequest env email fromPhone friendlyDate
                               text mediaHtml :: nil)%list)).

(** Every call of the trace that goes to the email endpoint is the
    email built for the sender [fromPhone] and the text [text]. *)
Definition emailsShow
  (env : Env) (fromPhone : string) (text : value) (cs : list HttpCall)
  : Prop :=
  forall c,
    In c cs ->
    isEmailCall env c = true ->
    exists email friendlyDate mediaHtml,
      c = mailgunRequest env email fromPhone friendlyDate text mediaHtml.

End MoreVocabulary.

(* ================================================================== *)
(** ** Facts about strings *)
(* ================================================================== *)

Unset Implicit Arguments.

Module StrFacts.
Import Str.

Lemma space_not_digit (c : ascii) : is_space c = true -> is_digit c = false.
Proof.
  destruct c as [[] [] [] [] [] [] [] []]; vm_compute; congruence.
Qed.

Lemma is_empty_true (s : string) : is_empty s = true -> s = EmptyString.
Proof. destruct s; simpl; congruence. Qed.

Lemma length_stripNonDigits (s : string) :
  String.length (stripNonDigits s) = countDigits s.
Proof.
  induction s as [|c s IH]; simpl; [reflexivity|].
  destruct (is_digit c); simpl; rewrite IH; reflexivity.
Qed.

Lemma stripNonDigits_app (a b : string) :
  stripNonDigits (a ++ b) = stripNonDigits a ++ stripNonDigits b.
Proof.
  induction a as [|c a IH]; simpl; [reflexivity|].
  destruct (is_digit c); simpl; rewrite IH; reflexivity.
Qed.

Lemma stripNonDigits_trimStart (s : string) :
  stripNonDigits (trimStart s) = stripNonDigits s.
Proof.
  induction s as [|c s IH]; simpl; [reflexivity|].
  destruct (is_space c) eqn:Hc; [|reflexivity].
  rewrite (space_not_digit c Hc). exact IH.
Qed.

Lemma stripNonDigits_trimEnd (s : string) :
  stripNonDigits (trimEnd s) = stripNonDigits s.
Proof.
  induction s as [|c s IH]; simpl; [reflexivity|].
  destruct (is_space c) eqn:Hc; simpl.
  - destruct (is_empty (trimEnd s)) eqn:He; simpl.
    + rewrite (space_not_digit c Hc), <- IH.
      rewrite (is_empty_true _ He). reflexivity.
    + rewrite (space_not_digit c Hc). exact IH.
  - destruct (is_digit c); rewrite IH; reflexivity.
Qed.

Lemma stripNonDigits_trim (s : string) :
  stripNonDigits (trim s) = stripNonDigits s.
Proof.
  unfold trim. rewrite stripNonDigits_trimEnd. apply stripNonDigits_trimStart.
Qed.

Lemma startsWith_plus_inv (s : string) :
  startsWith s "+" = true -> exists rest, s = String "+"%char rest.
Proof.
  destruct s as [|c rest]; cbn [startsWith].
  - intros H. discriminate H.
  - destruct (Ascii.eqb_spec "+"%char c) as [<-|]; cbn [andb]; intros H;
      [|discriminate H].
    exists rest. reflexivity.
Qed.

Lemma startsWith_plus_trim (s : string) :
  startsWith s "+" = true -> startsWith (trim s) "+" = true.
Proof.
  intros H. destruct (startsWith_plus_inv s H) as [rest ->].
  unfold trim. cbn [trimStart].
  change (is_space "+"%char) with false. cbn iota.
  cbn [trimEnd]. change (is_space "+"%char) with false.
  cbn [andb startsWith]. rewrite Ascii.eqb_refl. reflexivity.
Qed.

Lemma contains_app_r (a s x : string) : contains s x -> contains (a ++ s) x.
Proof.
  intros (pre & post & ->). exists (a ++ pre), post.
  induction a as [|c a IH]; simpl; [reflexivity|]. rewrite IH. reflexivity.
Qed.

Lemma contains_here (x post : string) : contains (x ++ post) x.
Proof. exists EmptyString, post. reflexivity. Qed.

Lemma contains_refl (x : string) : contains x x.
Proof.
  exists EmptyString, EmptyString. cbn [append].
  induction x as [|c x IH]; [reflexivity|]. cbn [append]. rewrite <- IH.
  reflexivity.
Qed.

(** Finds a piece of a right-nested concatenation. *)
Ltac find_piece :=
  repeat first
    [ apply contains_here
    | apply contains_refl
    | apply contains_app_r ].

End StrFacts.

(* ================================================================== *)
(** ** Phone number normalization *)
(* ================================================================== *)

Section NormalizeFacts.

Context {number : Type}.
#[local] Abbreviation value := (value number).

Lemma normalizePhoneNumber_not_string (v : value) :
  is_string v = false -> normalizePhoneNumber v = VNull.
Proof. destruct v; simpl; congruence. Qed.

(** The result is [null] or a string: ['+'] and between 8 and 15 digits. *)
Lemma normalizePhoneNumber_shape (v : value) :
  normalizePhoneNumber v = VNull
  \/ exists digits,
       normalizePhoneNumber v = VStr (String "+"%char digits)
       /\ E164_MIN_DIGITS <= String.length digits <= E164_MAX_DIGITS.
Proof.
  destruct v as [| | | |s| |]; unfold normalizePhoneNumber; cbv zeta; auto.
  destruct (negb _); auto.
  destruct (_ || _)%bool eqn:Hlen; auto.
  right. eexists. split; [reflexivity|].
  apply Bool.orb_false_iff in Hlen as [H1 H2].
  apply Nat.ltb_ge in H1, H2. auto.
Qed.

(** C4, as amended: a string whose trimmed form does not start with ['+']
    normalizes to the absent value ([null]).  The worker trims leading
    and trailing white space before it looks at the first character. *)
Theorem normalizePhoneNumber_no_plus_after_trim (s : string) :
  Str.startsWith (Str.trim s) "+" = false ->
  normalizePhoneNumber (VStr s : value) = VNull.
Proof.
  intros H. unfold normalizePhoneNumber. cbv zeta. rewrite H. reflexivity.
Qed.

(** C5: for a string that starts with ['+'], when its number of digit
    characters is between 8 and 15 the result is ['+'] followed by its
    digits, in order, whatever stands between them; when the number of
    digits is below 8 or above 15 the result is absent. *)
Theorem normalizePhoneNumber_plus (s : string) :
  Str.startsWith s "+" = true ->
  (E164_MIN_DIGITS <= Str.countDigits s <= E164_MAX_DIGITS ->
   normalizePhoneNumber (VStr s : value)
   = VStr ("+" ++ Str.stripNonDigits s))
  /\ (Str.countDigits s < E164_MIN_DIGITS
      \/ E164_MAX_DIGITS < Str.countDigits s ->
      normalizePhoneNumber (VStr s : value) = VNull).
Proof.
  intros Hplus. unfold normalizePhoneNumber. cbv zeta.
  rewrite (StrFacts.startsWith_plus_trim s Hplus). cbn [negb].
  rewrite StrFacts.stripNonDigits_trim, StrFacts.length_stripNonDigits.
  split.
  - intros [Hlo Hhi].
    apply Nat.ltb_ge in Hlo, Hhi. rewrite Hlo, Hhi. reflexivity.
  - intros [Hlo | Hhi].
    + apply Nat.ltb_lt in Hlo. rewrite Hlo. reflexivity.
    + apply Nat.ltb_lt in Hhi. rewrite Hhi, Bool.orb_true_r. reflexivity.
Qed.

End NormalizeFacts.

(** The example of the specification. *)
Example normalizePhoneNumber_punctuated :
  normalizePhoneNumber (VStr "+1 (555) 123-4567" : value nat)
  = VStr "+15551234567".
Proof. reflexivity. Qed.

Lemma normalizePhoneNumber_no_plus_after_trim_witness :
  Str.startsWith (Str.trim "15551234567") "+" = false
  /\ normalizePhoneNumber (VStr "15551234567" : value nat) = VNull.
Proof.
  split; [reflexivity|].
  apply (normalizePhoneNumber_no_plus_after_trim (number:=nat) "15551234567").
  reflexivity.
Defined.

(** C4, as stated, fails: leading white space is trimmed away, so a
    string that starts with a space and then ['+'] is normalized. *)
Lemma normalizePhoneNumber_leading_space :
  Str.startsWith " +15551234567" "+" = false
  /\ normalizePhoneNumber (VStr " +15551234567" : value nat)
     = VStr "+15551234567"
  /\ normalizePhoneNumber (VStr " +15551234567" : value nat) <> VNull.
Proof.
  split; [reflexivity|]. split; [reflexivity|]. vm_compute. discriminate.
Qed.

Lemma normalizePhoneNumber_plus_witness :
  normalizePhoneNumber (VStr "+1 (555) 123-4567" : value nat)
  = VStr ("+" ++ Str.stripNonDigits "+1 (555) 123-4567")
  /\ normalizePhoneNumber (VStr "+123" : value nat) = VNull.
Proof.
  split.
  - apply (proj1 (normalizePhoneNumber_plus (number:=nat)
                    "+1 (555) 123-4567" eq_refl)).
    vm_compute. split; lia.
  - apply (proj2 (normalizePhoneNumber_plus (number:=nat) "+123" eq_refl)).
    left. vm_compute. lia.
Defined.

(* ================================================================== *)
(** ** The handler *)
(* ================================================================== *)

Section WorkerFacts.

Context {number : Type} {P : Platform number}.
#[local] Abbreviation value := (value number).
#[local] Abbreviation HttpCall := (HttpCall number).
#[local] Abbreviation World := (World number).
#[local] Abbreviation Env := (Env number).

#[local] Abbreviation M := (@M number).

Variable net : list HttpCall -> HttpCall -> Outcome.

(** *** Computations *)

Lemma bind_run {A B} (m : M A) (k : A -> M B) (w : World) :
  bind m k w
  = match m w with
    | (Ok a, w') => k a w'
    | (Throw e, w') => (Throw e, w')
    end.
Proof. reflexivity. Qed.

Lemma bind_lift_ok {A B} (a : A) (k : A -> M B) :
  bind (lift (Ok a)) k = k a.
Proof. reflexivity. Qed.

Lemma bind_lift {A B} (r : result A) (k : A -> M B) (w : World) :
  bind (lift r) k w
  = match r with
    | Ok a => k a w
    | Throw e => (Throw e, w)
    end.
Proof. destruct r; reflexivity. Qed.

Lemma interpolate_string (s text : string) :
  interpolate ((VStr s : value) :: nil) text = Ok text.
Proof. reflexivity. Qed.

Lemma interpolate_printable (v : value) (text : string) :
  printable v = true -> interpolate (v :: nil) text = Ok text.
Proof. intros H. unfold interpolate. cbn [forallb]. rewrite H. reflexivity. Qed.

Lemma stringOf_printable (v : value) :
  printable v = true -> stringOf v = Ok (ToString v).
Proof. intros H. unfold stringOf. rewrite H. reflexivity. Qed.

Lemma friendlyDateOf_printable (v : value) :
  printable v = true -> friendlyDateOf v = Ok (toLocaleString v).
Proof. intros H. unfold friendlyDateOf. rewrite H. reflexivity. Qed.

Lemma bind_console_error {B} (line : string) (k : unit -> M B) (w : World) :
  bind (console_error line) k w
  = k tt {| calls := calls w; console := (console w ++ line :: nil)%list |}.
Proof. reflexivity. Qed.

(** *** Operators *)

Lemma strict_eq_str_true (v : value) (s : string) :
  strict_eq_str v s = true <-> v = VStr s.
Proof.
  destruct v; simpl; try (split; [discriminate | intros H; discriminate H]).
  split.
  - intros H. apply String.eqb_eq in H. congruence.
  - intros H. injection H as ->. apply String.eqb_refl.
Qed.

Lemma strict_eq_str_false (v : value) (s : string) :
  v <> VStr s -> strict_eq_str v s = false.
Proof.
  intros H. destruct (strict_eq_str v s) eqn:E; [|reflexivity].
  apply strict_eq_str_true in E. contradiction.
Qed.

(** Reading one property of a value succeeds exactly when reading any
    other does. *)
Lemma get_ok (v x : value) (a : string) :
  get v a = Ok x -> forall b, get v b = Ok (get_opt v b).
Proof.
  intros H name. destruct v; simpl in *; try discriminate H; reflexivity.
Qed.

(** *** Normalizer *)

Lemma normalizePhoneNumber_truthy (v : value) (s : string) :
  normalizePhoneNumber v = VStr s -> truthy (VStr s : value) = true.
Proof.
  intros H. destruct (normalizePhoneNumber_shape v) as [E | (d & E & _)];
    rewrite E in H; [discriminate H|].
  injection H as <-. reflexivity.
Qed.

Lemma getToPhone_truthy (messagePayload : value) (toPhone : string) :
  getToPhone messagePayload = Ok (VStr toPhone) ->
  truthy (VStr toPhone : value) = true.
Proof.
  unfold getToPhone. destruct (get messagePayload "to"); [|discriminate].
  intros H. injection H as H. exact (normalizePhoneNumber_truthy _ _ H).
Qed.

Lemma messageText_ok (messagePayload x : value) (a : string) :
  get messagePayload a = Ok x ->
  messageText messagePayload
  = Ok (if truthy (get_opt messagePayload "text")
        then get_opt messagePayload "text" else VStr "(No text)").
Proof.
  intros H. unfold messageText. rewrite (get_ok _ _ _ H "text"). reflexivity.
Qed.

(** *** Event filter *)

Lemma notInboundMessage_inbound (data messagePayload : value) :
  get data "event_type" = Ok (VStr "message.received") ->
  get data "payload" = Ok messagePayload ->
  get messagePayload "direction" = Ok (VStr "inbound") ->
  notInboundMessage data = Ok false.
Proof.
  intros H1 H2 H3. unfold notInboundMessage. rewrite H1, H2, H3. reflexivity.
Qed.

Lemma fetch_filtered
  (request : Request) (env : Env) (data : value) (w : World) :
  method request = "POST" ->
  eventData request = Ok data ->
  notInboundMessage data = Ok true ->
  fetch net request env w = (okResponse, w).
Proof.
  intros Hm Hd Hskip. unfold fetch, handle, eventData in *.
  rewrite Hm. simpl negb. cbv iota.
  unfold bind, lift.
  destruct (request_json request) as [payload|]; [|discriminate Hd].
  rewrite Hd, Hskip. reflexivity.
Qed.

Lemma fetch_inbound
  (request : Request) (env : Env) (data messagePayload : value) (w : World) :
  inboundEvent request data messagePayload ->
  fetch net request env w
  = respond (processInbound net env data messagePayload w).
Proof.
  intros (Hm & Hd & Ht & Hp & Hdir). unfold fetch, handle, eventData in *.
  rewrite Hm. simpl negb. cbv iota.
  unfold bind, lift.
  destruct (request_json request) as [payload|]; [|discriminate Hd].
  rewrite Hd, (notInboundMessage_inbound _ _ Ht Hp Hdir), Hp. reflexivity.
Qed.

(** *** Route resolver *)

(** A route that the dispatcher accepts was read without a word on the
    console, and would be read the same in any world. *)
Lemma getRoute_truthy (env : Env) (toPhone route : value) (w : World) :
  fst (getRoute env toPhone w) = Ok route ->
  truthy route = true ->
  forall w', getRoute env toPhone w' = (Ok route, w').
Proof.
  unfold getRoute, bind, lift, ret.
  destruct (negb (truthy toPhone)); cbn [fst].
  - intros H T. injection H as <-. discriminate T.
  - destruct (interpolate _ _) as [key|]; cbn [fst];
      [|intros H; discriminate H].
    destruct (NUMBER_TO_EMAIL env key) as [[raw|]|]; cbn [fst].
    + destruct (Str.is_empty raw); cbn [fst].
      * intros H T. injection H as <-. discriminate T.
      * destruct (JSON_parse raw) as [parsed|]; cbn [fst].
        -- intros H _ w'. injection H as <-. reflexivity.
        -- intros H T. cbn in H. injection H as <-. discriminate T.
    + intros H T. injection H as <-. discriminate T.
    + intros H. discriminate H.
Qed.

Lemma getRoute_absent (env : Env) (toPhone : string) (w : World) :
  NUMBER_TO_EMAIL env (ROUTE_KEY_PREFIX ++ toPhone) = Ok None ->
  getRoute env (VStr toPhone) w = (Ok VNull, w).
Proof.
  intros H. unfold getRoute, bind, lift, ret.
  destruct (negb (truthy (VStr toPhone))); [reflexivity|].
  rewrite interpolate_string. simpl ToString. rewrite H. reflexivity.
Qed.

Lemma getRoute_unparsable (env : Env) (toPhone raw : string) (w : World) :
  NUMBER_TO_EMAIL env (ROUTE_KEY_PREFIX ++ toPhone) = Ok (Some raw) ->
  JSON_parse raw = None ->
  fst (getRoute env (VStr toPhone) w) = Ok VNull
  /\ calls (snd (getRoute env (VStr toPhone) w)) = calls w.
Proof.
  intros H E. unfold getRoute, bind, lift, ret, console_error.
  destruct (negb (truthy (VStr toPhone))); [split; reflexivity|].
  rewrite interpolate_string. simpl ToString. rewrite H.
  destruct (Str.is_empty raw); [split; reflexivity|].
  rewrite E. split; reflexivity.
Qed.

(** With no route the handler writes one line and answers 200. *)
Lemma processInbound_no_route
  (env : Env) (data messagePayload : value) (toPhone : string) :
  getToPhone messagePayload = Ok (VStr toPhone) ->
  fst (getRoute env (VStr toPhone) initial) = Ok VNull ->
  calls (snd (getRoute env (VStr toPhone) initial)) = nil ->
  exists w,
    processInbound net env data messagePayload initial = (Ok okResponse, w)
    /\ calls w = nil.
Proof.
  intros Hto Hr Hc. unfold processInbound.
  assert (Hmp : exists x, get messagePayload "to" = Ok x).
  { unfold getToPhone in Hto. destruct (get messagePayload "to") as [x|];
      [eauto | discriminate Hto]. }
  destruct Hmp as [x Hx].
  rewrite Hto, (messageText_ok _ _ _ Hx), !bind_lift_ok.
  rewrite (getToPhone_truthy _ _ Hto). cbn [negb].
  rewrite bind_run.
  destruct (getRoute env (VStr toPhone) initial) as [r w].
  cbn [fst snd] in Hr, Hc. subst r. cbn [truthy negb].
  rewrite interpolate_string, bind_lift_ok, bind_console_error. unfold ret.
  eexists. split; [reflexivity|]. exact Hc.
Qed.

(** C6, as amended: a POST with a valid JSON body that carries an event
    whose type can be read and is other than [message.received], or
    whose payload is there and has a direction, present or not, other
    than [inbound], is answered with status 200 and causes no outbound
    HTTP call. *)
Theorem fetch_acknowledges_other_events
  (request : Request) (env : Env) (data : value) :
  method request = "POST" ->
  eventData request = Ok data ->
  (exists event_type,
     get data "event_type" = Ok event_type
     /\ event_type <> VStr "message.received")
  \/ (exists messagePayload direction,
        get data "payload" = Ok messagePayload
        /\ get messagePayload "direction" = Ok direction
        /\ direction <> VStr "inbound") ->
  status (fst (fetch net request env initial)) = 200
  /\ calls (snd (fetch net request env initial)) = nil.
Proof.
  intros Hm Hd Hev.
  assert (Hskip : notInboundMessage data = Ok true).
  { unfold notInboundMessage.
    destruct Hev as [(t & Ht & Hne) | (mp & d & Hp & Hdir & Hne)].
    - rewrite Ht, (strict_eq_str_false _ _ Hne). reflexivity.
    - rewrite (get_ok _ _ _ Hp "event_type").
      destruct (strict_eq_str (get_opt data "event_type") "message.received");
        [|reflexivity].
      simpl negb. cbv iota.
      rewrite Hp, Hdir, (strict_eq_str_false _ _ Hne). reflexivity. }
  rewrite (fetch_filtered _ env _ initial Hm Hd Hskip). split; reflexivity.
Qed.

(** Outside the event filter: another method is refused, a body that
    is not JSON and an event of type [message.received] without a
    payload end in the [catch] of the handler. *)
Lemma fetch_method_not_allowed (request : Request) (env : Env) (w : World) :
  method request <> "POST" ->
  fetch net request env w
  = ({| response_text := "Method not allowed"; status := 405 |}, w).
Proof.
  intros Hm. unfold fetch.
  destruct (String.eqb_spec (method request) "POST") as [E|_];
    [contradiction | reflexivity].
Qed.

Lemma fetch_malformed_json (request : Request) (env : Env) (w : World) :
  method request = "POST" ->
  JSON_parse (body request) = None ->
  status (fst (fetch net request env w)) = 500
  /\ calls (snd (fetch net request env w)) = calls w.
Proof.
  intros Hm Hbad. unfold fetch, handle, request_json.
  rewrite Hm, Hbad. split; reflexivity.
Qed.

Lemma fetch_event_without_payload
  (request : Request) (env : Env) (data : value) (w : World) :
  method request = "POST" ->
  eventData request = Ok data ->
  get data "event_type" = Ok (VStr "message.received") ->
  nullish (get_opt data "payload") = true ->
  status (fst (fetch net request env w)) = 500
  /\ calls (snd (fetch net request env w)) = calls w.
Proof.
  intros Hm Hd Hty Hnull. unfold fetch, handle, eventData in *.
  rewrite Hm. cbn [negb String.eqb].
  destruct (request_json request) as [payload|]; [|discriminate Hd].
  rewrite !bind_lift_ok, Hd, bind_lift_ok.
  unfold notInboundMessage.
  rewrite Hty, (get_ok _ _ _ Hty "payload"). cbn [strict_eq_str].
  rewrite String.eqb_refl. cbn [negb].
  destruct (get_opt data "payload"); try discriminate Hnull;
    split; reflexivity.
Qed.

(** C7: for an inbound [message.received] event with a valid canonical
    destination number, when the store has no entry under
    [route:<destination>], or the entry is not valid JSON, [getRoute]
    returns no route, the handler answers 200 and no outbound HTTP call
    is made. *)
Theorem fetch_without_route
  (request : Request) (env : Env) (data messagePayload : value)
  (toPhone : string) :
  inboundEvent request data messagePayload ->
  getToPhone messagePayload = Ok (VStr toPhone) ->
  NUMBER_TO_EMAIL env (ROUTE_KEY_PREFIX ++ toPhone) = Ok None
  \/ (exists raw,
        NUMBER_TO_EMAIL env (ROUTE_KEY_PREFIX ++ toPhone) = Ok (Some raw)
        /\ JSON_parse raw = None) ->
  fst (getRoute env (VStr toPhone) initial) = Ok VNull
  /\ status (fst (fetch net request env initial)) = 200
  /\ calls (snd (fetch net request env initial)) = nil.
Proof.
  intros Hin Hto Hstore.
  assert (Hr : fst (getRoute env (VStr toPhone) initial) = Ok VNull
               /\ calls (snd (getRoute env (VStr toPhone) initial)) = nil).
  { destruct Hstore as [Habs | (raw & Hraw & Hbad)].
    - rewrite (getRoute_absent env toPhone initial Habs). split; reflexivity.
    - exact (getRoute_unparsable env toPhone raw initial Hraw Hbad). }
  destruct Hr as [Hr Hc]. split; [exact Hr|].
  rewrite (fetch_inbound _ env _ _ initial Hin).
  destruct (processInbound_no_route env data _ _ Hto Hr Hc) as (w & -> & Hw).
  split; [reflexivity | exact Hw].
Qed.

(** *** Media inliner *)

Lemma calls_bind_ret {A B} (m : M A) (b : B) (w : World) :
  calls (snd (bind m (fun _ => ret b) w)) = calls (snd (m w)).
Proof.
  rewrite bind_run. destruct (m w) as [[a|e] w']; reflexivity.
Qed.

Lemma get_of_get_opt (v : value) (a b : string) :
  nullish (get_opt v a) = false -> get v b = Ok (get_opt v b).
Proof.
  destruct v; simpl; intros H; try discriminate H; reflexivity.
Qed.

(** The loop body on an image whose URL can be printed, by the outcome
    of the fetch. *)
Lemma processMediaItem_image
  (item url : value) (content_type mediaHtml : string) (w : World) :
  get_opt item "content_type" = VStr content_type ->
  Str.startsWith content_type "image/" = true ->
  get_opt item "url" = url ->
  truthy url = true ->
  printable url = true ->
  processMediaItem net item mediaHtml w
  = match net (calls w) (mediaRequest url) with
    | Rejected =>
        (Ok (mediaHtml ++ failedFragment url),
         {| calls := (calls w ++ mediaRequest url :: nil)%list;
            console := (console w ++ "Failed to fetch media:" :: nil)%list |})
    | Resolved r =>
        if ok r then
          match payload r with
          | Some bytes =>
              (Ok (mediaHtml ++ imageFragment content_type (btoa bytes)),
               {| calls := (calls w ++ mediaRequest url :: nil)%list;
                  console := console w |})
          | None =>
              (Ok (mediaHtml ++ failedFragment url),
               {| calls := (calls w ++ mediaRequest url :: nil)%list;
                  console :=
                    (console w ++ "Failed to fetch media:" :: nil)%list |})
          end
        else
          (Ok mediaHtml,
           {| calls := (calls w ++ mediaRequest url :: nil)%list;
              console := console w |})
    end.
Proof.
  intros Hct Himg Hurl Ht Hp. unfold processMediaItem.
  rewrite Hct, Himg, (get_of_get_opt item "content_type" "url"), bind_lift_ok.
  2: { rewrite Hct. reflexivity. }
  rewrite Hurl, Ht. unfold try_catch.
  rewrite (stringOf_printable url Hp), bind_lift_ok.
  rewrite (interpolate_printable url _ Hp).
  rewrite bind_run. unfold global_fetch.
  destruct (net (calls w) (mediaRequest url)) as [|r]; [reflexivity|].
  destruct (ok r); [|reflexivity].
  rewrite bind_run. unfold read_body.
  destruct (payload r); reflexivity.
Qed.

(** When the fetch of an image rejects, the failure fragment, and
    nothing else, is appended, and the loop goes on. *)
Lemma processMediaItem_rejected
  (item url : value) (content_type mediaHtml : string) (w : World) :
  get_opt item "content_type" = VStr content_type ->
  Str.startsWith content_type "image/" = true ->
  get_opt item "url" = url ->
  truthy url = true ->
  printable url = true ->
  net (calls w) (mediaRequest url) = Rejected ->
  processMediaItem net item mediaHtml w
  = (Ok (mediaHtml ++ failedFragment url),
     {| calls := (calls w ++ mediaRequest url :: nil)%list;
        console := (console w ++ "Failed to fetch media:" :: nil)%list |}).
Proof.
  intros Hct Himg Hurl Ht Hp Hnet.
  rewrite (processMediaItem_image item url content_type mediaHtml w
             Hct Himg Hurl Ht Hp), Hnet.
  reflexivity.
Qed.

(** When the fetch resolves to a response that is not [ok], nothing is
    appended: the [if (response.ok)] has no [else]. *)
Lemma processMediaItem_not_ok
  (item url : value) (content_type mediaHtml : string) (w : World)
  (r : HttpResponse) :
  get_opt item "content_type" = VStr content_type ->
  Str.startsWith content_type "image/" = true ->
  get_opt item "url" = url ->
  truthy url = true ->
  printable url = true ->
  net (calls w) (mediaRequest url) = Resolved r ->
  ok r = false ->
  processMediaItem net item mediaHtml w
  = (Ok mediaHtml,
     {| calls := (calls w ++ mediaRequest url :: nil)%list;
        console := console w |}).
Proof.
  intros Hct Himg Hurl Ht Hp Hnet Hok.
  rewrite (processMediaItem_image item url content_type mediaHtml w
             Hct Himg Hurl Ht Hp), Hnet, Hok.
  reflexivity.
Qed.

(** An image whose URL cannot be printed: [fetch] throws before any
    call, the [catch] writes its line, and its template throws. *)
Lemma processMediaItem_unprintable
  (item url : value) (content_type mediaHtml : string) (w : World) :
  get_opt item "content_type" = VStr content_type ->
  Str.startsWith content_type "image/" = true ->
  get_opt item "url" = url ->
  truthy url = true ->
  printable url = false ->
  processMediaItem net item mediaHtml w
  = (Throw (TypeError "toString"),
     {| calls := calls w;
        console := (console w ++ "Failed to fetch media:" :: nil)%list |}).
Proof.
  intros Hct Himg Hurl Ht Hp. unfold processMediaItem.
  rewrite Hct, Himg, (get_of_get_opt item "content_type" "url"), bind_lift_ok.
  2: { rewrite Hct. reflexivity. }
  rewrite Hurl, Ht. unfold try_catch, stringOf, interpolate.
  cbn [forallb]. rewrite Hp. reflexivity.
Qed.

(** What one well-formed attachment does: nothing when it is not an
    image with a URL; otherwise one GET, and markup that depends on the
    outcome. *)
Lemma processMediaItem_total (item : value) (mediaHtml : string) (w : World) :
  attachmentWellFormed item = true ->
  match imageUrl item with
  | Some url => printable url = true
  | None => True
  end ->
  exists mediaHtml' w',
    processMediaItem net item mediaHtml w = (Ok mediaHtml', w')
    /\ calls w'
       = (calls w
          ++ match imageUrl item with
             | Some url => mediaRequest url :: nil
             | None => nil
             end)%list.
Proof.
  unfold attachmentWellFormed, imageUrl.
  destruct (get_opt item "content_type") as [| | | |content_type| |] eqn:Hct;
    intros Hwf Hp; try discriminate Hwf.
  1, 2: exists mediaHtml, w; unfold processMediaItem; rewrite Hct;
        rewrite List.app_nil_r; split; reflexivity.
  destruct (Str.startsWith content_type "image/") eqn:Himg; cbn [andb] in *.
  2: { exists mediaHtml, w. unfold processMediaItem. rewrite Hct, Himg.
       rewrite List.app_nil_r. split; reflexivity. }
  destruct (truthy (get_opt item "url")) eqn:Ht.
  2: { exists mediaHtml, w. unfold processMediaItem.
       rewrite Hct, Himg, (get_of_get_opt item "content_type" "url"),
         bind_lift_ok, Ht.
       2: { rewrite Hct. reflexivity. }
       rewrite List.app_nil_r. split; reflexivity. }
  rewrite (processMediaItem_image item _ content_type mediaHtml w
             Hct Himg eq_refl Ht Hp).
  destruct (net (calls w) _) as [|r]; [eexists _, _; split; reflexivity|].
  destruct (ok r); [|eexists _, _; split; reflexivity].
  destruct (payload r); eexists _, _; split; reflexivity.
Qed.

Lemma allGets_imageUrls (urls : list value) :
  Forall (fun c : HttpCall => call_method c = "GET") (map mediaRequest urls).
Proof.
  induction urls as [|url rest IH]; constructor; [reflexivity | exact IH].
Qed.

Lemma processMediaLoop_total (items : list value) :
  forallb attachmentWellFormed items = true ->
  forallb printable (imageUrls items) = true ->
  forall (mediaHtml : string) (w : World),
  exists mediaHtml' w',
    processMediaLoop net items mediaHtml w = (Ok mediaHtml', w')
    /\ calls w' = (calls w ++ map mediaRequest (imageUrls items))%list.
Proof.
  induction items as [|item rest IH]; intros Hwf Hp mediaHtml w.
  - exists mediaHtml, w. cbn [imageUrls map]. rewrite List.app_nil_r.
    split; reflexivity.
  - cbn [forallb] in Hwf. apply Bool.andb_true_iff in Hwf as [Hitem Hrest].
    cbn [imageUrls] in Hp |- *.
    assert (Hhere : match imageUrl item with
                    | Some url => printable url = true
                    | None => True
                    end
                    /\ forallb printable (imageUrls rest) = true).
    { destruct (imageUrl item); [|split; [exact I | exact Hp]].
      cbn [forallb] in Hp. apply Bool.andb_true_iff in Hp. exact Hp. }
    destruct Hhere as [Hurl Hp'].
    destruct (processMediaItem_total item mediaHtml w Hitem Hurl)
      as (html1 & w1 & E1 & C1).
    destruct (IH Hrest Hp' html1 w1) as (html2 & w2 & E2 & C2).
    exists html2, w2.
    cbn [processMediaLoop]. rewrite bind_run, E1, E2.
    split; [reflexivity|]. rewrite C2, C1, <- List.app_assoc.
    destruct (imageUrl item); reflexivity.
Qed.

(** On well-formed media whose URLs can be printed [processMedia]
    returns, whatever the network does, and makes only GET calls. *)
Lemma processMedia_total (messagePayload x : value) (a : string) (w : World) :
  get messagePayload a = Ok x ->
  mediaWellFormed messagePayload = true ->
  mediaPrintable messagePayload = true ->
  exists mediaHtml w' gets,
    processMedia net messagePayload w = (Ok mediaHtml, w')
    /\ calls w' = (calls w ++ gets)%list
    /\ Forall (fun c => call_method c = "GET") gets.
Proof.
  intros Hmp Hwf Hp. unfold processMedia.
  rewrite (get_ok _ _ _ Hmp "media"), bind_lift_ok.
  unfold mediaWellFormed in Hwf. unfold mediaPrintable in Hp.
  destruct (get_opt messagePayload "media") as [| | | | |items|];
    try discriminate Hwf; cbn [truthy iterate]; rewrite bind_lift_ok.
  1, 2: exists EmptyString, w, nil; rewrite List.app_nil_r;
        repeat split; constructor.
  destruct (processMediaLoop_total items Hwf Hp EmptyString w)
    as (mediaHtml & w' & E & C).
  exists mediaHtml, w', (map mediaRequest (imageUrls items)).
  split; [exact E|]. split; [exact C | apply allGets_imageUrls].
Qed.

(** Media that is an object is not iterable: [processMedia] throws
    before any call, and the handler answers 500. *)
Lemma processMedia_not_iterable
  (messagePayload : value) (fields : list (string * value)) (w : World) :
  get_opt messagePayload "media" = VObj fields ->
  processMedia net messagePayload w = (Throw (TypeError "not iterable"), w).
Proof.
  intros Hmedia. unfold processMedia.
  rewrite (get_of_get_opt messagePayload "media" "media"), bind_lift_ok.
  2: { rewrite Hmedia. reflexivity. }
  rewrite Hmedia. reflexivity.
Qed.

(** *** Senders *)

Lemma sendTelnyxReply_calls
  (env : Env) (toPhone fromPhone replyText : value) (w : World) :
  truthy (TELNYX_API_KEY env) = true ->
  calls (snd (sendTelnyxReply net env toPhone fromPhone replyText w))
  = (calls w ++ telnyxRequest env toPhone fromPhone replyText :: nil)%list.
Proof.
  intros Hkey. unfold sendTelnyxReply. rewrite Hkey. cbn [negb].
  rewrite bind_run. unfold global_fetch.
  destruct (net (calls w) _) as [|r]; [reflexivity|].
  destruct (ok r); cbn [negb]; [reflexivity|].
  rewrite bind_run. unfold read_body.
  destruct (payload r); reflexivity.
Qed.

Lemma sendTelnyxReply_no_key
  (env : Env) (toPhone fromPhone replyText : value) (w : World) :
  truthy (TELNYX_API_KEY env) = false ->
  sendTelnyxReply net env toPhone fromPhone replyText w
  = (Ok tt,
     {| calls := calls w;
        console :=
          (console w
           ++ "Missing TELNYX_API_KEY for auto_reply route" :: nil)%list |}).
Proof.
  intros Hkey. unfold sendTelnyxReply. rewrite Hkey. reflexivity.
Qed.

Lemma sendMailgunEmail_calls
  (env : Env) (toEmail : value) (fromPhone friendlyDate : string)
  (text : value) (mediaHtml : string) (w : World) :
  truthy toEmail = true ->
  printable text = true ->
  printable toEmail = true ->
  calls (snd (sendMailgunEmail net env toEmail fromPhone friendlyDate
                text mediaHtml w))
  = (calls w
     ++ mailgunRequest env toEmail fromPhone friendlyDate text mediaHtml
        :: nil)%list.
Proof.
  intros Hto Hpt Hpe. unfold sendMailgunEmail. rewrite Hto. cbn [negb].
  rewrite !(interpolate_printable text _ Hpt), !bind_lift_ok.
  rewrite (stringOf_printable toEmail Hpe), bind_lift_ok.
  rewrite bind_run. unfold global_fetch.
  destruct (net (calls w) _) as [|r]; [reflexivity|].
  destruct (ok r); cbn [negb]; [reflexivity|].
  rewrite bind_run. unfold read_body.
  destruct (payload r); reflexivity.
Qed.

(** *** Dispatcher *)

Lemma processInbound_routed
  (env : Env) (data messagePayload route : value) (toPhone : string) :
  routed env messagePayload toPhone route ->
  processInbound net env data messagePayload initial
  = dispatch net env data messagePayload route (VStr toPhone)
      (getFromPhone messagePayload) (getFromPhoneForReply messagePayload)
      (textOf messagePayload) initial.
Proof.
  intros (Hto & Hroute & Htruthy). unfold processInbound.
  assert (Hmp : exists x, get messagePayload "to" = Ok x).
  { unfold getToPhone in Hto. destruct (get messagePayload "to") as [x|];
      [eauto | discriminate Hto]. }
  destruct Hmp as [x Hx].
  rewrite Hto, (messageText_ok _ _ _ Hx), !bind_lift_ok.
  rewrite (getToPhone_truthy _ _ Hto). cbn [negb].
  rewrite bind_run, (getRoute_truthy env _ route initial Hroute Htruthy).
  rewrite Htruthy. reflexivity.
Qed.

Lemma fetch_routed
  (request : Request) (env : Env) (data messagePayload route : value)
  (toPhone : string) :
  inboundEvent request data messagePayload ->
  routed env messagePayload toPhone route ->
  fetch net request env initial
  = respond
      (dispatch net env data messagePayload route (VStr toPhone)
         (getFromPhone messagePayload) (getFromPhoneForReply messagePayload)
         (textOf messagePayload) initial).
Proof.
  intros Hin Hr.
  rewrite (fetch_inbound _ env _ _ initial Hin).
  rewrite (processInbound_routed env data _ _ _ Hr). reflexivity.
Qed.

Lemma calls_respond (outcome : result Response * World) :
  calls (snd (respond outcome)) = calls (snd outcome).
Proof. destruct outcome as [[r|e] w]; reflexivity. Qed.

Lemma dispatch_auto_reply
  (env : Env) (data messagePayload route toPhone : value)
  (fromPhone : string) (fromPhoneForReply text : value) (w : World) :
  get route "mode" = Ok (VStr "auto_reply") ->
  dispatch net env data messagePayload route toPhone
    fromPhone fromPhoneForReply text w
  = dispatchAutoReply net env route toPhone fromPhoneForReply w.
Proof.
  intros Hmode. unfold dispatch. rewrite Hmode, bind_lift_ok. reflexivity.
Qed.

Lemma dispatch_forward_email
  (env : Env) (data messagePayload route toPhone : value)
  (fromPhone : string) (fromPhoneForReply text : value) (w : World) :
  get route "mode" = Ok (VStr "forward_email") ->
  dispatch net env data messagePayload route toPhone
    fromPhone fromPhoneForReply text w
  = dispatchForwardEmail net env data messagePayload route toPhone
      fromPhone text w.
Proof.
  intros Hmode. unfold dispatch. rewrite Hmode, bind_lift_ok. reflexivity.
Qed.

(** The reply branch, when nothing is missing: one call, the reply. *)
Lemma dispatchAutoReply_calls
  (env : Env) (route toPhone reply_text : value) (fromPhone : string)
  (w : World) :
  get route "reply_text" = Ok reply_text ->
  truthy reply_text = true ->
  truthy (VStr fromPhone : value) = true ->
  truthy (TELNYX_API_KEY env) = true ->
  calls (snd (dispatchAutoReply net env route toPhone (VStr fromPhone) w))
  = (calls w
     ++ telnyxRequest env toPhone (VStr fromPhone) reply_text :: nil)%list.
Proof.
  intros Hrt Ht Hfrom Hkey. unfold dispatchAutoReply.
  rewrite Hrt, bind_lift_ok, Ht, Hfrom. cbn [negb].
  rewrite calls_bind_ret. apply sendTelnyxReply_calls. exact Hkey.
Qed.

(** The reply branch, when the text or the sender is missing: one line
    on the console, 200, no call. *)
Lemma dispatchAutoReply_skipped
  (env : Env) (route toPhone reply_text fromPhoneForReply : value) :
  get route "reply_text" = Ok reply_text ->
  truthy reply_text = false \/ fromPhoneForReply = VNull ->
  exists w,
    dispatchAutoReply net env route toPhone fromPhoneForReply initial
    = (Ok okResponse, w)
    /\ calls w = nil.
Proof.
  intros Hrt Hmissing. unfold dispatchAutoReply.
  rewrite Hrt, bind_lift_ok.
  destruct (truthy reply_text) eqn:Ht; cbn [negb].
  - destruct Hmissing as [Hf | ->]; [discriminate Hf|].
    cbn [truthy negb]. rewrite bind_console_error.
    eexists. split; reflexivity.
  - rewrite bind_console_error. eexists. split; reflexivity.
Qed.

(** The reply branch without an API key: the reply is dropped. *)
Lemma dispatchAutoReply_no_key
  (env : Env) (route toPhone reply_text : value) (fromPhone : string) :
  get route "reply_text" = Ok reply_text ->
  truthy reply_text = true ->
  truthy (VStr fromPhone : value) = true ->
  truthy (TELNYX_API_KEY env) = false ->
  dispatchAutoReply net env route toPhone (VStr fromPhone) initial
  = (Ok okResponse,
     {| calls := nil;
        console := "Missing TELNYX_API_KEY for auto_reply route" :: nil |}).
Proof.
  intros Hrt Ht Hfrom Hkey. unfold dispatchAutoReply.
  rewrite Hrt, bind_lift_ok, Ht, Hfrom. cbn [negb].
  rewrite bind_run, (sendTelnyxReply_no_key env _ _ _ initial Hkey).
  reflexivity.
Qed.

(** The forward branch without a recipient: one line, 200, no call. *)
Lemma dispatchForwardEmail_skipped
  (env : Env) (data messagePayload route email text : value)
  (toPhone fromPhone : string) :
  get route "email" = Ok email ->
  truthy email = false ->
  exists w,
    dispatchForwardEmail net env data messagePayload route (VStr toPhone)
      fromPhone text initial
    = (Ok okResponse, w)
    /\ calls w = nil.
Proof.
  intros Hemail Ht. unfold dispatchForwardEmail.
  rewrite Hemail, bind_lift_ok, Ht. cbn [negb].
  rewrite interpolate_string, bind_lift_ok, bind_console_error.
  eexists. split; reflexivity.
Qed.

(** The forward branch: the GETs of the media, then the email. *)
Lemma dispatchForwardEmail_calls
  (env : Env) (data messagePayload route toPhone email text : value)
  (fromPhone : string) (x : value) (a : string) :
  get data a = Ok x ->
  get route "email" = Ok email ->
  truthy email = true ->
  printable email = true ->
  printable text = true ->
  printable (get_opt data "occurred_at") = true ->
  forall (mediaHtml : string) (w1 : World),
    processMedia net messagePayload initial = (Ok mediaHtml, w1) ->
    calls (snd (dispatchForwardEmail net env data messagePayload route
                  toPhone fromPhone text initial))
    = (calls w1
       ++ mailgunRequest env email fromPhone
            (toLocaleString (get_opt data "occurred_at")) text mediaHtml
          :: nil)%list.
Proof.
  intros Hdata Hemail Ht Hpe Hpt Hpd mediaHtml w1 Hmedia.
  unfold dispatchForwardEmail.
  rewrite Hemail, bind_lift_ok, Ht. cbn [negb].
  rewrite (get_ok _ _ _ Hdata "occurred_at"), bind_lift_ok.
  rewrite (friendlyDateOf_printable _ Hpd), bind_lift_ok.
  rewrite bind_run, Hmedia, calls_bind_ret.
  apply sendMailgunEmail_calls; assumption.
Qed.

Lemma isEmailCall_mailgunRequest
  (env : Env) (toEmail : value) (fromPhone friendlyDate : string)
  (text : value) (mediaHtml : string) :
  isEmailCall env
    (mailgunRequest env toEmail fromPhone friendlyDate text mediaHtml)
  = true.
Proof.
  unfold isEmailCall, mailgunRequest. cbn [call_method call_url].
  rewrite !String.eqb_refl. reflexivity.
Qed.

Lemma filter_isEmailCall_gets (env : Env) (gets : list HttpCall) :
  Forall (fun c => call_method c = "GET") gets ->
  filter (isEmailCall env) gets = nil.
Proof.
  induction 1 as [|c rest Hc _ IH]; [reflexivity|].
  cbn [filter]. unfold isEmailCall at 1. rewrite Hc, IH. reflexivity.
Qed.

(** The forward branch as the handler runs it: among the calls made,
    exactly one goes to the email endpoint, and it is the email built
    from the route, the payload and the output of the media inliner. *)
Lemma fetch_forward_email
  (request : Request) (env : Env) (data messagePayload route email : value)
  (toPhone : string) :
  inboundEvent request data messagePayload ->
  routed env messagePayload toPhone route ->
  get route "mode" = Ok (VStr "forward_email") ->
  get route "email" = Ok email ->
  truthy email = true ->
  forwardable data messagePayload email = true ->
  exists mediaHtml,
    fst (processMedia net messagePayload initial) = Ok mediaHtml
    /\ filter (isEmailCall env) (calls (snd (fetch net request env initial)))
       = mailgunRequest env email (getFromPhone messagePayload)
           (toLocaleString (get_opt data "occurred_at"))
           (textOf messagePayload) mediaHtml
         :: nil.
Proof.
  intros Hin Hr Hmode Hemail Ht Hfw.
  unfold forwardable in Hfw.
  apply Bool.andb_true_iff in Hfw as [Hfw Hpe].
  apply Bool.andb_true_iff in Hfw as [Hfw Hpd].
  apply Bool.andb_true_iff in Hfw as [Hfw Hpt].
  apply Bool.andb_true_iff in Hfw as [Hwf Hpm].
  pose proof Hin as (_ & _ & Hty & _ & Hdir).
  destruct (processMedia_total messagePayload _ _ initial Hdir Hwf Hpm)
    as (mediaHtml & w1 & gets & Hmedia & Hcalls & Hgets).
  exists mediaHtml. split; [rewrite Hmedia; reflexivity|].
  rewrite (fetch_routed _ env _ _ _ _ Hin Hr), calls_respond.
  rewrite (dispatch_forward_email _ _ _ _ _ _ _ _ _ Hmode).
  rewrite (dispatchForwardEmail_calls env data messagePayload route _ email
             _ _ _ _ Hty Hemail Ht Hpe Hpt Hpd mediaHtml w1 Hmedia).
  rewrite Hcalls. cbn [calls initial app].
  rewrite List.filter_app, (filter_isEmailCall_gets env gets Hgets).
  cbn [filter app]. rewrite isEmailCall_mailgunRequest. reflexivity.
Qed.

(** *** Email bodies *)

Lemma buildEmailHtml_contains_text
  (fromPhone friendlyDate : string) (text : value) (mediaHtml : string) :
  Str.contains (buildEmailHtml fromPhone friendlyDate text mediaHtml)
    (ToString text).
Proof. unfold buildEmailHtml. StrFacts.find_piece. Qed.

Lemma buildEmailHtml_contains_date
  (fromPhone friendlyDate : string) (text : value) (mediaHtml : string) :
  Str.contains (buildEmailHtml fromPhone friendlyDate text mediaHtml)
    friendlyDate.
Proof. unfold buildEmailHtml. StrFacts.find_piece. Qed.

Lemma buildEmailText_contains_text
  (fromPhone friendlyDate : string) (text : value) :
  Str.contains (buildEmailText fromPhone friendlyDate text) (ToString text).
Proof. unfold buildEmailText. StrFacts.find_piece. Qed.

Lemma buildEmailText_contains_date
  (fromPhone friendlyDate : string) (text : value) :
  Str.contains (buildEmailText fromPhone friendlyDate text) friendlyDate.
Proof. unfold buildEmailText. StrFacts.find_piece. Qed.

(** *** Properties of the dispatcher *)

(** C1, as amended: for an inbound [message.received] event whose
    resolved route has mode [auto_reply], when [reply_text] is non-empty,
    the sender number passes strict normalization and the environment has
    a non-empty [TELNYX_API_KEY], the handler makes exactly one outbound
    call, to the reply endpoint, with the JSON body
    [{from: destination, to: sender, text: reply_text}]; when
    [reply_text] is missing or empty, or the sender number fails
    normalization, the handler answers 200 and makes no call. *)
Theorem auto_reply_sends_one_reply
  (request : Request) (env : Env) (data messagePayload route reply_text : value)
  (toPhone : string) :
  inboundEvent request data messagePayload ->
  routed env messagePayload toPhone route ->
  get route "mode" = Ok (VStr "auto_reply") ->
  get route "reply_text" = Ok reply_text ->
  (forall fromPhone,
     truthy reply_text = true ->
     getFromPhoneForReply messagePayload = VStr fromPhone ->
     truthy (TELNYX_API_KEY env) = true ->
     exists c,
       calls (snd (fetch net request env initial)) = c :: nil
       /\ isReplyCall c = true
       /\ call_body c
          = JsonBody (VObj (("from", VStr toPhone)
                            :: ("to", VStr fromPhone)
                            :: ("text", reply_text) :: nil)))
  /\ (truthy reply_text = false
      \/ getFromPhoneForReply messagePayload = VNull ->
      status (fst (fetch net request env initial)) = 200
      /\ calls (snd (fetch net request env initial)) = nil).
Proof.
  intros Hin Hr Hmode Hrt.
  rewrite (fetch_routed _ env _ _ _ _ Hin Hr).
  rewrite (dispatch_auto_reply _ _ _ _ _ _ _ _ _ Hmode).
  split.
  - intros fromPhone Ht Hfrom Hkey.
    exists (telnyxRequest env (VStr toPhone) (VStr fromPhone) reply_text).
    rewrite calls_respond, Hfrom.
    rewrite (dispatchAutoReply_calls env route _ reply_text fromPhone initial
               Hrt Ht (normalizePhoneNumber_truthy _ _ Hfrom) Hkey).
    repeat split.
  - intros Hmissing.
    destruct (dispatchAutoReply_skipped env route (VStr toPhone) reply_text
                (getFromPhoneForReply messagePayload) Hrt Hmissing)
      as (w & -> & Hw).
    split; [reflexivity | exact Hw].
Qed.

(** C9: for an [auto_reply] route with non-empty [reply_text] and a
    validly normalized sender number, when [TELNYX_API_KEY] is absent or
    empty the reply sender makes no outbound call: the error is written
    to the console and the handler answers 200. *)
Theorem auto_reply_dropped_without_api_key
  (request : Request) (env : Env) (data messagePayload route reply_text : value)
  (toPhone fromPhone : string) :
  inboundEvent request data messagePayload ->
  routed env messagePayload toPhone route ->
  get route "mode" = Ok (VStr "auto_reply") ->
  get route "reply_text" = Ok reply_text ->
  truthy reply_text = true ->
  getFromPhoneForReply messagePayload = VStr fromPhone ->
  TELNYX_API_KEY env = VUndefined \/ TELNYX_API_KEY env = VStr EmptyString ->
  status (fst (fetch net request env initial)) = 200
  /\ calls (snd (fetch net request env initial)) = nil
  /\ console (snd (fetch net request env initial))
     = "Missing TELNYX_API_KEY for auto_reply route" :: nil.
Proof.
  intros Hin Hr Hmode Hrt Ht Hfrom Hkey.
  assert (Hfalsy : truthy (TELNYX_API_KEY env) = false).
  { destruct Hkey as [-> | ->]; reflexivity. }
  rewrite (fetch_routed _ env _ _ _ _ Hin Hr).
  rewrite (dispatch_auto_reply _ _ _ _ _ _ _ _ _ Hmode), Hfrom.
  rewrite (dispatchAutoReply_no_key env route _ reply_text fromPhone
             Hrt Ht (normalizePhoneNumber_truthy _ _ Hfrom) Hfalsy).
  repeat split.
Qed.

(** C2, as amended: for an inbound [message.received] event whose
    resolved route has mode [forward_email], when the route's [email] is
    non-empty, the media of the payload is absent or a list of
    attachments, and the text, the timestamp, the recipient and the
    image URLs can be printed, the handler makes exactly one call to the
    email endpoint, whose [to] field is that email and whose HTML and
    plain-text bodies both contain the message text and the formatted
    timestamp; when [email] is missing or empty the handler answers 200
    and sends nothing. *)
Theorem forward_email_sends_one_email
  (request : Request) (env : Env) (data messagePayload route email : value)
  (toPhone : string) :
  inboundEvent request data messagePayload ->
  routed env messagePayload toPhone route ->
  get route "mode" = Ok (VStr "forward_email") ->
  get route "email" = Ok email ->
  (truthy email = true ->
   forwardable data messagePayload email = true ->
   exists c html plain,
     filter (isEmailCall env) (calls (snd (fetch net request env initial)))
     = c :: nil
     /\ formField "to" c = Some (ToString email)
     /\ formField "html" c = Some html
     /\ formField "text" c = Some plain
     /\ Str.contains html (ToString (textOf messagePayload))
     /\ Str.contains html (toLocaleString (get_opt data "occurred_at"))
     /\ Str.contains plain (ToString (textOf messagePayload))
     /\ Str.contains plain (toLocaleString (get_opt data "occurred_at")))
  /\ (truthy email = false ->
      status (fst (fetch net request env initial)) = 200
      /\ calls (snd (fetch net request env initial)) = nil).
Proof.
  intros Hin Hr Hmode Hemail. split.
  - intros Ht Hfw.
    destruct (fetch_forward_email request env data messagePayload route email
                toPhone Hin Hr Hmode Hemail Ht Hfw) as (mediaHtml & _ & Hc).
    eexists _, _, _. split; [exact Hc|].
    split; [reflexivity|]. split; [reflexivity|]. split; [reflexivity|].
    split; [apply buildEmailHtml_contains_text|].
    split; [apply buildEmailHtml_contains_date|].
    split; [apply buildEmailText_contains_text|].
    apply buildEmailText_contains_date.
  - intros Hf.
    rewrite (fetch_routed _ env _ _ _ _ Hin Hr).
    rewrite (dispatch_forward_email _ _ _ _ _ _ _ _ _ Hmode).
    destruct (dispatchForwardEmail_skipped env data messagePayload route
                email (textOf messagePayload) toPhone
                (getFromPhone messagePayload) Hemail Hf) as (w & -> & Hw).
    split; [reflexivity | exact Hw].
Qed.

(** *** Display sender *)

Lemma getFromPhone_unknown (messagePayload : value) :
  is_string (get_opt (get_opt messagePayload "from") "phone_number") = false
  \/ get_opt (get_opt messagePayload "from") "phone_number"
     = VStr EmptyString ->
  getFromPhone messagePayload = "(Unknown)".
Proof.
  unfold getFromPhone.
  destruct (get_opt (get_opt messagePayload "from") "phone_number");
    intros [H | H]; try reflexivity; try discriminate H.
  injection H as ->. reflexivity.
Qed.

(** A sender that is a non-empty string is displayed as it is, whether
    or not it would pass normalization. *)
Lemma getFromPhone_verbatim (messagePayload : value) (c : ascii) (s : string) :
  get_opt (get_opt messagePayload "from") "phone_number" = VStr (String c s) ->
  getFromPhone messagePayload = String c s.
Proof. unfold getFromPhone. intros ->. reflexivity. Qed.

End WorkerFacts.

(* ================================================================== *)
(** ** The properties on concrete scenarios *)
(* ================================================================== *)

(** A delivery report is acknowledged and ignored. *)
Lemma fetch_acknowledges_other_events_witness :
  method (Demo.post Demo.deliveryReport) = "POST"
  /\ eventData (Demo.post Demo.deliveryReport)
     = Ok (Demo.dataOf Demo.deliveryReport)
  /\ status (fst (fetch Demo.up (Demo.post Demo.deliveryReport)
                    (Demo.env None (VStr "KEY")) initial)) = 200
  /\ calls (snd (fetch Demo.up (Demo.post Demo.deliveryReport)
                   (Demo.env None (VStr "KEY")) initial)) = nil.
Proof.
  split; [reflexivity|]. split; [vm_compute; reflexivity|].
  apply (fetch_acknowledges_other_events Demo.up
           (Demo.post Demo.deliveryReport) (Demo.env None (VStr "KEY"))
           (Demo.dataOf Demo.deliveryReport)).
  - reflexivity.
  - vm_compute. reflexivity.
  - left. exists (VStr "message.finalized").
    split; [vm_compute; reflexivity | discriminate].
Defined.

(** A message for a number whose stored route is not JSON. *)
Lemma fetch_without_route_witness :
  inboundEvent (Demo.post Demo.smsHello)
    (Demo.dataOf Demo.smsHello) (Demo.payloadOf Demo.smsHello)
  /\ getToPhone (Demo.payloadOf Demo.smsHello) = Ok (VStr "+15551230000")
  /\ JSON_parse "oops" = None
  /\ fst (getRoute (Demo.env (Some "oops") (VStr "KEY"))
            (VStr "+15551230000") initial) = Ok VNull
  /\ status (fst (fetch Demo.up (Demo.post Demo.smsHello)
                    (Demo.env (Some "oops") (VStr "KEY")) initial)) = 200
  /\ calls (snd (fetch Demo.up (Demo.post Demo.smsHello)
                   (Demo.env (Some "oops") (VStr "KEY")) initial)) = nil.
Proof.
  split; [repeat split; vm_compute; reflexivity|].
  split; [vm_compute; reflexivity|].
  split; [vm_compute; reflexivity|].
  apply (fetch_without_route Demo.up (Demo.post Demo.smsHello)
           (Demo.env (Some "oops") (VStr "KEY"))
           (Demo.dataOf Demo.smsHello) (Demo.payloadOf Demo.smsHello)
           "+15551230000").
  - repeat split; vm_compute; reflexivity.
  - vm_compute. reflexivity.
  - right. exists "oops". split; vm_compute; reflexivity.
Defined.

(** C1, as stated, fails: the event is inbound, the route is
    [{mode: 'auto_reply', reply_text: 'Thanks!'}], the sender number
    normalizes, and yet no call is made, because the environment has no
    [TELNYX_API_KEY] and [sendTelnyxReply] returns before its [fetch]. *)
Lemma auto_reply_needs_api_key :
  inboundEvent (Demo.post Demo.smsHello)
    (Demo.dataOf Demo.smsHello) (Demo.payloadOf Demo.smsHello)
  /\ routed (Demo.env (Some (Demo.stringify Demo.autoReplyRoute)) VUndefined)
       (Demo.payloadOf Demo.smsHello) "+15551230000" Demo.autoReplyRoute
  /\ get Demo.autoReplyRoute "mode" = Ok (VStr "auto_reply")
  /\ get Demo.autoReplyRoute "reply_text" = Ok (VStr "Thanks!")
  /\ getFromPhoneForReply (Demo.payloadOf Demo.smsHello)
     = VStr "+15557654321"
  /\ calls (snd (fetch Demo.up (Demo.post Demo.smsHello)
                   (Demo.env (Some (Demo.stringify Demo.autoReplyRoute))
                      VUndefined)
                   initial))
     = nil.
Proof. repeat split; vm_compute; reflexivity. Qed.

(** The reply of the specification's example, and a message whose sender
    is not in international format. *)
Lemma auto_reply_sends_one_reply_witness :
  (exists c,
     calls (snd (fetch Demo.up (Demo.post Demo.smsHello)
                   (Demo.env (Some (Demo.stringify Demo.autoReplyRoute))
                      (VStr "KEY"))
                   initial))
     = c :: nil
     /\ isReplyCall c = true
     /\ call_body c
        = JsonBody (VObj (("from", VStr "+15551230000")
                          :: ("to", VStr "+15557654321")
                          :: ("text", VStr "Thanks!") :: nil)))
  /\ status (fst (fetch Demo.up (Demo.post Demo.smsBadSender)
                    (Demo.env (Some (Demo.stringify Demo.autoReplyRoute))
                       (VStr "KEY"))
                    initial)) = 200
  /\ calls (snd (fetch Demo.up (Demo.post Demo.smsBadSender)
                   (Demo.env (Some (Demo.stringify Demo.autoReplyRoute))
                      (VStr "KEY"))
                   initial)) = nil.
Proof.
  split.
  - apply (proj1
             (auto_reply_sends_one_reply Demo.up (Demo.post Demo.smsHello)
                (Demo.env (Some (Demo.stringify Demo.autoReplyRoute))
                   (VStr "KEY"))
                (Demo.dataOf Demo.smsHello) (Demo.payloadOf Demo.smsHello)
                Demo.autoReplyRoute (VStr "Thanks!") "+15551230000"
                ltac:(repeat split; vm_compute; reflexivity)
                ltac:(repeat split; vm_compute; reflexivity)
                ltac:(vm_compute; reflexivity)
                ltac:(vm_compute; reflexivity))
             "+15557654321");
      vm_compute; reflexivity.
  - apply (proj2
             (auto_reply_sends_one_reply Demo.up (Demo.post Demo.smsBadSender)
                (Demo.env (Some (Demo.stringify Demo.autoReplyRoute))
                   (VStr "KEY"))
                (Demo.dataOf Demo.smsBadSender)
                (Demo.payloadOf Demo.smsBadSender)
                Demo.autoReplyRoute (VStr "Thanks!") "+15551230000"
                ltac:(repeat split; vm_compute; reflexivity)
                ltac:(repeat split; vm_compute; reflexivity)
                ltac:(vm_compute; reflexivity)
                ltac:(vm_compute; reflexivity))).
    right. vm_compute. reflexivity.
Defined.

(** The same message and route, in an environment without the key. *)
Lemma auto_reply_dropped_without_api_key_witness :
  status (fst (fetch Demo.up (Demo.post Demo.smsHello)
                 (Demo.env (Some (Demo.stringify Demo.autoReplyRoute))
                    VUndefined)
                 initial)) = 200
  /\ calls (snd (fetch Demo.up (Demo.post Demo.smsHello)
                   (Demo.env (Some (Demo.stringify Demo.autoReplyRoute))
                      VUndefined)
                   initial)) = nil
  /\ console (snd (fetch Demo.up (Demo.post Demo.smsHello)
                     (Demo.env (Some (Demo.stringify Demo.autoReplyRoute))
                        VUndefined)
                     initial))
     = "Missing TELNYX_API_KEY for auto_reply route" :: nil.
Proof.
  apply (auto_reply_dropped_without_api_key Demo.up (Demo.post Demo.smsHello)
           (Demo.env (Some (Demo.stringify Demo.autoReplyRoute)) VUndefined)
           (Demo.dataOf Demo.smsHello) (Demo.payloadOf Demo.smsHello)
           Demo.autoReplyRoute (VStr "Thanks!")
           "+15551230000" "+15557654321").
  - repeat split; vm_compute; reflexivity.
  - repeat split; vm_compute; reflexivity.
  - vm_compute. reflexivity.
  - vm_compute. reflexivity.
  - reflexivity.
  - vm_compute. reflexivity.
  - left. reflexivity.
Defined.

(** A picture message forwarded to [a@b.com], and a route without a
    recipient. *)
Lemma forward_email_sends_one_email_witness :
  (exists c html plain,
     filter (isEmailCall (Demo.env (Some (Demo.stringify Demo.forwardRoute))
                            (VStr "KEY")))
       (calls (snd (fetch Demo.up (Demo.post Demo.mmsHello)
                      (Demo.env (Some (Demo.stringify Demo.forwardRoute))
                         (VStr "KEY"))
                      initial)))
     = c :: nil
     /\ formField "to" c = Some "a@b.com"
     /\ formField "html" c = Some html
     /\ formField "text" c = Some plain
     /\ Str.contains html "hello"
     /\ Str.contains html "12/31/2023, 6:00:00 PM CST"
     /\ Str.contains plain "hello"
     /\ Str.contains plain "12/31/2023, 6:00:00 PM CST")
  /\ status (fst (fetch Demo.up (Demo.post Demo.mmsHello)
                    (Demo.env
                       (Some (Demo.stringify Demo.forwardRouteNoEmail))
                       (VStr "KEY"))
                    initial)) = 200
  /\ calls (snd (fetch Demo.up (Demo.post Demo.mmsHello)
                   (Demo.env
                      (Some (Demo.stringify Demo.forwardRouteNoEmail))
                      (VStr "KEY"))
                   initial)) = nil.
Proof.
  split.
  - apply (proj1
             (forward_email_sends_one_email Demo.up (Demo.post Demo.mmsHello)
                (Demo.env (Some (Demo.stringify Demo.forwardRoute))
                   (VStr "KEY"))
                (Demo.dataOf Demo.mmsHello) (Demo.payloadOf Demo.mmsHello)
                Demo.forwardRoute (VStr "a@b.com") "+15551230000"
                ltac:(repeat split; vm_compute; reflexivity)
                ltac:(repeat split; vm_compute; reflexivity)
                ltac:(vm_compute; reflexivity)
                ltac:(vm_compute; reflexivity)));
      vm_compute; reflexivity.
  - apply (proj2
             (forward_email_sends_one_email Demo.up (Demo.post Demo.mmsHello)
                (Demo.env (Some (Demo.stringify Demo.forwardRouteNoEmail))
                   (VStr "KEY"))
                (Demo.dataOf Demo.mmsHello) (Demo.payloadOf Demo.mmsHello)
                Demo.forwardRouteNoEmail VUndefined "+15551230000"
                ltac:(repeat split; vm_compute; reflexivity)
                ltac:(repeat split; vm_compute; reflexivity)
                ltac:(vm_compute; reflexivity)
                ltac:(vm_compute; reflexivity))).
    reflexivity.
Defined.

(** C2, as stated, fails: it asks nothing of the event.  The route is
    [{mode: "forward_email", email: "a@b.com"}]; the text of the first
    message is the object [{"toString": 1}], which the template of the
    email body cannot print, and the media of the second is an object,
    which the loop of the media inliner cannot iterate: the handler
    answers 500 to both and calls nothing. *)
Lemma forward_email_needs_printable_event :
  inboundEvent (P:=Scenarios.platform) (Demo.post Scenarios.smsObjectText)
    (Demo.dataOf Scenarios.smsObjectText)
    (Demo.payloadOf Scenarios.smsObjectText)
  /\ routed (P:=Scenarios.platform)
       (Demo.env (Some (Demo.stringify Demo.forwardRoute)) (VStr "KEY"))
       (Demo.payloadOf Scenarios.smsObjectText) "+15551230000"
       Demo.forwardRoute
  /\ get Demo.forwardRoute "email" = Ok (VStr "a@b.com" : value nat)
  /\ fetch (P:=Scenarios.platform) Demo.up
       (Demo.post Scenarios.smsObjectText)
       (Demo.env (Some (Demo.stringify Demo.forwardRoute)) (VStr "KEY"))
       initial
     = ({| response_text := "Internal Server Error"; status := 500 |},
        {| calls := nil; console := "Worker error:" :: nil |})
  /\ inboundEvent (P:=Scenarios.platform) (Demo.post Scenarios.mmsMediaObject)
       (Demo.dataOf Scenarios.mmsMediaObject)
       (Demo.payloadOf Scenarios.mmsMediaObject)
  /\ fetch (P:=Scenarios.platform) Demo.up
       (Demo.post Scenarios.mmsMediaObject)
       (Demo.env (Some (Demo.stringify Demo.forwardRoute)) (VStr "KEY"))
       initial
     = ({| response_text := "Internal Server Error"; status := 500 |},
        {| calls := nil; console := "Worker error:" :: nil |}).
Proof. repeat split; vm_compute; reflexivity. Qed.

(** C6, as stated, fails: an event of type [message.received] without
    a payload has a direction other than [inbound], for it has none;
    [data.payload.direction] throws, and the handler answers 500. *)
Lemma fetch_direction_without_payload :
  method (Demo.post Scenarios.eventWithoutPayload) = "POST"
  /\ eventData (P:=Scenarios.platform)
       (Demo.post Scenarios.eventWithoutPayload)
     = Ok (Demo.dataOf Scenarios.eventWithoutPayload)
  /\ get_opt (Demo.payloadOf Scenarios.eventWithoutPayload) "direction"
     <> VStr "inbound"
  /\ fetch (P:=Scenarios.platform) Demo.up
       (Demo.post Scenarios.eventWithoutPayload) (Demo.env None (VStr "KEY"))
       initial
     = ({| response_text := "Internal Server Error"; status := 500 |},
        {| calls := nil; console := "Worker error:" :: nil |}).
Proof.
  split; [reflexivity|]. split; [vm_compute; reflexivity|].
  split; [intros H; discriminate H | vm_compute; reflexivity].
Qed.

(** C3: for an image attachment whose fetch fails, the media inliner is
    to append a "failed to load" fragment.  It does when the fetch
    rejects; it does not when the fetch resolves to a response that is
    not [ok] (a 404, say): then nothing is appended for the attachment,
    and the email, which is still sent, shows no trace of it. *)
Theorem processMedia_skips_failed_response :
  fst (processMedia Demo.notFound (Demo.payloadOf Demo.mmsHello) initial)
  = Ok EmptyString
  /\ fst (processMedia Demo.down (Demo.payloadOf Demo.mmsHello) initial)
     = Ok (failedFragment (VStr "https://example.com/a.png" : value nat))
  /\ (exists c,
        filter (isEmailCall
                  (Demo.env (Some (Demo.stringify Demo.forwardRoute))
                     (VStr "KEY")))
          (calls (snd (fetch Demo.notFound (Demo.post Demo.mmsHello)
                         (Demo.env (Some (Demo.stringify Demo.forwardRoute))
                            (VStr "KEY"))
                         initial)))
        = c :: nil
        /\ formField "html" c
           = Some (buildEmailHtml "+15557654321" "12/31/2023, 6:00:00 PM CST"
                     (VStr "hello" : value nat) EmptyString)).
Proof.
  split; [vm_compute; reflexivity|].
  split; [vm_compute; reflexivity|].
  eexists. split; vm_compute; reflexivity.
Qed.

(* ================================================================== *)
(** ** Further properties: the payload normalizer *)
(* ================================================================== *)

Module DigitFacts.
Import Str.

Lemma digit_not_space (c : ascii) : is_digit c = true -> is_space c = false.
Proof.
  intros Hd. destruct (is_space c) eqn:Hs; [|reflexivity].
  rewrite (StrFacts.space_not_digit c Hs) in Hd. discriminate Hd.
Qed.

Lemma allDigits_stripNonDigits (s : string) :
  allDigits (stripNonDigits s) = true.
Proof.
  induction s as [|c s IH]; [reflexivity|]. cbn [stripNonDigits].
  destruct (is_digit c) eqn:Hc; [|exact IH].
  cbn [allDigits]. rewrite Hc, IH. reflexivity.
Qed.

Lemma stripNonDigits_allDigits (d : string) :
  allDigits d = true -> stripNonDigits d = d.
Proof.
  induction d as [|c d IH]; [reflexivity|]. cbn [allDigits stripNonDigits].
  intros H. apply Bool.andb_true_iff in H as [Hc Hd].
  rewrite Hc, (IH Hd). reflexivity.
Qed.

Lemma trimEnd_allDigits (d : string) : allDigits d = true -> trimEnd d = d.
Proof.
  induction d as [|c d IH]; [reflexivity|]. cbn [allDigits trimEnd].
  intros H. apply Bool.andb_true_iff in H as [Hc Hd].
  rewrite (digit_not_space c Hc), (IH Hd). reflexivity.
Qed.

Lemma trim_plus_digits (d : string) :
  allDigits d = true -> trim (String "+"%char d) = String "+"%char d.
Proof.
  intros Hd. unfold trim. cbn [trimStart].
  change (is_space "+"%char) with false. cbn iota.
  cbn [trimEnd]. change (is_space "+"%char) with false.
  cbn [andb]. rewrite (trimEnd_allDigits d Hd). reflexivity.
Qed.

End DigitFacts.

Section NormalizerProperties.

Context {number : Type}.
#[local] Abbreviation value := (value number).

(** What [normalizePhoneNumber] makes of a string, in one equation. *)
Lemma normalizePhoneNumber_string (s : string) :
  normalizePhoneNumber (VStr s : value)
  = if Str.startsWith (Str.trim s) "+"
       && (E164_MIN_DIGITS <=? Str.countDigits s)%nat
       && (Str.countDigits s <=? E164_MAX_DIGITS)%nat
    then VStr (String "+"%char (Str.stripNonDigits s))
    else VNull.
Proof.
  unfold normalizePhoneNumber. cbv zeta.
  rewrite StrFacts.stripNonDigits_trim, StrFacts.length_stripNonDigits.
  destruct (Str.startsWith (Str.trim s) "+"); cbn [negb andb]; [|reflexivity].
  rewrite Nat.ltb_antisym, (Nat.ltb_antisym _ E164_MAX_DIGITS).
  destruct (E164_MIN_DIGITS <=? Str.countDigits s)%nat;
    destruct (Str.countDigits s <=? E164_MAX_DIGITS)%nat; reflexivity.
Qed.

Lemma canonical_plus_digits (d : string) :
  allDigits d = true ->
  E164_MIN_DIGITS <= String.length d <= E164_MAX_DIGITS ->
  normalizePhoneNumber (VStr (String "+"%char d) : value)
  = VStr (String "+"%char d).
Proof.
  intros Hd [Hlo Hhi]. rewrite normalizePhoneNumber_string.
  rewrite (DigitFacts.trim_plus_digits d Hd).
  assert (Hstrip : Str.stripNonDigits (String "+"%char d) = d).
  { cbn [Str.stripNonDigits]. change (Str.is_digit "+"%char) with false.
    cbn iota. exact (DigitFacts.stripNonDigits_allDigits d Hd). }
  rewrite <- (StrFacts.length_stripNonDigits (String "+"%char d)), Hstrip.
  apply Nat.leb_le in Hlo, Hhi. rewrite Hlo, Hhi. reflexivity.
Qed.

Lemma normalizePhoneNumber_result (v : value) (s : string) :
  normalizePhoneNumber v = VStr s ->
  exists digits,
    s = String "+"%char digits
    /\ allDigits digits = true
    /\ E164_MIN_DIGITS <= String.length digits <= E164_MAX_DIGITS.
Proof.
  destruct v as [| | | |t| |]; try (intros H; discriminate H).
  rewrite normalizePhoneNumber_string.
  destruct (Str.startsWith (Str.trim t) "+"); cbn [andb];
    [|intros H; discriminate H].
  destruct (E164_MIN_DIGITS <=? Str.countDigits t)%nat eqn:Hlo; cbn [andb];
    [|intros H; discriminate H].
  destruct (Str.countDigits t <=? E164_MAX_DIGITS)%nat eqn:Hhi;
    [|intros H; discriminate H].
  intros H. injection H as <-. exists (Str.stripNonDigits t).
  split; [reflexivity|].
  split; [apply DigitFacts.allDigits_stripNonDigits|].
  rewrite StrFacts.length_stripNonDigits.
  apply Nat.leb_le in Hlo, Hhi. split; assumption.
Qed.

(** X1: a number that [normalizePhoneNumber] returns is ['+'] followed
    by 8 to 15 characters, all of them digits. *)
Theorem normalizePhoneNumber_canonical_form (v : value) (s : string) :
  normalizePhoneNumber v = VStr s ->
  exists digits,
    s = "+" ++ digits
    /\ allDigits digits = true
    /\ 8 <= String.length digits <= 15.
Proof.
  intros H.
  destruct (normalizePhoneNumber_shape v) as [E | (digits & E & Hlen)];
    rewrite E in H; [discriminate H|].
  injection H as <-. exists digits. split; [reflexivity|].
  split; [|exact Hlen].
  destruct v as [| | | |t| |]; try discriminate E.
  rewrite normalizePhoneNumber_string in E.
  destruct (_ && _ && _)%bool; [|discriminate E].
  injection E as <-. apply DigitFacts.allDigits_stripNonDigits.
Qed.

(** X2: normalizing is idempotent: what [normalizePhoneNumber] returns,
    a number or [null], it returns again when applied to it. *)
Theorem normalizePhoneNumber_idempotent (v : value) :
  normalizePhoneNumber (normalizePhoneNumber v) = normalizePhoneNumber v.
Proof.
  destruct (normalizePhoneNumber_shape v) as [E | (d0 & E & _)].
  - rewrite E. reflexivity.
  - destruct (normalizePhoneNumber_result v _ E) as (d & Hs & Hd & Hlen).
    rewrite E, Hs. exact (canonical_plus_digits d Hd Hlen).
Qed.

(** X3: the result depends on the string only through its digits and
    through whether, once trimmed, it starts with ['+']: spaces, dashes,
    parentheses and any other punctuation between the digits are
    ignored. *)
Theorem normalizePhoneNumber_ignores_punctuation (s t : string) :
  Str.startsWith (Str.trim s) "+" = Str.startsWith (Str.trim t) "+" ->
  Str.stripNonDigits s = Str.stripNonDigits t ->
  normalizePhoneNumber (VStr s : value) = normalizePhoneNumber (VStr t).
Proof.
  intros Hplus Hdigits. rewrite !normalizePhoneNumber_string.
  rewrite <- !StrFacts.length_stripNonDigits, Hplus, Hdigits. reflexivity.
Qed.

End NormalizerProperties.

Lemma normalizePhoneNumber_canonical_form_witness :
  normalizePhoneNumber (VStr " +44 20-7946 0958 " : value nat)
  = VStr "+442079460958"
  /\ exists digits,
       "+442079460958" = "+" ++ digits
       /\ allDigits digits = true
       /\ 8 <= String.length digits <= 15.
Proof.
  split; [reflexivity|].
  apply (normalizePhoneNumber_canonical_form (number:=nat)
           (VStr " +44 20-7946 0958 ") "+442079460958").
  reflexivity.
Defined.

Lemma normalizePhoneNumber_ignores_punctuation_witness :
  normalizePhoneNumber (VStr "+1 (555) 123-4567" : value nat)
  = normalizePhoneNumber (VStr " +1.555.123.4567").
Proof.
  apply (normalizePhoneNumber_ignores_punctuation (number:=nat)
           "+1 (555) 123-4567" " +1.555.123.4567");
    reflexivity.
Defined.

(* ================================================================== *)
(** ** Further properties: the handler as a whole *)
(* ================================================================== *)

Section HandlerProperties.

Context {number : Type} {P : Platform number}.
#[local] Abbreviation value := (value number).
#[local] Abbreviation HttpCall := (HttpCall number).
#[local] Abbreviation World := (World number).
#[local] Abbreviation Env := (Env number).
#[local] Abbreviation M := (@M number).

Variable net : list HttpCall -> HttpCall -> Outcome.

(** *** What each stage can do to the trace *)

Lemma getRoute_calls (env : Env) (toPhone : value) (w : World) :
  calls (snd (getRoute env toPhone w)) = calls w.
Proof.
  unfold getRoute. destruct (negb (truthy toPhone)); [reflexivity|].
  rewrite bind_run. unfold lift.
  destruct (interpolate _ _) as [key|]; [|reflexivity].
  rewrite bind_run.
  destruct (NUMBER_TO_EMAIL env key) as [[raw|]|]; try reflexivity.
  destruct (Str.is_empty raw); [reflexivity|].
  destruct (JSON_parse raw); reflexivity.
Qed.

(** A template is written to the console, and 200 follows: when the
    template throws, nothing is written. *)
Lemma logged_line_outcome
  (holes : list value) (text : string) (w : World) :
  acknowledged
    (bind (lift (interpolate holes text))
       (fun line => bind (console_error line) (fun _ => ret okResponse)) w)
  /\ calls
       (snd
          (bind (lift (interpolate holes text))
             (fun line =>
                bind (console_error line) (fun _ => ret okResponse)) w))
     = calls w.
Proof.
  unfold interpolate.
  destruct (forallb printable holes); split; reflexivity || exact I.
Qed.

Lemma processMediaItem_gets (item : value) (mediaHtml : string) (w : World) :
  exists gets,
    calls (snd (processMediaItem net item mediaHtml w))
    = (calls w ++ gets)%list
    /\ allGets gets.
Proof.
  assert (Hnone : exists gets : list HttpCall,
             calls w = (calls w ++ gets)%list /\ allGets gets).
  { exists nil. rewrite List.app_nil_r. split; [reflexivity | constructor]. }
  destruct (get_opt item "content_type") as [| | | |content_type| |] eqn:Hct;
    try (unfold processMediaItem; rewrite Hct; exact Hnone).
  destruct (Str.startsWith content_type "image/") eqn:Himg;
    [|unfold processMediaItem; rewrite Hct, Himg; exact Hnone].
  destruct (truthy (get_opt item "url")) eqn:Ht.
  2: { unfold processMediaItem.
       rewrite Hct, Himg, (get_of_get_opt item "content_type" "url"),
         bind_lift_ok, Ht.
       2: { rewrite Hct. reflexivity. }
       exact Hnone. }
  destruct (printable (get_opt item "url")) eqn:Hp.
  - rewrite (processMediaItem_image net item _ content_type mediaHtml w
               Hct Himg eq_refl Ht Hp).
    exists (mediaRequest (get_opt item "url") :: nil).
    split; [|constructor; [reflexivity | constructor]].
    destruct (net (calls w) _) as [|r]; [reflexivity|].
    destruct (ok r); [|reflexivity].
    destruct (payload r); reflexivity.
  - rewrite (processMediaItem_unprintable net item _ content_type mediaHtml w
               Hct Himg eq_refl Ht Hp).
    exact Hnone.
Qed.

Lemma processMediaLoop_gets (items : list value) :
  forall (mediaHtml : string) (w : World),
  exists gets,
    calls (snd (processMediaLoop net items mediaHtml w))
    = (calls w ++ gets)%list
    /\ allGets gets.
Proof.
  induction items as [|item rest IH]; intros mediaHtml w.
  - exists nil. rewrite List.app_nil_r. split; [reflexivity | constructor].
  - cbn [processMediaLoop]. rewrite bind_run.
    destruct (processMediaItem_gets item mediaHtml w) as (g1 & C1 & G1).
    destruct (processMediaItem net item mediaHtml w) as [[html1|e] w1].
    + destruct (IH html1 w1) as (g2 & C2 & G2).
      exists (g1 ++ g2)%list. cbn [snd] in C1. rewrite C2, C1.
      split; [apply eq_sym, List.app_assoc | apply Forall_app; split; assumption].
    + exists g1. split; assumption.
Qed.

Lemma processMedia_gets (messagePayload : value) (w : World) :
  exists gets,
    calls (snd (processMedia net messagePayload w)) = (calls w ++ gets)%list
    /\ allGets gets.
Proof.
  assert (Hnone : exists gets : list HttpCall,
             calls w = (calls w ++ gets)%list /\ allGets gets).
  { exists nil. rewrite List.app_nil_r. split; [reflexivity | constructor]. }
  unfold processMedia. rewrite bind_run. unfold lift.
  destruct (get messagePayload "media") as [media|]; [|exact Hnone].
  rewrite bind_run.
  destruct (iterate (if truthy media then media else VArr nil)) as [items|];
    [|exact Hnone].
  apply processMediaLoop_gets.
Qed.

Lemma acknowledged_bind_ret {A} (m : M A) (w : World) :
  acknowledged (bind m (fun _ => ret okResponse) w).
Proof.
  unfold acknowledged. rewrite bind_run.
  destruct (m w) as [[a|e] w']; [reflexivity | exact I].
Qed.

Lemma sendMailgunEmail_trace
  (env : Env) (toEmail : value) (fromPhone friendlyDate : string)
  (text : value) (mediaHtml : string) (w : World) :
  calls (snd (sendMailgunEmail net env toEmail fromPhone friendlyDate
                text mediaHtml w))
  = calls w
  \/ truthy toEmail = true
     /\ calls (snd (sendMailgunEmail net env toEmail fromPhone friendlyDate
                      text mediaHtml w))
        = (calls w
           ++ mailgunRequest env toEmail fromPhone friendlyDate text
                mediaHtml :: nil)%list.
Proof.
  destruct (truthy toEmail) eqn:Ht.
  2: { left. unfold sendMailgunEmail. rewrite Ht. reflexivity. }
  destruct (printable text) eqn:Hpt.
  2: { left. unfold sendMailgunEmail, interpolate. rewrite Ht.
       cbn [negb forallb]. rewrite Hpt. reflexivity. }
  destruct (printable toEmail) eqn:Hpe.
  2: { left. unfold sendMailgunEmail, stringOf. rewrite Ht. cbn [negb].
       rewrite !(interpolate_printable text _ Hpt), !bind_lift_ok, Hpe.
       reflexivity. }
  right. split; [reflexivity|].
  apply sendMailgunEmail_calls; assumption.
Qed.

Lemma sendTelnyxReply_trace
  (env : Env) (toPhone fromPhone replyText : value) (w : World) :
  calls (snd (sendTelnyxReply net env toPhone fromPhone replyText w))
  = calls w
  \/ calls (snd (sendTelnyxReply net env toPhone fromPhone replyText w))
     = (calls w ++ telnyxRequest env toPhone fromPhone replyText :: nil)%list.
Proof.
  destruct (truthy (TELNYX_API_KEY env)) eqn:Hkey.
  - right. apply sendTelnyxReply_calls. exact Hkey.
  - left. rewrite (sendTelnyxReply_no_key net env _ _ _ w Hkey). reflexivity.
Qed.

(** The reply branch ends in 200 or an exception, with no call or with
    the one reply. *)
Lemma dispatchAutoReply_outcome
  (env : Env) (route toPhone fromPhoneForReply : value) (w : World) :
  acknowledged (dispatchAutoReply net env route toPhone fromPhoneForReply w)
  /\ (calls (snd (dispatchAutoReply net env route toPhone
                    fromPhoneForReply w))
      = calls w
      \/ truthy fromPhoneForReply = true
         /\ exists replyText,
              truthy replyText = true
              /\ calls (snd (dispatchAutoReply net env route toPhone
                               fromPhoneForReply w))
                 = (calls w
                    ++ telnyxRequest env toPhone fromPhoneForReply replyText
                       :: nil)%list).
Proof.
  unfold dispatchAutoReply. rewrite bind_run. unfold lift.
  destruct (get route "reply_text") as [reply_text|].
  2: { split; [exact I | left; reflexivity]. }
  destruct (truthy reply_text) eqn:Ht; cbn [negb].
  2: { rewrite bind_console_error. split; [reflexivity | left; reflexivity]. }
  destruct (truthy fromPhoneForReply) eqn:Hf; cbn [negb].
  2: { rewrite bind_console_error. split; [reflexivity | left; reflexivity]. }
  split; [apply acknowledged_bind_ret|].
  rewrite calls_bind_ret.
  destruct (sendTelnyxReply_trace env toPhone fromPhoneForReply reply_text w)
    as [E | E]; rewrite E.
  - left. reflexivity.
  - right. split; [reflexivity|]. exists reply_text. split; [exact Ht|].
    reflexivity.
Qed.

(** The forward branch ends in 200 or an exception, with the GETs of the
    media and then at most the one email. *)
Lemma dispatchForwardEmail_outcome
  (env : Env) (data messagePayload route toPhone text : value)
  (fromPhone : string) (w : World) :
  acknowledged (dispatchForwardEmail net env data messagePayload route
                  toPhone fromPhone text w)
  /\ exists gets,
       allGets gets
       /\ (calls (snd (dispatchForwardEmail net env data messagePayload
                         route toPhone fromPhone text w))
           = (calls w ++ gets)%list
           \/ exists email friendlyDate mediaHtml,
                truthy email = true
                /\ calls (snd (dispatchForwardEmail net env data
                                 messagePayload route toPhone fromPhone
                                 text w))
                   = (calls w ++ gets
                      ++ mailgunRequest env email fromPhone friendlyDate
                           text mediaHtml :: nil)%list).
Proof.
  assert (Hnone : exists gets : list HttpCall,
             allGets gets
             /\ (calls w = (calls w ++ gets)%list
                 \/ exists email friendlyDate mediaHtml,
                      truthy email = true
                      /\ calls w
                         = (calls w ++ gets
                            ++ mailgunRequest env email fromPhone
                                 friendlyDate text mediaHtml :: nil)%list)).
  { exists nil. split; [constructor|]. left. rewrite List.app_nil_r.
    reflexivity. }
  unfold dispatchForwardEmail. rewrite bind_lift.
  destruct (get route "email") as [email|]; [|split; [exact I | exact Hnone]].
  destruct (truthy email) eqn:Ht; cbn [negb].
  2: { destruct (logged_line_outcome (toPhone :: nil)
                   ("Missing email in forward_email route for: "
                    ++ ToString toPhone) w) as [Hack Hcalls].
       split; [exact Hack|]. exists nil. split; [constructor|]. left.
       rewrite Hcalls, List.app_nil_r. reflexivity. }
  rewrite bind_lift.
  destruct (get data "occurred_at") as [occurred_at|];
    [|split; [exact I | exact Hnone]].
  rewrite bind_lift.
  destruct (friendlyDateOf occurred_at) as [friendlyDate|];
    [|split; [exact I | exact Hnone]].
  rewrite bind_run.
  destruct (processMedia_gets messagePayload w) as (gets & Hc & Hg).
  destruct (processMedia net messagePayload w) as [[mediaHtml|e] w1];
    cbn [snd] in Hc.
  - split; [apply acknowledged_bind_ret|].
    exists gets. split; [exact Hg|]. rewrite calls_bind_ret.
    destruct (sendMailgunEmail_trace env email fromPhone friendlyDate text
                mediaHtml w1) as [E | [_ E]]; rewrite E.
    + left. exact Hc.
    + right. exists email, friendlyDate, mediaHtml.
      split; [exact Ht|]. rewrite Hc, <- List.app_assoc. reflexivity.
  - split; [exact I|]. exists gets. split; [exact Hg|]. left. exact Hc.
Qed.

Lemma normalized_truthy_canonical (v : value) :
  truthy (normalizePhoneNumber v) = true ->
  exists s, normalizePhoneNumber v = VStr s /\ canonical (number:=number) s.
Proof.
  intros Ht.
  destruct (normalizePhoneNumber_shape v) as [E | (d0 & E & _)].
  - rewrite E in Ht. discriminate Ht.
  - destruct (normalizePhoneNumber_result v _ E) as (d & Hs & Hd & Hlen).
    exists (String "+"%char d0). split; [exact E|].
    unfold canonical. rewrite Hs. exact (canonical_plus_digits d Hd Hlen).
Qed.

Lemma getToPhone_normalized (messagePayload toPhone : value) :
  getToPhone messagePayload = Ok toPhone ->
  exists v, toPhone = normalizePhoneNumber v.
Proof.
  unfold getToPhone. destruct (get messagePayload "to") as [to|];
    [|intros H; discriminate H].
  intros H. injection H as <-. eexists. reflexivity.
Qed.

Lemma atMostOneSend_nil (env : Env) : atMostOneSend env nil.
Proof. right. exists nil. split; [constructor | left; reflexivity]. Qed.

(** The dispatcher and what precedes it, from a world without calls. *)
Lemma processInbound_outcome
  (env : Env) (data messagePayload : value) (w : World) :
  calls w = nil ->
  acknowledged (processInbound net env data messagePayload w)
  /\ atMostOneSend env
       (calls (snd (processInbound net env data messagePayload w))).
Proof.
  intros Hw. unfold processInbound. rewrite bind_lift.
  destruct (getToPhone messagePayload) as [toPhone|] eqn:Hto.
  2: { split; [exact I | cbn [snd]; rewrite Hw; apply atMostOneSend_nil]. }
  rewrite bind_lift.
  destruct (messageText messagePayload) as [text|].
  2: { split; [exact I | cbn [snd]; rewrite Hw; apply atMostOneSend_nil]. }
  destruct (truthy toPhone) eqn:Htt; cbn [negb].
  2: { rewrite bind_console_error. split; [reflexivity|].
       cbn [snd calls ret]. rewrite Hw. apply atMostOneSend_nil. }
  rewrite bind_run.
  pose proof (getRoute_calls env toPhone w) as Hrc.
  destruct (getRoute env toPhone w) as [[route|e] w1]; cbn [snd] in Hrc.
  2: { split; [exact I | cbn [snd]; rewrite Hrc, Hw; apply atMostOneSend_nil]. }
  rewrite Hw in Hrc.
  destruct (truthy route) eqn:Htr; cbn [negb].
  2: { destruct (logged_line_outcome (toPhone :: nil)
                   ("No route configured for destination number: "
                    ++ ToString toPhone) w1) as [Hack Hcalls].
       split; [exact Hack|]. rewrite Hcalls, Hrc. apply atMostOneSend_nil. }
  unfold dispatch. rewrite bind_lift.
  destruct (get route "mode") as [mode|].
  2: { split; [exact I | cbn [snd]; rewrite Hrc; apply atMostOneSend_nil]. }
  destruct (strict_eq_str mode "auto_reply").
  { destruct (dispatchAutoReply_outcome env route toPhone
                (getFromPhoneForReply messagePayload) w1)
      as (Hack & [E | (Hf & replyText & Hrt & E)]).
    - split; [exact Hack|]. rewrite E, Hrc. apply atMostOneSend_nil.
    - split; [exact Hack|]. rewrite E, Hrc. left.
      destruct (getToPhone_normalized _ _ Hto) as (v & ->).
      destruct (normalized_truthy_canonical v Htt) as (t & Et & Ct).
      destruct (normalized_truthy_canonical _ Hf) as (f & Ef & Cf).
      exists t, f, replyText.
      unfold getFromPhoneForReply in *. rewrite Et, Ef.
      repeat split; assumption. }
  destruct (strict_eq_str mode "forward_email").
  { destruct (dispatchForwardEmail_outcome env data messagePayload route
                toPhone text (getFromPhone messagePayload) w1)
      as (Hack & gets & Hg & [E | (email & date & html & Ht & E)]).
    - split; [exact Hack|]. rewrite E, Hrc. right.
      exists gets. split; [exact Hg | left; reflexivity].
    - split; [exact Hack|]. rewrite E, Hrc. right.
      exists gets. split; [exact Hg|]. right.
      exists email, (getFromPhone messagePayload), date, text, html.
      split; [exact Ht | reflexivity]. }
  destruct (logged_line_outcome (mode :: nil)
              ("Unsupported route mode: " ++ ToString mode) w1)
    as [Hack Hcalls].
  split; [exact Hack|]. rewrite Hcalls, Hrc. apply atMostOneSend_nil.
Qed.

Lemma handle_outcome (request : Request) (env : Env) (w : World) :
  calls w = nil ->
  acknowledged (handle net request env w)
  /\ atMostOneSend env (calls (snd (handle net request env w))).
Proof.
  intros Hw.
  assert (Hnone : atMostOneSend env (calls w)).
  { rewrite Hw. apply atMostOneSend_nil. }
  unfold handle. rewrite bind_run. unfold lift.
  destruct (request_json request) as [payload|]; [|split; [exact I | exact Hnone]].
  rewrite bind_run.
  destruct (get payload "data") as [data|]; [|split; [exact I | exact Hnone]].
  rewrite bind_run.
  destruct (notInboundMessage data) as [[|]|];
    [split; [reflexivity | exact Hnone] | | split; [exact I | exact Hnone]].
  rewrite bind_run.
  destruct (get data "payload") as [messagePayload|];
    [|split; [exact I | exact Hnone]].
  exact (processInbound_outcome env data messagePayload w Hw).
Qed.

(** *** What every email shows *)

Lemma emailsShow_nil (env : Env) (fromPhone : string) (text : value) :
  emailsShow env fromPhone text nil.
Proof. intros c []. Qed.

Lemma emailsShow_gets
  (env : Env) (fromPhone : string) (text : value) (gets : list HttpCall) :
  allGets gets -> emailsShow env fromPhone text gets.
Proof.
  intros Hg c Hc He. exfalso.
  pose proof (proj1 (List.Forall_forall _ _) Hg c Hc) as Hget.
  unfold isEmailCall in He. cbv beta in Hget. rewrite Hget in He.
  discriminate He.
Qed.

Lemma emailsShow_reply
  (env : Env) (fromPhone : string) (text toPhone sender replyText : value) :
  emailsShow env fromPhone text
    (telnyxRequest env toPhone sender replyText :: nil).
Proof.
  intros c [<- | []] He. exfalso. discriminate He.
Qed.

Lemma emailsShow_email
  (env : Env) (fromPhone : string) (text email : value)
  (friendlyDate mediaHtml : string) (gets : list HttpCall) :
  allGets gets ->
  emailsShow env fromPhone text
    (gets
     ++ mailgunRequest env email fromPhone friendlyDate text mediaHtml
        :: nil)%list.
Proof.
  intros Hg c Hc He. apply List.in_app_or in Hc as [Hc | [<- | []]].
  - exact (emailsShow_gets env fromPhone text gets Hg c Hc He).
  - exists email, friendlyDate, mediaHtml. reflexivity.
Qed.

(** The emails of the dispatcher are built from the display sender and
    from the text passed on. *)
Lemma processInbound_emails
  (env : Env) (data messagePayload : value) (w : World) :
  calls w = nil ->
  emailsShow env (getFromPhone messagePayload) (textOf messagePayload)
    (calls (snd (processInbound net env data messagePayload w))).
Proof.
  intros Hw. unfold processInbound. rewrite bind_lift.
  destruct (getToPhone messagePayload) as [toPhone|] eqn:Hto.
  2: { cbn [snd]. rewrite Hw. apply emailsShow_nil. }
  assert (Hmp : exists x, get messagePayload "to" = Ok x).
  { unfold getToPhone in Hto. destruct (get messagePayload "to") as [x|];
      [eauto | discriminate Hto]. }
  destruct Hmp as [x Hx].
  rewrite (messageText_ok _ _ _ Hx), bind_lift_ok.
  fold (textOf messagePayload).
  destruct (truthy toPhone) eqn:Htt; cbn [negb].
  2: { rewrite bind_console_error. cbn [snd calls ret]. rewrite Hw.
       apply emailsShow_nil. }
  rewrite bind_run.
  pose proof (getRoute_calls env toPhone w) as Hrc.
  destruct (getRoute env toPhone w) as [[route|e] w1]; cbn [snd] in Hrc.
  2: { cbn [snd]. rewrite Hrc, Hw. apply emailsShow_nil. }
  rewrite Hw in Hrc.
  destruct (truthy route) eqn:Htr; cbn [negb].
  2: { destruct (logged_line_outcome (toPhone :: nil)
                   ("No route configured for destination number: "
                    ++ ToString toPhone) w1) as [_ Hcalls].
       rewrite Hcalls, Hrc. apply emailsShow_nil. }
  unfold dispatch. rewrite bind_lift.
  destruct (get route "mode") as [mode|].
  2: { cbn [snd]. rewrite Hrc. apply emailsShow_nil. }
  destruct (strict_eq_str mode "auto_reply").
  { destruct (dispatchAutoReply_outcome env route toPhone
                (getFromPhoneForReply messagePayload) w1)
      as (_ & [E | (_ & replyText & _ & E)]); rewrite E, Hrc.
    - apply emailsShow_nil.
    - apply emailsShow_reply. }
  destruct (strict_eq_str mode "forward_email").
  { destruct (dispatchForwardEmail_outcome env data messagePayload route
                toPhone (textOf messagePayload) (getFromPhone messagePayload)
                w1)
      as (_ & gets & Hg & [E | (email & date & html & _ & E)]);
      rewrite E, Hrc.
    - apply emailsShow_gets. exact Hg.
    - apply emailsShow_email. exact Hg. }
  destruct (logged_line_outcome (mode :: nil)
              ("Unsupported route mode: " ++ ToString mode) w1)
    as [_ Hcalls].
  rewrite Hcalls, Hrc. apply emailsShow_nil.
Qed.

Lemma fetch_emails
  (request : Request) (env : Env) (data messagePayload : value) :
  inboundEvent request data messagePayload ->
  emailsShow env (getFromPhone messagePayload) (textOf messagePayload)
    (calls (snd (fetch net request env initial))).
Proof.
  intros Hin.
  rewrite (fetch_inbound net request env _ _ initial Hin), calls_respond.
  apply processInbound_emails. reflexivity.
Qed.

(** C8, as amended: extracting the sender for display never fails
    ([getFromPhone] is a total function), and for a payload whose
    [from.phone_number] is absent, not a string, or the empty string,
    the display sender is the placeholder ["(Unknown)"]: every email the
    handler sends for such an inbound event names it in its subject, in
    its HTML body and in its plain-text body. *)
Theorem display_sender_unknown
  (request : Request) (env : Env) (data messagePayload : value) :
  is_string (get_opt (get_opt messagePayload "from") "phone_number") = false
  \/ get_opt (get_opt messagePayload "from") "phone_number"
     = VStr EmptyString ->
  getFromPhone messagePayload = "(Unknown)"
  /\ (inboundEvent request data messagePayload ->
      forall c,
        In c (calls (snd (fetch net request env initial))) ->
        isEmailCall env c = true ->
        exists html plain,
          formField "subject" c = Some "New SMS from (Unknown)"
          /\ formField "html" c = Some html
          /\ formField "text" c = Some plain
          /\ Str.contains html "<p><strong>From:</strong> (Unknown)</p>"
          /\ Str.contains plain "From: (Unknown)").
Proof.
  intros Hbad. pose proof (getFromPhone_unknown messagePayload Hbad) as Hu.
  split; [exact Hu|].
  intros Hin c Hc He.
  destruct (fetch_emails request env data messagePayload Hin c Hc He)
    as (email & friendlyDate & mediaHtml & ->).
  rewrite Hu. eexists _, _.
  split; [reflexivity|]. split; [reflexivity|]. split; [reflexivity|].
  unfold buildEmailHtml, buildEmailText. split.
  - apply StrFacts.contains_app_r, StrFacts.contains_app_r.
    eexists EmptyString, _. reflexivity.
  - apply StrFacts.contains_app_r, StrFacts.contains_app_r.
    eexists EmptyString, _. reflexivity.
Qed.

(** C10: for an inbound [message.received] event whose payload [text] is
    the empty string, as for one whose [text] is absent, the message
    text is ["(No text)"]: every email the handler sends for the event
    is the email built from that literal, and shows it as the message in
    its HTML body and in its plain-text body. *)
Theorem empty_text_is_no_text
  (request : Request) (env : Env) (data messagePayload : value) :
  inboundEvent request data messagePayload ->
  get_opt messagePayload "text" = VStr EmptyString
  \/ get_opt messagePayload "text" = VUndefined ->
  messageText messagePayload = Ok (VStr "(No text)")
  /\ forall c,
       In c (calls (snd (fetch net request env initial))) ->
       isEmailCall env c = true ->
       (exists email friendlyDate mediaHtml,
          c = mailgunRequest env email (getFromPhone messagePayload)
                friendlyDate (VStr "(No text)") mediaHtml)
       /\ exists html plain,
            formField "html" c = Some html
            /\ formField "text" c = Some plain
            /\ Str.contains html "<p><strong>Message:</strong> (No text)</p>"
            /\ Str.contains plain "Message: (No text)".
Proof.
  intros Hin Htext.
  assert (Hdefault : textOf messagePayload = VStr "(No text)").
  { unfold textOf. destruct Htext as [-> | ->]; reflexivity. }
  split.
  - destruct Hin as (_ & _ & _ & _ & Hdir).
    rewrite (messageText_ok _ _ _ Hdir). fold (textOf messagePayload).
    rewrite Hdefault. reflexivity.
  - intros c Hc He.
    destruct (fetch_emails request env data messagePayload Hin c Hc He)
      as (email & friendlyDate & mediaHtml & ->).
    rewrite Hdefault.
    split; [exists email, friendlyDate, mediaHtml; reflexivity|].
    eexists _, _. split; [reflexivity|]. split; [reflexivity|].
    unfold buildEmailHtml, buildEmailText. cbn [ToString]. split.
    + do 10 apply StrFacts.contains_app_r.
      eexists EmptyString, _. reflexivity.
    + do 8 apply StrFacts.contains_app_r.
      eexists EmptyString, _. reflexivity.
Qed.

(** *** The handler on every request *)

(** X4: whatever the request, the environment and the network, the
    handler answers one of three responses: 200 "OK", 405 "Method not
    allowed" or 500 "Internal Server Error". *)
Theorem fetch_three_responses (request : Request) (env : Env) (w : World) :
  fst (fetch net request env w) = okResponse
  \/ fst (fetch net request env w)
     = {| response_text := "Method not allowed"; status := 405 |}
  \/ fst (fetch net request env w)
     = {| response_text := "Internal Server Error"; status := 500 |}.
Proof.
  unfold fetch. destruct (negb (method request =? "POST")).
  - right. left. reflexivity.
  - assert (Hack : acknowledged (handle net request env w)).
    { unfold handle. rewrite bind_run. unfold lift.
      destruct (request_json request) as [payload|]; [|exact I].
      rewrite bind_run.
      destruct (get payload "data") as [data|]; [|exact I].
      rewrite bind_run.
      destruct (notInboundMessage data) as [[|]|];
        [reflexivity | | exact I].
      rewrite bind_run.
      destruct (get data "payload") as [messagePayload|]; [|exact I].
      unfold processInbound. rewrite bind_lift.
      destruct (getToPhone messagePayload) as [toPhone|]; [|exact I].
      rewrite bind_lift.
      destruct (messageText messagePayload) as [text|]; [|exact I].
      destruct (negb (truthy toPhone));
        [rewrite bind_console_error; reflexivity|].
      rewrite bind_run.
      destruct (getRoute env toPhone w) as [[route|e] w1]; [|exact I].
      destruct (negb (truthy route));
        [apply logged_line_outcome|].
      unfold dispatch. rewrite bind_lift.
      destruct (get route "mode") as [mode|]; [|exact I].
      destruct (strict_eq_str mode "auto_reply");
        [apply dispatchAutoReply_outcome|].
      destruct (strict_eq_str mode "forward_email");
        [apply dispatchForwardEmail_outcome|].
      apply logged_line_outcome. }
    unfold acknowledged in Hack.
    destruct (handle net request env w) as [[response|e] w']; cbn [fst] in *.
    + left. exact Hack.
    + right. right. reflexivity.
Qed.

(** X5: whatever the request, the environment and the network, the
    handler sends at most once: its outbound calls are either a single
    reply, addressed from one canonical number to another, or GETs of
    media followed by at most one email.  It never sends both a reply
    and an email, and never fetches media when it replies. *)
Theorem fetch_at_most_one_send (request : Request) (env : Env) :
  atMostOneSend env (calls (snd (fetch net request env initial))).
Proof.
  unfold fetch. destruct (negb (method request =? "POST")).
  - apply atMostOneSend_nil.
  - rewrite calls_respond.
    exact (proj2 (handle_outcome request env initial eq_refl)).
Qed.

(** X6: when the event cannot be read at all (the body is not JSON, the
    JSON has no [data] to read, or an event of type [message.received]
    has no payload), the handler answers 500, writes one line to the
    console and does nothing else. *)
Theorem fetch_unreadable_event
  (request : Request) (env : Env) (w : World) (e : exn) :
  method request = "POST" ->
  eventData request = Throw e
  \/ (exists data,
        eventData request = Ok data /\ notInboundMessage data = Throw e) ->
  fetch net request env w
  = ({| response_text := "Internal Server Error"; status := 500 |},
     {| calls := calls w;
        console := (console w ++ "Worker error:" :: nil)%list |}).
Proof.
  intros Hm Hbroken. unfold fetch, handle, eventData in *.
  rewrite Hm. cbn [negb String.eqb]. change ("POST" =? "POST") with true.
  cbn [negb]. rewrite bind_run. unfold lift.
  destruct (request_json request) as [payload|].
  - rewrite bind_run.
    destruct Hbroken as [Hd | (data & Hd & Hskip)]; rewrite Hd;
      [reflexivity|].
    rewrite bind_run, Hskip. reflexivity.
  - destruct Hbroken as [Hd | (data & Hd & _)]; [reflexivity|].
    discriminate Hd.
Qed.

(** *** Events the handler drops *)

(** X7: an inbound message whose destination cannot be normalized is
    acknowledged with 200 after one line on the console; no call is
    made, and the store and the rest of the environment play no part. *)
Theorem fetch_invalid_destination
  (request : Request) (env : Env) (data messagePayload : value) :
  inboundEvent request data messagePayload ->
  getToPhone messagePayload = Ok VNull ->
  fetch net request env initial
  = (okResponse,
     {| calls := nil;
        console :=
          "Missing or invalid destination phone number in payload" :: nil |}).
Proof.
  intros Hin Hto. pose proof Hin as (_ & _ & _ & _ & Hdir).
  rewrite (fetch_inbound net request env _ _ initial Hin).
  unfold processInbound.
  rewrite Hto, (messageText_ok _ _ _ Hdir), !bind_lift_ok.
  cbn [truthy negb]. rewrite bind_console_error. reflexivity.
Qed.

(** X8: a route whose mode is neither [auto_reply] nor [forward_email]
    (a missing mode included) makes no call.  When the mode can be
    printed the handler writes it to the console and answers 200; when
    it cannot (an object with a [toString] of its own, which the
    template of the console line cannot convert) the handler answers
    500. *)
Theorem fetch_unsupported_mode
  (request : Request) (env : Env) (data messagePayload route mode : value)
  (toPhone : string) :
  inboundEvent request data messagePayload ->
  routed env messagePayload toPhone route ->
  get route "mode" = Ok mode ->
  mode <> VStr "auto_reply" ->
  mode <> VStr "forward_email" ->
  fetch net request env initial
  = if printable mode then
      (okResponse,
       {| calls := nil;
          console := ("Unsupported route mode: " ++ ToString mode) :: nil |})
    else
      ({| response_text := "Internal Server Error"; status := 500 |},
       {| calls := nil; console := "Worker error:" :: nil |}).
Proof.
  intros Hin Hr Hmode Hnr Hnf.
  rewrite (fetch_routed net request env _ _ _ _ Hin Hr).
  unfold dispatch. rewrite Hmode, bind_lift_ok.
  rewrite (strict_eq_str_false _ _ Hnr), (strict_eq_str_false _ _ Hnf).
  unfold interpolate. cbn [forallb]. rewrite Bool.andb_true_r.
  destruct (printable mode); reflexivity.
Qed.

(** X9: a stored route that is the empty text, or JSON for a falsy value
    ([null], [false], [0], the empty string), counts as no route: the
    handler answers 200 and makes no call. *)
Theorem fetch_falsy_route
  (request : Request) (env : Env) (data messagePayload : value)
  (toPhone raw : string) :
  inboundEvent request data messagePayload ->
  getToPhone messagePayload = Ok (VStr toPhone) ->
  NUMBER_TO_EMAIL env (ROUTE_KEY_PREFIX ++ toPhone) = Ok (Some raw) ->
  raw = EmptyString
  \/ (exists route, JSON_parse raw = Some route /\ truthy route = false) ->
  status (fst (fetch net request env initial)) = 200
  /\ calls (snd (fetch net request env initial)) = nil
  /\ console (snd (fetch net request env initial))
     = ("No route configured for destination number: " ++ toPhone) :: nil.
Proof.
  intros Hin Hto Hraw Hfalsy. pose proof Hin as (_ & _ & _ & _ & Hdir).
  rewrite (fetch_inbound net request env _ _ initial Hin).
  unfold processInbound.
  rewrite Hto, (messageText_ok _ _ _ Hdir), !bind_lift_ok.
  rewrite (getToPhone_truthy _ _ Hto). cbn [negb].
  rewrite bind_run. unfold getRoute.
  rewrite (getToPhone_truthy _ _ Hto). cbn [negb ToString].
  rewrite !interpolate_string, !bind_lift_ok, Hraw, bind_lift_ok.
  destruct Hfalsy as [-> | (route & Hparse & Hf)].
  - cbn [Str.is_empty ret truthy negb]. rewrite bind_console_error.
    repeat split.
  - destruct (Str.is_empty raw).
    + cbn [ret truthy negb]. rewrite bind_console_error. repeat split.
    + rewrite Hparse. cbn [ret]. rewrite Hf. cbn [negb].
      rewrite bind_console_error. repeat split.
Qed.

(** X10: when the read of the store rejects, the handler answers 500 and
    makes no call. *)
Theorem fetch_store_failure
  (request : Request) (env : Env) (data messagePayload : value)
  (toPhone : string) (e : exn) :
  inboundEvent request data messagePayload ->
  getToPhone messagePayload = Ok (VStr toPhone) ->
  NUMBER_TO_EMAIL env (ROUTE_KEY_PREFIX ++ toPhone) = Throw e ->
  status (fst (fetch net request env initial)) = 500
  /\ calls (snd (fetch net request env initial)) = nil.
Proof.
  intros Hin Hto Hstore. pose proof Hin as (_ & _ & _ & _ & Hdir).
  rewrite (fetch_inbound net request env _ _ initial Hin).
  unfold processInbound.
  rewrite Hto, (messageText_ok _ _ _ Hdir), !bind_lift_ok.
  rewrite (getToPhone_truthy _ _ Hto). cbn [negb].
  rewrite bind_run. unfold getRoute.
  rewrite (getToPhone_truthy _ _ Hto). cbn [negb ToString].
  rewrite !interpolate_string, !bind_lift_ok, Hstore. split; reflexivity.
Qed.

(** *** What a send that fails does to the response *)

(** X11: once the reply is posted, the answer to the webhook depends on
    how the post ends.  A response, successful or not, gives 200, and an
    unsuccessful one has its body written to the console; a rejected
    post, or an unsuccessful response whose body cannot be read, gives
    500. *)
Theorem fetch_reply_outcomes
  (request : Request) (env : Env) (data messagePayload route reply_text : value)
  (toPhone fromPhone : string) :
  inboundEvent request data messagePayload ->
  routed env messagePayload toPhone route ->
  get route "mode" = Ok (VStr "auto_reply") ->
  get route "reply_text" = Ok reply_text ->
  truthy reply_text = true ->
  getFromPhoneForReply messagePayload = VStr fromPhone ->
  truthy (TELNYX_API_KEY env) = true ->
  let reply := telnyxRequest env (VStr toPhone) (VStr fromPhone) reply_text in
  match net nil reply with
  | Rejected => status (fst (fetch net request env initial)) = 500
  | Resolved r =>
      if ok r then
        fetch net request env initial
        = (okResponse, {| calls := reply :: nil; console := nil |})
      else
        match payload r with
        | Some errorText =>
            fetch net request env initial
            = (okResponse,
               {| calls := reply :: nil;
                  console := ("Telnyx reply error: " ++ errorText) :: nil |})
        | None => status (fst (fetch net request env initial)) = 500
        end
  end.
Proof.
  intros Hin Hr Hmode Hrt Ht Hfrom Hkey reply.
  rewrite (fetch_routed net request env _ _ _ _ Hin Hr).
  rewrite (dispatch_auto_reply net _ _ _ _ _ _ _ _ _ Hmode), Hfrom.
  unfold dispatchAutoReply.
  rewrite Hrt, bind_lift_ok, Ht, (normalizePhoneNumber_truthy _ _ Hfrom).
  cbn [negb]. unfold sendTelnyxReply. rewrite Hkey. cbn [negb].
  rewrite !bind_run. unfold global_fetch. cbn [calls initial].
  fold reply. destruct (net nil reply) as [|r]; [reflexivity|].
  destruct (ok r); cbn [negb]; [reflexivity|].
  rewrite bind_run. unfold read_body.
  destruct (payload r) as [errorText|]; reflexivity.
Qed.

(** X12: the same for the email, after the media has been inlined,
    when the timestamp, the text and the recipient can be printed: a
    response gives 200, with the body of an unsuccessful one on the
    console; a rejected post, or an unsuccessful response that cannot be
    read, gives 500. *)
Theorem fetch_email_outcomes
  (request : Request) (env : Env) (data messagePayload route email : value)
  (toPhone mediaHtml : string) (w1 : World) :
  inboundEvent request data messagePayload ->
  routed env messagePayload toPhone route ->
  get route "mode" = Ok (VStr "forward_email") ->
  get route "email" = Ok email ->
  truthy email = true ->
  printable email = true ->
  printable (get_opt data "occurred_at") = true ->
  printable (textOf messagePayload) = true ->
  processMedia net messagePayload initial = (Ok mediaHtml, w1) ->
  let mail :=
    mailgunRequest env email (getFromPhone messagePayload)
      (toLocaleString (get_opt data "occurred_at"))
      (textOf messagePayload) mediaHtml in
  match net (calls w1) mail with
  | Rejected => status (fst (fetch net request env initial)) = 500
  | Resolved r =>
      if ok r then
        fetch net request env initial
        = (okResponse,
           {| calls := (calls w1 ++ mail :: nil)%list;
              console := console w1 |})
      else
        match payload r with
        | Some errorText =>
            fetch net request env initial
            = (okResponse,
               {| calls := (calls w1 ++ mail :: nil)%list;
                  console :=
                    (console w1
                     ++ ("Mailgun error: " ++ errorText)%string :: nil)%list
               |})
        | None => status (fst (fetch net request env initial)) = 500
        end
  end.
Proof.
  intros Hin Hr Hmode Hemail Ht Hpe Hpd Hpt Hmedia mail.
  pose proof Hin as (_ & _ & Hty & _ & _).
  rewrite (fetch_routed net request env _ _ _ _ Hin Hr).
  rewrite (dispatch_forward_email net _ _ _ _ _ _ _ _ _ Hmode).
  unfold dispatchForwardEmail.
  rewrite Hemail, bind_lift_ok, Ht. cbn [negb].
  rewrite (get_ok _ _ _ Hty "occurred_at"), bind_lift_ok.
  rewrite (friendlyDateOf_printable _ Hpd), bind_lift_ok.
  rewrite bind_run, Hmedia.
  unfold sendMailgunEmail. rewrite Ht. cbn [negb].
  rewrite !(interpolate_printable _ _ Hpt), !bind_lift_ok.
  rewrite (stringOf_printable _ Hpe), bind_lift_ok.
  rewrite !bind_run. unfold global_fetch.
  fold mail. destruct (net (calls w1) mail) as [|r]; [reflexivity|].
  destruct (ok r); cbn [negb]; [reflexivity|].
  rewrite bind_run. unfold read_body.
  destruct (payload r) as [errorText|]; reflexivity.
Qed.

(** *** Destination and sender *)

(** X13: the three shapes of [to] give the same canonical number: a list
    whose first recipient has the number (whatever else the recipient
    and the list hold), a single recipient, and the bare string. *)
Theorem getToPhone_three_shapes
  (phone : string) (more : list (string * value)) (rest : list value)
  (others : list (string * value)) :
  getToPhone
    (VObj (("to", VArr (VObj (("phone_number", VStr phone) :: more) :: rest))
           :: others))
  = Ok (normalizePhoneNumber (VStr phone))
  /\ getToPhone
       (VObj (("to", VObj (("phone_number", VStr phone) :: more)) :: others))
     = Ok (normalizePhoneNumber (VStr phone))
  /\ getToPhone (VObj (("to", VStr phone) :: others))
     = Ok (normalizePhoneNumber (VStr phone)).
Proof.
  destruct phone as [|c phone]; repeat split.
Qed.

(** X14: the sender shown in the email is never the empty string, and
    whenever the sender can be replied to, the number shown normalizes
    to the number replied to. *)
Theorem display_sender_agrees_with_reply_sender (messagePayload : value) :
  getFromPhone messagePayload <> EmptyString
  /\ forall fromPhone,
       getFromPhoneForReply messagePayload = VStr fromPhone ->
       normalizePhoneNumber (VStr (getFromPhone messagePayload) : value)
       = VStr fromPhone.
Proof.
  unfold getFromPhone, getFromPhoneForReply.
  destruct (get_opt (get_opt messagePayload "from") "phone_number")
    as [| | | |s| |]; split;
    try (intros H; discriminate H);
    try (intros fromPhone H; discriminate H).
  - destruct s; intros H; discriminate H.
  - intros fromPhone H. destruct s as [|c s]; [discriminate H | exact H].
Qed.

(** *** Media inliner *)

(** X15: on well-formed media whose image URLs can be printed, every
    attachment that is an image with a URL is fetched exactly once, in
    the order of the list, and nothing else is fetched; this holds
    whatever the network answers, so a failed fetch never stops the
    later ones, and [processMedia] returns. *)
Theorem processMedia_fetches_each_image_once
  (messagePayload : value) (items : list value) (w : World) :
  get_opt messagePayload "media" = VArr items ->
  forallb attachmentWellFormed items = true ->
  forallb printable (imageUrls items) = true ->
  (exists mediaHtml, fst (processMedia net messagePayload w) = Ok mediaHtml)
  /\ calls (snd (processMedia net messagePayload w))
     = (calls w ++ map mediaRequest (imageUrls items))%list.
Proof.
  intros Hmedia Hwf Hp. unfold processMedia.
  rewrite (get_of_get_opt messagePayload "media" "media"), bind_lift_ok.
  2: { rewrite Hmedia. reflexivity. }
  rewrite Hmedia. cbn [truthy iterate]. rewrite bind_lift_ok.
  destruct (processMediaLoop_total net items Hwf Hp EmptyString w)
    as (mediaHtml & w' & E & C).
  rewrite E. split; [exists mediaHtml; reflexivity | exact C].
Qed.

(** X17: media without a single image with a URL leaves no trace: no
    markup, no call, nothing on the console. *)
Theorem processMedia_without_images
  (messagePayload : value) (items : list value) (w : World) :
  get_opt messagePayload "media" = VArr items ->
  forallb attachmentWellFormed items = true ->
  imageUrls items = nil ->
  processMedia net messagePayload w = (Ok EmptyString, w).
Proof.
  intros Hmedia Hwf Hnone. unfold processMedia.
  rewrite (get_of_get_opt messagePayload "media" "media"), bind_lift_ok.
  2: { rewrite Hmedia. reflexivity. }
  rewrite Hmedia. cbn [truthy iterate]. rewrite bind_lift_ok.
  clear Hmedia. generalize EmptyString as mediaHtml.
  induction items as [|item rest IH]; intros mediaHtml; [reflexivity|].
  cbn [forallb] in Hwf. apply Bool.andb_true_iff in Hwf as [Hitem Hrest].
  cbn [imageUrls] in Hnone.
  destruct (imageUrl item) as [url|] eqn:Hurl; [discriminate Hnone|].
  cbn [processMediaLoop]. rewrite bind_run.
  assert (Hskip : processMediaItem net item mediaHtml w = (Ok mediaHtml, w)).
  { unfold imageUrl in Hurl. unfold attachmentWellFormed in Hitem.
    unfold processMediaItem.
    destruct (get_opt item "content_type") as [| | | |content_type| |] eqn:Hct;
      try discriminate Hitem; try reflexivity.
    destruct (Str.startsWith content_type "image/"); [|reflexivity].
    rewrite (get_of_get_opt item "content_type" "url"), bind_lift_ok.
    2: { rewrite Hct. reflexivity. }
    cbn [andb] in Hurl.
    destruct (truthy (get_opt item "url")); [discriminate Hurl | reflexivity]. }
  rewrite Hskip. exact (IH Hrest Hnone mediaHtml).
Qed.

End HandlerProperties.

(* ================================================================== *)
(** ** Further properties: the earlier versions *)
(* ================================================================== *)

Module TagFacts.
Import First.

Lemma hasGt_stripTagsFrom (inTag : bool) (s : string) :
  hasGt (stripTagsFrom inTag s) = true -> hasGt s = true.
Proof.
  revert inTag. induction s as [|c s IH]; intros inTag; cbn [stripTagsFrom].
  - intros H. discriminate H.
  - cbn [hasGt]. destruct inTag.
    + destruct (Ascii.eqb c ">"%char); cbn [orb]; [reflexivity|].
      apply IH.
    + destruct (Ascii.eqb c "<"%char && hasGt s)%bool.
      * intros H. rewrite (IH true H). apply Bool.orb_true_r.
      * cbn [hasGt]. destruct (Ascii.eqb c ">"%char); cbn [orb];
          [reflexivity | apply IH].
Qed.

Lemma hasTag_stripTagsFrom (inTag : bool) (s : string) :
  hasTag (stripTagsFrom inTag s) = false.
Proof.
  revert inTag. induction s as [|c s IH]; intros inTag; cbn [stripTagsFrom].
  - reflexivity.
  - destruct inTag.
    + destruct (Ascii.eqb c ">"%char); apply IH.
    + destruct (Ascii.eqb c "<"%char) eqn:Hc; cbn [andb].
      * destruct (hasGt s) eqn:Hgt; [apply IH|].
        cbn [hasTag]. rewrite Hc, IH, Bool.orb_false_r. cbn [andb].
        destruct (hasGt (stripTagsFrom false s)) eqn:Hout; [|reflexivity].
        rewrite (hasGt_stripTagsFrom false s Hout) in Hgt. discriminate Hgt.
      * cbn [hasTag]. rewrite Hc, IH. reflexivity.
Qed.

End TagFacts.

Section EarlierProperties.

Context {number : Type} {P : Platform number}.
#[local] Abbreviation value := (value number).
#[local] Abbreviation HttpCall := (HttpCall number).
#[local] Abbreviation World := (World number).
#[local] Abbreviation Environment := (Environment number).
#[local] Abbreviation M := (@M number).

Variable net : list HttpCall -> HttpCall -> Outcome.

(** X18: removing the tags leaves no tag: in what
    [replace(/<[^>]*>/g, '')] returns, no ['<'] has a ['>'] after it. *)
Theorem stripTags_leaves_no_tag (s : string) :
  First.hasTag (First.stripTags s) = false.
Proof.
  unfold First.stripTags. revert s.
  assert (Hgt : forall inTag s,
             First.hasGt s = false ->
             First.hasGt (First.stripTagsFrom inTag s) = false).
  { intros inTag s H.
    destruct (First.hasGt (First.stripTagsFrom inTag s)) eqn:E;
      [|reflexivity].
    rewrite (TagFacts.hasGt_stripTagsFrom inTag s E) in H. discriminate H. }
  assert (Hgen : forall s inTag,
             First.hasTag (First.stripTagsFrom inTag s) = false).
  { induction s as [|c s IH]; intros inTag; cbn [First.stripTagsFrom];
      [reflexivity|].
    destruct inTag.
    - destruct (Ascii.eqb c ">"%char); apply IH.
    - destruct (Ascii.eqb c "<"%char) eqn:Hc; cbn [andb].
      + destruct (First.hasGt s) eqn:Hs; [apply IH|].
        cbn [First.hasTag]. rewrite Hc, IH, (Hgt false s Hs). reflexivity.
      + cbn [First.hasTag]. rewrite Hc, IH. reflexivity. }
  intros s. apply Hgen.
Qed.

(** X19: a text without a tag is returned as it is: a ['<'] with no
    ['>'] after it, and a ['>'] on its own, are not touched. *)
Theorem stripTags_keeps_text_without_tags (s : string) :
  First.hasTag s = false -> First.stripTags s = s.
Proof.
  unfold First.stripTags.
  induction s as [|c s IH]; [reflexivity|].
  cbn [First.hasTag First.stripTagsFrom]. intros H.
  apply Bool.orb_false_iff in H as [Hhere Hrest].
  rewrite Hhere, (IH Hrest). reflexivity.
Qed.

(** X20: the destination of the current version is the destination of
    the earlier version, normalized: the two read the same field of the
    same shape of [to], and fail on the same payloads. *)
Theorem getToPhone_normalizes_earlier (messagePayload : value) :
  getToPhone messagePayload
  = match Earlier.getToPhone messagePayload with
    | Ok found => Ok (normalizePhoneNumber found)
    | Throw e => Throw e
    end.
Proof.
  unfold getToPhone, Earlier.getToPhone.
  destruct (get messagePayload "to") as [to|]; [|reflexivity].
  cbv zeta.
  destruct (is_string _) eqn:Hs; [reflexivity|].
  rewrite (normalizePhoneNumber_not_string _ Hs). reflexivity.
Qed.

(** *** The media loop of the earlier versions *)

Lemma earlier_processMediaItem_total
  (item : value) (mediaHtml : string) (w : World) :
  is_string (get_opt item "content_type") = true ->
  Earlier.fetchedUrlPrintable item = true ->
  exists mediaHtml' w' gets,
    Earlier.processMediaItem net item mediaHtml w = (Ok mediaHtml', w')
    /\ calls w' = (calls w ++ gets)%list
    /\ allGets gets.
Proof.
  intros Hct Hp. unfold Earlier.processMediaItem.
  unfold Earlier.fetchedUrlPrintable in Hp.
  destruct (get_opt item "content_type") as [| | | |content_type| |] eqn:E;
    try discriminate Hct.
  rewrite (get_of_get_opt item "content_type" "content_type"), bind_lift_ok.
  2: { rewrite E. reflexivity. }
  rewrite E.
  destruct (Str.startsWith content_type "image/").
  2: { exists mediaHtml, w, nil. rewrite List.app_nil_r.
       repeat split; constructor. }
  rewrite (get_of_get_opt item "content_type" "url"), bind_lift_ok.
  2: { rewrite E. reflexivity. }
  unfold try_catch.
  rewrite (stringOf_printable _ Hp), bind_lift_ok.
  rewrite (interpolate_printable _ _ Hp), bind_lift_ok.
  rewrite bind_run. unfold global_fetch.
  destruct (net (calls w) (mediaRequest (get_opt item "url"))) as [|r].
  - rewrite bind_console_error. unfold ret.
    eexists _, _, (mediaRequest (get_opt item "url") :: nil).
    split; [reflexivity|]. split; [reflexivity|].
    constructor; [reflexivity | constructor].
  - destruct (ok r).
    + rewrite bind_run. unfold read_body.
      destruct (payload r) as [bytes|]; unfold ret, throw.
      * eexists _, _, (mediaRequest (get_opt item "url") :: nil).
        split; [reflexivity|]. split; [reflexivity|].
        constructor; [reflexivity | constructor].
      * rewrite bind_console_error.
        eexists _, _, (mediaRequest (get_opt item "url") :: nil).
        split; [reflexivity|]. split; [reflexivity|].
        constructor; [reflexivity | constructor].
    + unfold ret.
      eexists _, _, (mediaRequest (get_opt item "url") :: nil).
      split; [reflexivity|]. split; [reflexivity|].
      constructor; [reflexivity | constructor].
Qed.

Lemma earlier_processMediaLoop_total (items : list value) :
  forallb (fun item => is_string (get_opt item "content_type")) items = true ->
  forallb Earlier.fetchedUrlPrintable items = true ->
  forall (mediaHtml : string) (w : World),
  exists mediaHtml' w' gets,
    Earlier.processMediaLoop net items mediaHtml w = (Ok mediaHtml', w')
    /\ calls w' = (calls w ++ gets)%list
    /\ allGets gets.
Proof.
  induction items as [|item rest IH]; intros Hwf Hp mediaHtml w.
  - exists mediaHtml, w, nil. rewrite List.app_nil_r.
    repeat split; constructor.
  - cbn [forallb] in Hwf, Hp.
    apply Bool.andb_true_iff in Hwf as [Hitem Hrest].
    apply Bool.andb_true_iff in Hp as [Hpi Hpr].
    destruct (earlier_processMediaItem_total item mediaHtml w Hitem Hpi)
      as (html1 & w1 & gets1 & E1 & C1 & G1).
    destruct (IH Hrest Hpr html1 w1) as (html2 & w2 & gets2 & E2 & C2 & G2).
    exists html2, w2, (gets1 ++ gets2)%list.
    cbn [Earlier.processMediaLoop]. rewrite bind_run, E1, E2.
    split; [reflexivity|]. split.
    + rewrite C2, C1, List.app_assoc. reflexivity.
    + apply Forall_app. split; assumption.
Qed.

Lemma earlier_processMedia_total
  (messagePayload x : value) (a : string) (w : World) :
  get messagePayload a = Ok x ->
  Earlier.mediaWellFormed messagePayload = true ->
  Earlier.mediaPrintable messagePayload = true ->
  exists mediaHtml w' gets,
    Earlier.processMedia net messagePayload w = (Ok mediaHtml, w')
    /\ calls w' = (calls w ++ gets)%list
    /\ allGets gets.
Proof.
  intros Hmp Hwf Hp. unfold Earlier.processMedia.
  rewrite (get_ok _ _ _ Hmp "media"), bind_lift_ok.
  unfold Earlier.mediaWellFormed in Hwf. unfold Earlier.mediaPrintable in Hp.
  destruct (get_opt messagePayload "media") as [| | | | |items|];
    try discriminate Hwf; cbn [truthy iterate]; rewrite bind_lift_ok.
  1, 2: exists EmptyString, w, nil; rewrite List.app_nil_r;
        repeat split; constructor.
  exact (earlier_processMediaLoop_total items Hwf Hp EmptyString w).
Qed.

Lemma earlier_sendMailgunEmail_calls
  (env : Environment) (toEmail fromPhone : value) (friendlyDate : string)
  (text : value) (mediaHtml : string) (w : World) :
  printable fromPhone = true ->
  printable text = true ->
  printable toEmail = true ->
  calls (snd (Earlier.sendMailgunEmail net env toEmail fromPhone friendlyDate
                text mediaHtml w))
  = (calls w
     ++ Earlier.mailgunRequest env toEmail fromPhone friendlyDate text
          mediaHtml :: nil)%list.
Proof.
  intros Hpf Hpt Hpe. unfold Earlier.sendMailgunEmail, interpolate.
  cbn [forallb]. rewrite Hpf, Hpt. cbn [andb]. rewrite !bind_lift_ok.
  rewrite (stringOf_printable _ Hpe), bind_lift_ok.
  rewrite bind_run. unfold global_fetch.
  destruct (net (calls w) _) as [|r]; [reflexivity|].
  destruct (ok r); cbn [negb]; [reflexivity|].
  rewrite bind_run. unfold read_body.
  destruct (payload r); reflexivity.
Qed.

Lemma earlier_fetch_inbound
  (request : Request) (env : Environment) (data messagePayload : value)
  (w : World) :
  inboundEvent request data messagePayload ->
  Earlier.fetch net request env w
  = respond (Earlier.processInbound net env data messagePayload w).
Proof.
  intros (Hm & Hd & Ht & Hp & Hdir).
  unfold Earlier.fetch, Earlier.handle, eventData in *.
  rewrite Hm. simpl negb. cbv iota.
  unfold bind, lift.
  destruct (request_json request) as [payload|]; [|discriminate Hd].
  rewrite Hd, (notInboundMessage_inbound _ _ Ht Hp Hdir), Hp. reflexivity.
Qed.

Lemma first_fetch_inbound
  (request : Request) (env : Environment) (data messagePayload : value)
  (w : World) :
  inboundEvent request data messagePayload ->
  First.fetch net request env w
  = respond (First.processInbound net env data messagePayload w).
Proof.
  intros (Hm & Hd & Ht & Hp & Hdir).
  unfold First.fetch, First.handle, eventData in *.
  rewrite Hm. simpl negb. cbv iota.
  unfold bind, lift.
  destruct (request_json request) as [payload|]; [|discriminate Hd].
  rewrite Hd, (notInboundMessage_inbound _ _ Ht Hp Hdir), Hp. reflexivity.
Qed.

Lemma first_send_calls (c : HttpCall) (w : World) :
  calls
    (snd
       (bind (global_fetch net c)
          (fun mailgunResponse =>
             bind
               (if negb (ok mailgunResponse) then
                  bind (read_body mailgunResponse)
                    (fun errorText =>
                       console_error ("Mailgun error: " ++ errorText))
                else ret tt)
               (fun _ => ret okResponse))
          w))
  = (calls w ++ c :: nil)%list.
Proof.
  rewrite bind_run. unfold global_fetch.
  destruct (net (calls w) c) as [|r]; [reflexivity|].
  rewrite calls_bind_ret.
  destruct (ok r); cbn [negb]; [reflexivity|].
  rewrite bind_run. unfold read_body.
  destruct (payload r); reflexivity.
Qed.

(** *** Routing in the earlier versions *)

(** X21: in the version before the current one, an inbound message for
    which no route is stored, or whose route has no mode, is forwarded,
    when its media is well formed and its sender, text, timestamp, image
    URLs and recipient can be printed: exactly one call goes to the
    email endpoint, addressed to the email of the route when it has one
    and to [env.TO_EMAIL] otherwise.  (The current version drops such a
    message.) *)
Theorem earlier_forwards_without_route
  (request : Request) (env : Environment)
  (data messagePayload sender fromPhone toPhone route : value) :
  inboundEvent request data messagePayload ->
  get messagePayload "from" = Ok sender ->
  get sender "phone_number" = Ok fromPhone ->
  Earlier.getToPhone messagePayload = Ok toPhone ->
  fst (getRoute (bindings env) toPhone initial) = Ok route ->
  truthy (get_opt route "mode") = false ->
  Earlier.mediaWellFormed messagePayload = true ->
  Earlier.mediaPrintable messagePayload = true ->
  printable fromPhone = true ->
  printable (textOf messagePayload) = true ->
  printable (get_opt data "occurred_at") = true ->
  printable (if truthy (get_opt route "email") then get_opt route "email"
             else TO_EMAIL env) = true ->
  exists mediaHtml,
    filter (isEmailCall (bindings env))
      (calls (snd (Earlier.fetch net request env initial)))
    = Earlier.mailgunRequest env
        (if truthy (get_opt route "email") then get_opt route "email"
         else TO_EMAIL env)
        fromPhone (toLocaleString (get_opt data "occurred_at"))
        (textOf messagePayload) mediaHtml
      :: nil.
Proof.
  intros Hin Hs Hf Hto Hroute Hmode Hwf Hpm Hpf Hpt Hpd Hpe.
  pose proof Hin as (_ & _ & Hty & _ & Hdir).
  rewrite (earlier_fetch_inbound request env _ _ initial Hin), calls_respond.
  unfold Earlier.processInbound.
  rewrite Hs, bind_lift_ok, Hf, bind_lift_ok, Hto, bind_lift_ok.
  rewrite (messageText_ok _ _ _ Hdir), bind_lift_ok. fold (textOf messagePayload).
  rewrite bind_run.
  pose proof (getRoute_calls (bindings env) toPhone initial) as Hrc.
  destruct (getRoute (bindings env) toPhone initial) as [r w1].
  cbn [fst snd] in Hroute, Hrc. subst r.
  rewrite Hmode. cbn [strict_eq_str String.eqb Ascii.eqb Bool.eqb].
  rewrite (get_ok _ _ _ Hty "occurred_at"), bind_lift_ok.
  rewrite (friendlyDateOf_printable _ Hpd), bind_lift_ok.
  destruct (earlier_processMedia_total messagePayload _ _ w1 Hdir Hwf Hpm)
    as (mediaHtml & w2 & gets & Hmedia & Hcalls & Hgets).
  exists mediaHtml.
  rewrite bind_run, Hmedia, calls_bind_ret.
  rewrite (earlier_sendMailgunEmail_calls _ _ _ _ _ _ _ Hpf Hpt Hpe).
  rewrite Hcalls, Hrc. cbn [calls initial app].
  rewrite List.filter_app, (filter_isEmailCall_gets (bindings env) gets Hgets).
  cbn [filter app]. unfold isEmailCall, Earlier.mailgunRequest at 1 2.
  cbn [call_method call_url]. rewrite !String.eqb_refl. reflexivity.
Qed.

(** X22: the version before the current one and the current one do the
    same, response and world, on an inbound message whose route is an
    [auto_reply] when the destination and the sender are already
    canonical and the API key is set. *)
Theorem versions_agree_on_auto_reply
  (request : Request) (env : Environment) (data messagePayload route : value)
  (toPhone fromPhone : string) :
  inboundEvent request data messagePayload ->
  get_opt (get_opt messagePayload "from") "phone_number" = VStr fromPhone ->
  canonical (number:=number) fromPhone ->
  Earlier.getToPhone messagePayload = Ok (VStr toPhone) ->
  canonical (number:=number) toPhone ->
  fst (getRoute (bindings env) (VStr toPhone) initial) = Ok route ->
  get route "mode" = Ok (VStr "auto_reply") ->
  truthy (TELNYX_API_KEY (bindings env)) = true ->
  Earlier.fetch net request env initial
  = fetch net request (bindings env) initial.
Proof.
  intros Hin Hfrom Cfrom Hto Cto Hroute Hmode Hkey.
  pose proof Hin as (_ & _ & Hty & _ & Hdir).
  assert (Htr : truthy route = true).
  { destruct route; try discriminate Hmode; reflexivity. }
  assert (Hmode' : get_opt route "mode" = VStr "auto_reply").
  { pose proof (get_ok _ _ _ Hmode "mode") as H. rewrite Hmode in H.
    injection H as H. symmetry. exact H. }
  assert (Hnow : getToPhone messagePayload = Ok (VStr toPhone)).
  { unfold getToPhone. unfold Earlier.getToPhone in Hto.
    destruct (get messagePayload "to") as [to|]; [|discriminate Hto].
    cbv zeta in Hto |- *.
    destruct (if truthy _ then _ else to) as [| | | |found| |];
      cbn [is_string] in Hto; try discriminate Hto.
    injection Hto as ->. rewrite Cto. reflexivity. }
  assert (Hr : routed (bindings env) messagePayload toPhone route).
  { repeat split; assumption. }
  assert (Hreply : getFromPhoneForReply messagePayload = VStr fromPhone).
  { unfold getFromPhoneForReply. rewrite Hfrom. exact Cfrom. }
  assert (Htf : truthy (VStr fromPhone : value) = true).
  { exact (normalizePhoneNumber_truthy _ _ Hreply). }
  rewrite (fetch_routed net request (bindings env) _ _ _ _ Hin Hr).
  rewrite (dispatch_auto_reply net _ _ _ _ _ _ _ _ _ Hmode), Hreply.
  rewrite (earlier_fetch_inbound request env _ _ initial Hin).
  f_equal. unfold Earlier.processInbound, dispatchAutoReply.
  rewrite (get_ok _ _ _ Hdir "from"), bind_lift_ok.
  rewrite (get_of_get_opt (get_opt messagePayload "from")
             "phone_number" "phone_number"), bind_lift_ok.
  2: { rewrite Hfrom. reflexivity. }
  rewrite Hfrom, Hto, bind_lift_ok.
  rewrite (messageText_ok _ _ _ Hdir), bind_lift_ok.
  rewrite bind_run, (getRoute_truthy (bindings env) _ route initial Hroute Htr).
  rewrite Hmode', Htf.
  change (truthy (VStr "auto_reply" : value)) with true. cbn iota.
  cbn [strict_eq_str]. rewrite String.eqb_refl.
  rewrite (get_ok _ _ _ Hmode "reply_text"), !bind_lift_ok.
  destruct (truthy (get_opt route "reply_text")); cbn [negb]; [|reflexivity].
  unfold Earlier.sendTelnyxReply, sendTelnyxReply. rewrite Hkey. reflexivity.
Qed.

(** X23: the first version forwards every inbound message that names its
    sender to [env.TO_EMAIL], whatever its destination, when its media
    is well formed and its sender, text, timestamp and image URLs can be
    printed: exactly one call goes to the email endpoint, and its
    plain-text body is its HTML body with the tags removed, so that no
    tag is left in it. *)
Theorem first_version_always_forwards
  (request : Request) (env : Environment)
  (data messagePayload sender fromPhone : value) :
  inboundEvent request data messagePayload ->
  get messagePayload "from" = Ok sender ->
  get sender "phone_number" = Ok fromPhone ->
  Earlier.mediaWellFormed messagePayload = true ->
  Earlier.mediaPrintable messagePayload = true ->
  printable fromPhone = true ->
  printable (textOf messagePayload) = true ->
  printable (get_opt data "occurred_at") = true ->
  exists c html,
    filter (isEmailCall (bindings env))
      (calls (snd (First.fetch net request env initial)))
    = c :: nil
    /\ formField "to" c = Some (ToString (TO_EMAIL env))
    /\ formField "html" c = Some html
    /\ formField "text" c = Some (First.stripTags html)
    /\ First.hasTag (First.stripTags html) = false.
Proof.
  intros Hin Hs Hf Hwf Hpm Hpf Hpt Hpd.
  pose proof Hin as (_ & _ & Hty & _ & Hdir).
  destruct (earlier_processMedia_total messagePayload _ _ initial Hdir Hwf Hpm)
    as (mediaHtml & w1 & gets & Hmedia & Hcalls & Hgets).
  exists (First.mailgunRequest env fromPhone
            (toLocaleString (get_opt data "occurred_at"))
            (textOf messagePayload) mediaHtml).
  eexists. split; [|split; [reflexivity|]; split; [reflexivity|];
                    split; [reflexivity|];
                    apply TagFacts.hasTag_stripTagsFrom].
  rewrite (first_fetch_inbound request env _ _ initial Hin), calls_respond.
  unfold First.processInbound.
  rewrite Hs, bind_lift_ok, Hf, bind_lift_ok.
  rewrite (messageText_ok _ _ _ Hdir), bind_lift_ok. fold (textOf messagePayload).
  rewrite (get_ok _ _ _ Hty "occurred_at"), bind_lift_ok.
  rewrite (friendlyDateOf_printable _ Hpd), bind_lift_ok.
  rewrite bind_run, Hmedia.
  unfold interpolate. cbn [forallb]. rewrite Hpf, Hpt. cbn [andb].
  rewrite bind_lift_ok, first_send_calls.
  rewrite Hcalls. cbn [calls initial app].
  rewrite List.filter_app, (filter_isEmailCall_gets (bindings env) gets Hgets).
  cbn [filter app]. unfold isEmailCall, First.mailgunRequest at 1 2.
  cbn [call_method call_url]. rewrite !String.eqb_refl. reflexivity.
Qed.

End EarlierProperties.

Lemma stripTags_keeps_text_without_tags_witness :
  First.hasTag "3 > 2, and 1 < 2" = false
  /\ First.stripTags "3 > 2, and 1 < 2" = "3 > 2, and 1 < 2".
Proof.
  split; [reflexivity|].
  apply (stripTags_keeps_text_without_tags "3 > 2, and 1 < 2").
  reflexivity.
Defined.

(** A message that says [1 < 2 and 3 > 2] loses what stands between the
    two signs. *)
Example stripTags_eats_comparisons :
  First.stripTags "1 < 2 and 3 > 2" = "1  2".
Proof. reflexivity. Qed.

(* ================================================================== *)
(** ** The further properties on concrete scenarios *)
(* ================================================================== *)

Ltac scenario := repeat split; vm_compute; reflexivity.

Lemma fetch_unreadable_event_witness :
  fetch (P:=Scenarios.platform) Demo.up
    (Demo.post Scenarios.eventWithoutPayload) (Demo.env None (VStr "KEY"))
    initial
  = ({| response_text := "Internal Server Error"; status := 500 |},
     {| calls := nil; console := "Worker error:" :: nil |}).
Proof.
  apply (fetch_unreadable_event (P:=Scenarios.platform) Demo.up
           (Demo.post Scenarios.eventWithoutPayload)
           (Demo.env None (VStr "KEY")) initial (TypeError "direction")).
  - reflexivity.
  - right. exists (Demo.dataOf Scenarios.eventWithoutPayload).
    split; vm_compute; reflexivity.
Defined.

Lemma fetch_invalid_destination_witness :
  getToPhone (Demo.payloadOf Scenarios.smsNoDestination) = Ok VNull
  /\ fetch (P:=Scenarios.platform) Demo.up
       (Demo.post Scenarios.smsNoDestination)
       (Demo.env (Some (Demo.stringify Demo.forwardRoute)) (VStr "KEY"))
       initial
     = (okResponse,
        {| calls := nil;
           console :=
             "Missing or invalid destination phone number in payload"
             :: nil |}).
Proof.
  split; [vm_compute; reflexivity|].
  apply (fetch_invalid_destination (P:=Scenarios.platform) Demo.up
           (Demo.post Scenarios.smsNoDestination)
           (Demo.env (Some (Demo.stringify Demo.forwardRoute)) (VStr "KEY"))
           (Demo.dataOf Scenarios.smsNoDestination)
           (Demo.payloadOf Scenarios.smsNoDestination)); scenario.
Defined.

Lemma fetch_unsupported_mode_witness :
  fetch (P:=Scenarios.platform) Demo.up (Demo.post Demo.smsHello)
    (Demo.env (Some (Demo.stringify Scenarios.faxRoute)) (VStr "KEY"))
    initial
  = (okResponse,
     {| calls := nil; console := "Unsupported route mode: fax" :: nil |}).
Proof.
  apply (fetch_unsupported_mode (P:=Scenarios.platform) Demo.up
           (Demo.post Demo.smsHello)
           (Demo.env (Some (Demo.stringify Scenarios.faxRoute)) (VStr "KEY"))
           (Demo.dataOf Demo.smsHello) (Demo.payloadOf Demo.smsHello)
           Scenarios.faxRoute (VStr "fax") "+15551230000");
    try scenario; discriminate.
Defined.

Lemma fetch_falsy_route_witness :
  JSON_parse (Platform:=Scenarios.platform) "null" = Some VNull
  /\ status (fst (fetch (P:=Scenarios.platform) Demo.up
                    (Demo.post Demo.smsHello)
                    (Demo.env (Some "null") (VStr "KEY")) initial)) = 200
  /\ calls (snd (fetch (P:=Scenarios.platform) Demo.up
                   (Demo.post Demo.smsHello)
                   (Demo.env (Some "null") (VStr "KEY")) initial)) = nil
  /\ console (snd (fetch (P:=Scenarios.platform) Demo.up
                     (Demo.post Demo.smsHello)
                     (Demo.env (Some "null") (VStr "KEY")) initial))
     = "No route configured for destination number: +15551230000" :: nil.
Proof.
  split; [vm_compute; reflexivity|].
  apply (fetch_falsy_route (P:=Scenarios.platform) Demo.up
           (Demo.post Demo.smsHello) (Demo.env (Some "null") (VStr "KEY"))
           (Demo.dataOf Demo.smsHello) (Demo.payloadOf Demo.smsHello)
           "+15551230000" "null").
  - scenario.
  - vm_compute. reflexivity.
  - vm_compute. reflexivity.
  - right. exists VNull. split; vm_compute; reflexivity.
Defined.

Lemma fetch_store_failure_witness :
  status (fst (fetch Demo.up (Demo.post Demo.smsHello)
                 Scenarios.brokenStore initial)) = 500
  /\ calls (snd (fetch Demo.up (Demo.post Demo.smsHello)
                   Scenarios.brokenStore initial)) = nil.
Proof.
  apply (fetch_store_failure Demo.up (Demo.post Demo.smsHello)
           Scenarios.brokenStore
           (Demo.dataOf Demo.smsHello) (Demo.payloadOf Demo.smsHello)
           "+15551230000" NetworkError); scenario.
Defined.

(** The reply is refused by the provider: the webhook is still
    acknowledged. *)
Lemma fetch_reply_outcomes_witness :
  fetch Scenarios.serverError (Demo.post Demo.smsHello)
    (Demo.env (Some (Demo.stringify Demo.autoReplyRoute)) (VStr "KEY"))
    initial
  = (okResponse,
     {| calls :=
          telnyxRequest
            (Demo.env (Some (Demo.stringify Demo.autoReplyRoute))
               (VStr "KEY"))
            (VStr "+15551230000") (VStr "+15557654321") (VStr "Thanks!")
          :: nil;
        console := "Telnyx reply error: quota exceeded" :: nil |}).
Proof.
  exact (fetch_reply_outcomes Scenarios.serverError (Demo.post Demo.smsHello)
           (Demo.env (Some (Demo.stringify Demo.autoReplyRoute)) (VStr "KEY"))
           (Demo.dataOf Demo.smsHello) (Demo.payloadOf Demo.smsHello)
           Demo.autoReplyRoute (VStr "Thanks!")
           "+15551230000" "+15557654321"
           ltac:(scenario) ltac:(scenario) ltac:(scenario) ltac:(scenario)
           ltac:(scenario) ltac:(scenario) ltac:(scenario)).
Defined.

(** The provider of email cannot be reached: the webhook gets a 500. *)
Lemma fetch_email_outcomes_witness :
  status (fst (fetch Demo.down (Demo.post Demo.smsHello)
                 (Demo.env (Some (Demo.stringify Demo.forwardRoute))
                    (VStr "KEY"))
                 initial)) = 500.
Proof.
  exact (fetch_email_outcomes Demo.down (Demo.post Demo.smsHello)
           (Demo.env (Some (Demo.stringify Demo.forwardRoute)) (VStr "KEY"))
           (Demo.dataOf Demo.smsHello) (Demo.payloadOf Demo.smsHello)
           Demo.forwardRoute (VStr "a@b.com") "+15551230000"
           EmptyString initial
           ltac:(scenario) ltac:(scenario) ltac:(scenario) ltac:(scenario)
           ltac:(scenario) ltac:(scenario) ltac:(scenario) ltac:(scenario)
           ltac:(scenario)).
Defined.

Lemma display_sender_agrees_with_reply_sender_witness :
  getFromPhone (Demo.payloadOf Scenarios.smsPunctuatedSender)
  = "+1 (555) 765-4321"
  /\ getFromPhoneForReply (Demo.payloadOf Scenarios.smsPunctuatedSender)
     = VStr "+15557654321"
  /\ normalizePhoneNumber
       (VStr (getFromPhone (Demo.payloadOf Scenarios.smsPunctuatedSender))
        : value nat)
     = VStr "+15557654321".
Proof.
  split; [reflexivity|]. split; [reflexivity|].
  apply (proj2 (display_sender_agrees_with_reply_sender
                  (Demo.payloadOf Scenarios.smsPunctuatedSender))).
  reflexivity.
Defined.

(** Four attachments, two of them pictures with a URL; the first fetch
    is rejected and the second is made all the same. *)
Lemma processMedia_fetches_each_image_once_witness :
  calls (snd (processMedia Scenarios.flaky
                (Demo.payloadOf Scenarios.mmsMixed) initial))
  = mediaRequest (VStr "https://example.com/1.jpg")
    :: mediaRequest (VStr "https://example.com/2.jpg") :: nil.
Proof.
  apply (proj2
           (processMedia_fetches_each_image_once Scenarios.flaky
              (Demo.payloadOf Scenarios.mmsMixed)
              (Scenarios.pdf :: Scenarios.picture "1.jpg"
               :: Scenarios.pictureWithoutUrl :: Scenarios.picture "2.jpg"
               :: nil)
              initial ltac:(scenario) ltac:(scenario) ltac:(scenario))).
Defined.

Lemma processMedia_without_images_witness :
  processMedia Demo.up (Demo.payloadOf Scenarios.mmsNoPictures) initial
  = (Ok EmptyString, initial).
Proof.
  apply (processMedia_without_images Demo.up
           (Demo.payloadOf Scenarios.mmsNoPictures)
           (Scenarios.pdf :: Scenarios.pictureWithoutUrl :: nil) initial);
    scenario.
Defined.

(** No route is stored for the number: the earlier version forwards to
    the fallback recipient. *)
Lemma earlier_forwards_without_route_witness :
  exists mediaHtml,
    filter (isEmailCall (bindings (Scenarios.environment None)))
      (calls (snd (Earlier.fetch Demo.up (Demo.post Demo.smsHello)
                     (Scenarios.environment None) initial)))
    = Earlier.mailgunRequest (Scenarios.environment None)
        (VStr "fallback@example.com") (VStr "+15557654321")
        "12/31/2023, 6:00:00 PM CST" (VStr "hello") mediaHtml
      :: nil.
Proof.
  exact (earlier_forwards_without_route Demo.up (Demo.post Demo.smsHello)
           (Scenarios.environment None)
           (Demo.dataOf Demo.smsHello) (Demo.payloadOf Demo.smsHello)
           (get_opt (Demo.payloadOf Demo.smsHello) "from")
           (VStr "+15557654321") (VStr "+1 (555) 123-0000") VNull
           ltac:(scenario) ltac:(scenario) ltac:(scenario) ltac:(scenario)
           ltac:(scenario) ltac:(scenario) ltac:(scenario) ltac:(scenario)
           ltac:(scenario) ltac:(scenario) ltac:(scenario) ltac:(scenario)).
Defined.

Lemma first_version_always_forwards_witness :
  exists c html,
    filter (isEmailCall (bindings (Scenarios.environment None)))
      (calls (snd (First.fetch Demo.up (Demo.post Demo.mmsHello)
                     (Scenarios.environment None) initial)))
    = c :: nil
    /\ formField "to" c = Some "fallback@example.com"
    /\ formField "html" c = Some html
    /\ formField "text" c = Some (First.stripTags html)
    /\ First.hasTag (First.stripTags html) = false.
Proof.
  exact (first_version_always_forwards Demo.up (Demo.post Demo.mmsHello)
           (Scenarios.environment None)
           (Demo.dataOf Demo.mmsHello) (Demo.payloadOf Demo.mmsHello)
           (get_opt (Demo.payloadOf Demo.mmsHello) "from")
           (VStr "+15557654321")
           ltac:(scenario) ltac:(scenario) ltac:(scenario) ltac:(scenario)
           ltac:(scenario) ltac:(scenario) ltac:(scenario) ltac:(scenario)).
Defined.

(** Canonical numbers on both sides, an [auto_reply] route and a key:
    the two versions post the same reply. *)
Lemma versions_agree_on_auto_reply_witness :
  Earlier.fetch (P:=Scenarios.platform) Demo.up
    (Demo.post Scenarios.smsCanonical)
    (Scenarios.environment (Some (Demo.stringify Demo.autoReplyRoute)))
    initial
  = fetch (P:=Scenarios.platform) Demo.up
      (Demo.post Scenarios.smsCanonical)
      (Demo.env (Some (Demo.stringify Demo.autoReplyRoute)) (VStr "KEY"))
      initial
  /\ calls (snd (fetch (P:=Scenarios.platform) Demo.up
                   (Demo.post Scenarios.smsCanonical)
                   (Demo.env (Some (Demo.stringify Demo.autoReplyRoute))
                      (VStr "KEY"))
                   initial))
     = telnyxRequest
         (Demo.env (Some (Demo.stringify Demo.autoReplyRoute)) (VStr "KEY"))
         (VStr "+15551230000") (VStr "+15557654321") (VStr "Thanks!")
       :: nil.
Proof.
  split; [|vm_compute; reflexivity].
  apply (versions_agree_on_auto_reply (P:=Scenarios.platform) Demo.up
           (Demo.post Scenarios.smsCanonical)
           (Scenarios.environment (Some (Demo.stringify Demo.autoReplyRoute)))
           (Demo.dataOf Scenarios.smsCanonical)
           (Demo.payloadOf Scenarios.smsCanonical)
           Demo.autoReplyRoute "+15551230000" "+15557654321"); scenario.
Defined.

(** A message that carries no sender at all. *)
Lemma display_sender_unknown_witness :
  getFromPhone (Demo.payloadOf Demo.smsNoSender) = "(Unknown)"
  /\ exists c html plain,
       calls (snd (fetch Demo.up (Demo.post Demo.smsNoSender)
                     (Demo.env (Some (Demo.stringify Demo.forwardRoute))
                        (VStr "KEY"))
                     initial))
       = c :: nil
       /\ formField "subject" c = Some "New SMS from (Unknown)"
       /\ formField "html" c = Some html
       /\ formField "text" c = Some plain
       /\ Str.contains html "<p><strong>From:</strong> (Unknown)</p>"
       /\ Str.contains plain "From: (Unknown)".
Proof.
  pose proof
    (display_sender_unknown Demo.up (Demo.post Demo.smsNoSender)
       (Demo.env (Some (Demo.stringify Demo.forwardRoute)) (VStr "KEY"))
       (Demo.dataOf Demo.smsNoSender) (Demo.payloadOf Demo.smsNoSender)
       ltac:(left; vm_compute; reflexivity)) as [Hdisplay Hemails].
  split; [exact Hdisplay|].
  destruct (Hemails
              ltac:(scenario)
              (mailgunRequest
                 (Demo.env (Some (Demo.stringify Demo.forwardRoute))
                    (VStr "KEY"))
                 (VStr "a@b.com") "(Unknown)" "12/31/2023, 6:00:00 PM CST"
                 (VStr "hello") EmptyString)
              ltac:(left; vm_compute; reflexivity)
              ltac:(vm_compute; reflexivity))
    as (html & plain & Hshown).
  eexists _, html, plain. split; [vm_compute; reflexivity | exact Hshown].
Defined.

(** C8, as stated, fails: the sender [12345] is malformed, no phone
    number, and cannot be replied to; it is displayed all the same, and
    no placeholder takes its place. *)
Lemma display_sender_malformed_verbatim :
  get_opt (get_opt (Demo.payloadOf Scenarios.smsShortCode) "from")
    "phone_number"
  = VStr "12345"
  /\ getFromPhoneForReply (Demo.payloadOf Scenarios.smsShortCode) = VNull
  /\ getFromPhone (Demo.payloadOf Scenarios.smsShortCode) = "12345"
  /\ exists c,
       calls (snd (fetch (P:=Scenarios.platform) Demo.up
                     (Demo.post Scenarios.smsShortCode)
                     (Demo.env (Some (Demo.stringify Demo.forwardRoute))
                        (VStr "KEY"))
                     initial))
       = c :: nil
       /\ formField "subject" c = Some "New SMS from 12345".
Proof.
  split; [reflexivity|]. split; [reflexivity|]. split; [reflexivity|].
  eexists. split; vm_compute; reflexivity.
Qed.

(** A message whose text is the empty string. *)
Lemma empty_text_is_no_text_witness :
  get_opt (Demo.payloadOf Demo.smsEmptyText) "text" = VStr EmptyString
  /\ messageText (Demo.payloadOf Demo.smsEmptyText) = Ok (VStr "(No text)")
  /\ exists c html plain,
       calls (snd (fetch Demo.up (Demo.post Demo.smsEmptyText)
                     (Demo.env (Some (Demo.stringify Demo.forwardRoute))
                        (VStr "KEY"))
                     initial))
       = c :: nil
       /\ formField "html" c = Some html
       /\ formField "text" c = Some plain
       /\ Str.contains html "<p><strong>Message:</strong> (No text)</p>"
       /\ Str.contains plain "Message: (No text)".
Proof.
  split; [vm_compute; reflexivity|].
  pose proof
    (empty_text_is_no_text Demo.up (Demo.post Demo.smsEmptyText)
       (Demo.env (Some (Demo.stringify Demo.forwardRoute)) (VStr "KEY"))
       (Demo.dataOf Demo.smsEmptyText) (Demo.payloadOf Demo.smsEmptyText)
       ltac:(scenario) ltac:(left; vm_compute; reflexivity))
    as [Htext Hemails].
  split; [exact Htext|].
  destruct (Hemails
              (mailgunRequest
                 (Demo.env (Some (Demo.stringify Demo.forwardRoute))
                    (VStr "KEY"))
                 (VStr "a@b.com") "+15557654321" "12/31/2023, 6:00:00 PM CST"
                 (VStr "(No text)") EmptyString)
              ltac:(left; vm_compute; reflexivity)
              ltac:(vm_compute; reflexivity))
    as (_ & html & plain & Hshown).
  eexists _, html, plain. split; [vm_compute; reflexivity | exact Hshown].
Defined.
